(** * PA-CRM backend: tenant-scoped services, document versioning, role gate

    A shallow embedding of the service layer of the CRM backend
    (src/services/feeService.ts, templateService.ts, documentService.ts,
    userService.ts), of the authentication middleware
    (src/middleware/auth.ts), of the user and template routes and
    controllers, of the validation functions of the models (src/models) and
    of the port fallback at the start of the server (src/index.ts).

    Conventions of the embedding.
    - The relational store behind the Prisma client is a record of tables;
      a table is the list of its rows in insertion order.  The primary key
      is enforced by [create]; of the foreign keys to User, ON DELETE
      RESTRICT is enforced by the delete of a user and ON UPDATE CASCADE by
      a change of a user's id.  That the row a new row points to exists,
      and the [createdAt]/[updatedAt] timestamps that the database engine
      maintains, are not part of the model.
    - The ORM client checks a query before it reaches the database: a
      [select] naming a field that the model lacks, and a [create] whose
      data lacks a column declared NOT NULL without a default
      ([Fee.status], [Commission.status]), are rejected.
    - Identifiers that the runtime draws at random (primary keys generated
      by the ORM, [uuidv4()]) are passed to the operation that draws them.
    - An [async] function that may throw returns a [Result]; a function
      that writes returns the new store next to its value.  The upload to
      object storage always succeeds.
    - JavaScript [number] columns holding money are binary64 floats; the
      integer columns ([version], [size]) are unbounded integers;
      [undefined] / [null] are [None].
    - bcrypt, jsonwebtoken and [JSON.stringify] are parameters of the
      definitions that call them. *)

From Stdlib Require Import Floats ZArith Ascii.
From stdpp Require Import base option list strings sorting.
From Equations Require Import Equations.

Open Scope Z_scope.
Set Warnings "-register-all".

(** ** Thrown values *)

Inductive Error :=
| JsError (message : string)                      (* throw new Error(message) *)
| AppError (message : string) (statusCode : Z)    (* throw new AppError(message, statusCode) *)
| RecordNotFound                                  (* the ORM's update/delete on a missing row *)
| UniqueConstraint (field : string)               (* the store's unique index refused the row *)
| UnknownField (field : string)                   (* the ORM rejects a query naming a field the model lacks *)
| MissingField (field : string)                   (* the ORM rejects a create without a required column *)
| ForeignKeyConstraint.                           (* ON DELETE RESTRICT: the row is still referenced *)

Inductive Result (A : Type) :=
| Ok (a : A)
| Throw (e : Error).
Arguments Ok {A} a.
Arguments Throw {A} e.

#[global] Instance Result_ret : MRet Result := fun A a => Ok a.
#[global] Instance Result_bind : MBind Result := fun A B f m =>
  match m with
  | Ok a => f a
  | Throw e => Throw e
  end.

(** ** JavaScript values that cross the HTTP boundary *)

Inductive Json :=
| JNull
| JBool (b : bool)
| JNum (n : Z)
| JStr (s : string)
| JArr (items : list Json)
| JObj (fields : list (string * Json)).

(** An object is the list of its own properties, in definition order. *)
Definition JsObject := list (string * Json).

Definition has_key (k : string) (o : JsObject) : bool :=
  existsb (fun kv => String.eqb (fst kv) k) o.

Fixpoint get_key (k : string) (o : JsObject) : option Json :=
  match o with
  | [] => None
  | (k', v) :: o' => if String.eqb k' k then Some v else get_key k o'
  end.

(** Truthiness of a value in a JavaScript condition. *)
Definition truthy (v : Json) : bool :=
  match v with
  | JNull => false
  | JBool b => b
  | JNum n => negb (Z.eqb n 0)
  | JStr s => negb (String.eqb s "")
  | JArr _ | JObj _ => true
  end.

(** [a || b] on a string that may be undefined. *)
Definition or_default (o : option string) (d : string) : string :=
  match o with
  | Some s => if String.eqb s "" then d else s
  | None => d
  end.

(** [`${x}`] on a string that may be undefined. *)
Definition interpolate (o : option string) : string :=
  match o with
  | Some s => s
  | None => "undefined"
  end.

(** [s.split(sep)] for a one-character separator. *)
Fixpoint split (sep : Ascii.ascii) (s : string) : list string :=
  match s with
  | EmptyString => [""]
  | String c s' =>
      if Ascii.eqb c sep then "" :: split sep s'
      else match split sep s' with
           | x :: xs => String c x :: xs
           | [] => [String c ""]
           end
  end.

(** [xs.includes(x)] on strings, [x] possibly undefined. *)
Definition includes (xs : list string) (x : option string) : bool :=
  match x with
  | Some v => existsb (String.eqb v) xs
  | None => false
  end.

(** ** Tables of the relational store *)

Class Model (R : Type) := row_id : R -> string.

Section Table.
Context {R : Type} `{Model R}.

Definition has_id (id : string) (r : R) : bool := String.eqb (row_id r) id.

(** [findFirst({ where })]: the first row satisfying the filter. *)
Definition findFirst (where_ : R -> bool) (t : list R) : option R :=
  find where_ t.

(** [findMany({ where })]. *)
Definition findMany (where_ : R -> bool) (t : list R) : list R :=
  List.filter where_ t.

(** [findUnique({ where: { id } })]. *)
Definition findUnique (id : string) (t : list R) : option R :=
  findFirst (has_id id) t.

(** [create({ data })]: the primary key must be new. *)
Definition create (r : R) (t : list R) : Result (list R) :=
  match findUnique (row_id r) t with
  | Some _ => Throw (UniqueConstraint "id")
  | None => Ok (t ++ [r])
  end.

Definition patch_row (id : string) (data : R -> R) (r : R) : R :=
  if has_id id r then data r else r.

(** [update({ where: { id }, data })]: throws when no row has the id,
    otherwise returns the row as written. *)
Definition update (id : string) (data : R -> R) (t : list R) : Result (R * list R) :=
  match findUnique id t with
  | None => Throw RecordNotFound
  | Some r => Ok (data r, map (patch_row id data) t)
  end.

(** [delete({ where: { id } })]: throws when no row has the id. *)
Definition delete (id : string) (t : list R) : Result (R * list R) :=
  match findUnique id t with
  | None => Throw RecordNotFound
  | Some r => Ok (r, List.filter (fun x => negb (has_id id x)) t)
  end.

(** The primary-key constraint. *)
Definition pk_unique (t : list R) : Prop := NoDup (map row_id t).
End Table.

(** ** Rows (prisma/migrations) *)

Record User := {
  user_id : string;
  user_email : string;
  user_password : string;
  user_firstName : string;
  user_lastName : string;
  user_role : string;
  user_tenantId : string }.

Record Fee := {
  fee_id : string;
  fee_caseId : string;
  fee_amount : float;
  fee_description : string;
  fee_type : string;
  fee_status : string;
  fee_dueDate : Z;
  fee_paidDate : option Z;
  fee_tenantId : string;
  fee_createdBy : string }.

Record Commission := {
  com_id : string;
  com_feeId : string;
  com_userId : string;
  com_amount : float;
  com_percentage : float;
  com_status : string;
  com_paidDate : option Z;
  com_tenantId : string }.

Record Document := {
  doc_id : string;
  doc_name : string;
  doc_type : string;
  doc_mimeType : string;
  doc_size : Z;
  doc_url : string;
  doc_ocrText : option string;
  doc_metadata : option string;
  doc_version : Z;
  doc_caseId : option string;
  doc_tenantId : string;
  doc_createdBy : string }.

Record DocumentVersion := {
  dv_id : string;
  dv_documentId : string;
  dv_version : Z;
  dv_url : string;
  dv_ocrText : option string;
  dv_metadata : option string;
  dv_createdBy : string }.

Record Template := {
  tpl_id : string;
  tpl_name : string;
  tpl_description : option string;
  tpl_content : string;
  tpl_category : string;
  tpl_variables : option string;
  tpl_tenantId : string;
  tpl_createdBy : string }.

#[global] Instance User_model : Model User := user_id.
#[global] Instance Fee_model : Model Fee := fee_id.
#[global] Instance Commission_model : Model Commission := com_id.
#[global] Instance Document_model : Model Document := doc_id.
#[global] Instance DocumentVersion_model : Model DocumentVersion := dv_id.
#[global] Instance Template_model : Model Template := tpl_id.

(** An object kept in the Spaces bucket by [PutObjectCommand]. *)
Record S3Object := {
  s3_bucket : option string;
  s3_key : string;
  s3_body : string;
  s3_contentType : string }.

(** ** The store: every table, and the object storage bucket *)

Record Store := {
  users : list User;
  fees : list Fee;
  commissions : list Commission;
  documents : list Document;
  documentVersions : list DocumentVersion;
  templates : list Template;
  spaces : list S3Object }.

Definition empty_store : Store :=
  {| users := []; fees := []; commissions := []; documents := [];
     documentVersions := []; templates := []; spaces := [] |}.

Definition set_users (t : list User) (s : Store) : Store :=
  {| users := t; fees := fees s; commissions := commissions s;
     documents := documents s; documentVersions := documentVersions s;
     templates := templates s; spaces := spaces s |}.

Definition set_fees (t : list Fee) (s : Store) : Store :=
  {| users := users s; fees := t; commissions := commissions s;
     documents := documents s; documentVersions := documentVersions s;
     templates := templates s; spaces := spaces s |}.

Definition set_commissions (t : list Commission) (s : Store) : Store :=
  {| users := users s; fees := fees s; commissions := t;
     documents := documents s; documentVersions := documentVersions s;
     templates := templates s; spaces := spaces s |}.

Definition set_documents (t : list Document) (s : Store) : Store :=
  {| users := users s; fees := fees s; commissions := commissions s;
     documents := t; documentVersions := documentVersions s;
     templates := templates s; spaces := spaces s |}.

Definition set_documentVersions (t : list DocumentVersion) (s : Store) : Store :=
  {| users := users s; fees := fees s; commissions := commissions s;
     documents := documents s; documentVersions := t;
     templates := templates s; spaces := spaces s |}.

Definition set_templates (t : list Template) (s : Store) : Store :=
  {| users := users s; fees := fees s; commissions := commissions s;
     documents := documents s; documentVersions := documentVersions s;
     templates := t; spaces := spaces s |}.

Definition set_spaces (t : list S3Object) (s : Store) : Store :=
  {| users := users s; fees := fees s; commissions := commissions s;
     documents := documents s; documentVersions := documentVersions s;
     templates := templates s; spaces := t |}.

(** [process.env], as far as the services read it. *)
Record Env := {
  JWT_SECRET : option string;
  JWT_EXPIRES_IN : option string;
  DO_SPACES_BUCKET : option string;
  DO_SPACES_CDN_URL : option string }.

(** ** src/services/feeService.ts *)

Module FeeService.

Record CreateFeeData := {
  caseId : string;
  amount : float;
  description : string;
  type : string;
  dueDate : Z;
  tenantId : string;
  createdBy : string }.

Record CreateCommissionData := {
  c_feeId : string;
  c_userId : string;
  c_percentage : float;
  c_tenantId : string }.

(** The [data] of [prisma.fee.create]: the columns of Fee that a caller
    supplies.  The migration declares [status] NOT NULL without a default,
    so the create cannot do without it; [paidDate] is nullable. *)
Record FeeCreateInput := {
  fi_caseId : string;
  fi_amount : float;
  fi_description : string;
  fi_type : string;
  fi_status : option string;
  fi_dueDate : Z;
  fi_paidDate : option Z;
  fi_tenantId : string;
  fi_createdBy : string }.

(** [prisma.fee.create({ data })]. *)
Definition fee_create (newId : string) (data : FeeCreateInput) (t : list Fee)
  : Result (Fee * list Fee) :=
  match fi_status data with
  | None => Throw (MissingField "status")
  | Some st =>
      let f := {| fee_id := newId; fee_caseId := fi_caseId data;
                  fee_amount := fi_amount data;
                  fee_description := fi_description data;
                  fee_type := fi_type data; fee_status := st;
                  fee_dueDate := fi_dueDate data;
                  fee_paidDate := fi_paidDate data;
                  fee_tenantId := fi_tenantId data;
                  fee_createdBy := fi_createdBy data |} in
      t' ← create f t;
      mret (f, t')
  end.

(** The [data] of [prisma.commission.create]; [status] is NOT NULL without
    a default here too. *)
Record CommissionCreateInput := {
  ci_feeId : string;
  ci_userId : string;
  ci_amount : float;
  ci_percentage : float;
  ci_status : option string;
  ci_paidDate : option Z;
  ci_tenantId : string }.

(** [prisma.commission.create({ data })]. *)
Definition commission_create (newId : string) (data : CommissionCreateInput)
    (t : list Commission) : Result (Commission * list Commission) :=
  match ci_status data with
  | None => Throw (MissingField "status")
  | Some st =>
      let c := {| com_id := newId; com_feeId := ci_feeId data;
                  com_userId := ci_userId data; com_amount := ci_amount data;
                  com_percentage := ci_percentage data; com_status := st;
                  com_paidDate := ci_paidDate data;
                  com_tenantId := ci_tenantId data |} in
      t' ← create c t;
      mret (c, t')
  end.

(** The fields of the model User (prisma/migrations, init). *)
Definition User_fields : list string :=
  ["id"; "email"; "password"; "firstName"; "lastName"; "role"; "tenantId";
   "createdAt"; "updatedAt"].

(** [select: { k: true, ... }]: the client rejects the query at the first
    name that is no field of the model. *)
Definition check_select (fields selected : list string) : Result unit :=
  match List.find (fun k => negb (existsb (String.eqb k) fields)) selected with
  | Some k => Throw (UnknownField k)
  | None => Ok tt
  end.

(** [user: { select: { id: true, name: true, email: true } }]. *)
Definition user_select : list string := ["id"; "name"; "email"].

(** What the selection keeps of a user: those of the selected fields that
    User has. *)
Record UserRef := { ref_id : string; ref_email : string }.

Definition select_user (u : User) : UserRef :=
  {| ref_id := user_id u; ref_email := user_email u |}.

(** [include: { commissions: { include: { user } } }]. *)
Definition include_commissions (s : Store) (f : Fee)
  : Fee * list (Commission * option UserRef) :=
  (f, map (fun c => (c, select_user <$> findUnique (com_userId c) (users s)))
        (findMany (fun c => String.eqb (com_feeId c) (fee_id f)) (commissions s))).

(** [data] is spread into the create as it is: it has no [status]. *)
Definition fee_data (data : CreateFeeData) : FeeCreateInput :=
  {| fi_caseId := caseId data; fi_amount := amount data;
     fi_description := description data; fi_type := type data;
     fi_status := None; fi_dueDate := dueDate data; fi_paidDate := None;
     fi_tenantId := tenantId data; fi_createdBy := createdBy data |}.

Definition createFee (newId : string) (data : CreateFeeData) (s : Store)
  : Result (Fee * Store) :=
  '(f, t) ← fee_create newId (fee_data data) (fees s);
  mret (f, set_fees t s).

Definition getFee (id tenant : string) (s : Store)
  : Result (option (Fee * list (Commission * option UserRef))) :=
  check_select User_fields user_select;;
  mret (include_commissions s <$>
          findFirst (fun f => has_id id f && String.eqb (fee_tenantId f) tenant)
            (fees s)).

(** The [data] of [updateFeeStatus]: [{ status, ...(paidDate ? { paidDate } : {}) }]. *)
Definition status_data (status : string) (paidDate : option Z) (f : Fee) : Fee :=
  {| fee_id := fee_id f; fee_caseId := fee_caseId f;
     fee_amount := fee_amount f; fee_description := fee_description f;
     fee_type := fee_type f; fee_status := status;
     fee_dueDate := fee_dueDate f;
     fee_paidDate := match paidDate with
                     | Some d => Some d
                     | None => fee_paidDate f
                     end;
     fee_tenantId := fee_tenantId f; fee_createdBy := fee_createdBy f |}.

Definition updateFeeStatus (id tenant status : string) (paidDate : option Z)
    (s : Store) : Result (Fee * Store) :=
  '(f, t) ← update id (status_data status paidDate) (fees s);
  mret (f, set_fees t s).

(** [{ ...data, amount }], the [data] that [createCommission] hands to the
    create. *)
Definition commission_data (data : CreateCommissionData) (fee : Fee)
  : CommissionCreateInput :=
  {| ci_feeId := c_feeId data; ci_userId := c_userId data;
     ci_amount := ((fee_amount fee * c_percentage data) / 100)%float;
     ci_percentage := c_percentage data; ci_status := None;
     ci_paidDate := None; ci_tenantId := c_tenantId data |}.

Definition createCommission (newId : string) (data : CreateCommissionData)
    (s : Store) : Result (Commission * Store) :=
  match findUnique (c_feeId data) (fees s) with
  | None => Throw (JsError "Fee not found")
  | Some fee =>
      '(c, t) ← commission_create newId (commission_data data fee)
                  (commissions s);
      mret (c, set_commissions t s)
  end.

Definition commission_status_data (status : string) (paidDate : option Z)
    (c : Commission) : Commission :=
  {| com_id := com_id c; com_feeId := com_feeId c; com_userId := com_userId c;
     com_amount := com_amount c; com_percentage := com_percentage c;
     com_status := status;
     com_paidDate := match paidDate with
                     | Some d => Some d
                     | None => com_paidDate c
                     end;
     com_tenantId := com_tenantId c |}.

Definition updateCommissionStatus (id tenant status : string)
    (paidDate : option Z) (s : Store) : Result (Commission * Store) :=
  '(c, t) ← update id (commission_status_data status paidDate) (commissions s);
  mret (c, set_commissions t s).

End FeeService.

(** ** src/services/templateService.ts *)

Module TemplateService.

Record CreateTemplateData := {
  name : string;
  description : option string;
  content : string;
  category : string;
  variables : option string;
  tenantId : string;
  createdBy : string }.

Record UpdateTemplateData := {
  u_name : option string;
  u_description : option string;
  u_content : option string;
  u_category : option string;
  u_variables : option string }.

Definition createTemplate (newId : string) (data : CreateTemplateData)
    (s : Store) : Result (Template * Store) :=
  let r := {| tpl_id := newId; tpl_name := name data;
              tpl_description := description data; tpl_content := content data;
              tpl_category := category data; tpl_variables := variables data;
              tpl_tenantId := tenantId data; tpl_createdBy := createdBy data |} in
  t ← create r (templates s);
  mret (r, set_templates t s).

Definition getTemplate (id tenant : string) (s : Store) : option Template :=
  findFirst (fun r => has_id id r && String.eqb (tpl_tenantId r) tenant)
    (templates s).

(** A field left undefined in [data] is not written. *)
Definition template_data (data : UpdateTemplateData) (r : Template) : Template :=
  {| tpl_id := tpl_id r;
     tpl_name := default (tpl_name r) (u_name data);
     tpl_description := match u_description data with
                        | Some d => Some d
                        | None => tpl_description r
                        end;
     tpl_content := default (tpl_content r) (u_content data);
     tpl_category := default (tpl_category r) (u_category data);
     tpl_variables := match u_variables data with
                      | Some v => Some v
                      | None => tpl_variables r
                      end;
     tpl_tenantId := tpl_tenantId r; tpl_createdBy := tpl_createdBy r |}.

Definition updateTemplate (id tenant : string) (data : UpdateTemplateData)
    (s : Store) : Result (Template * Store) :=
  '(r, t) ← update id (template_data data) (templates s);
  mret (r, set_templates t s).

Definition deleteTemplate (id tenant : string) (s : Store)
  : Result (Template * Store) :=
  '(r, t) ← delete id (templates s);
  mret (r, set_templates t s).

End TemplateService.

(** ** src/services/documentService.ts *)

Module DocumentService.

Record CreateDocumentData := {
  name : string;
  type : string;
  mimeType : string;
  size : Z;
  caseId : option string;
  tenantId : string;
  createdBy : string;
  metadata : option string }.

(** The MIME types handed to text extraction. *)
Definition ocr_types : list string :=
  ["application/pdf"; "image/jpeg"; "image/png"].

(** The placeholder that stands for the OCR service. *)
Definition extractTextFromDocument (file mimeType : string) : string :=
  "Sample extracted text from document".

Definition ocr_text (file mimeType : string) : option string :=
  if includes ocr_types (Some mimeType)
  then Some (extractTextFromDocument file mimeType)
  else None.

Definition version_desc (a b : DocumentVersion) : Prop :=
  dv_version b <= dv_version a.

#[global] Instance version_desc_dec a b : Decision (version_desc a b) :=
  Z_le_dec (dv_version b) (dv_version a).

Section WithRuntime.
Variable env : Env.
(** [JSON.stringify]. *)
Variable JSON_stringify : Json -> string.

(** [metadata ? JSON.stringify(metadata) : undefined]. *)
Definition stringify_metadata (metadata : option Json) : option string :=
  match metadata with
  | Some m => if truthy m then Some (JSON_stringify m) else None
  | None => None
  end.

Definition uploadToSpaces (file filename mimeType : string) (s : Store)
  : Result (string * Store) :=
  let object := {| s3_bucket := DO_SPACES_BUCKET env; s3_key := filename;
                   s3_body := file; s3_contentType := mimeType |} in
  mret (interpolate (DO_SPACES_CDN_URL env) +:+ "/" +:+ filename,
        set_spaces (spaces s ++ [object]) s).

Definition createDocument (newId uuid : string) (file : string)
    (data : CreateDocumentData) (metadata : option Json) (s : Store)
  : Result (Document * Store) :=
  let filename := uuid +:+ "-" +:+ name data in
  '(url, s1) ← uploadToSpaces file filename (mimeType data) s;
  let ocrText := ocr_text file (mimeType data) in
  let d := {| doc_id := newId; doc_name := name data; doc_type := type data;
              doc_mimeType := mimeType data; doc_size := size data;
              doc_url := url; doc_ocrText := ocrText;
              doc_metadata := stringify_metadata metadata;
              doc_version := 1; doc_caseId := caseId data;
              doc_tenantId := tenantId data;
              doc_createdBy := createdBy data |} in
  t ← create d (documents s1);
  mret (d, set_documents t s1).

(** [include: { versions: { orderBy: { version: 'desc' } } }]. *)
Definition include_versions (s : Store) (d : Document)
  : Document * list DocumentVersion :=
  (d, merge_sort version_desc
        (findMany (fun v => String.eqb (dv_documentId v) (doc_id d))
           (documentVersions s))).

Definition getDocument (id tenant : string) (s : Store)
  : option (Document * list DocumentVersion) :=
  include_versions s <$>
    findFirst (fun d => has_id id d && String.eqb (doc_tenantId d) tenant)
      (documents s).

(** The [data] of the final [document.update]; a field whose new value
    is undefined is not written. *)
Definition document_data (version : Z) (url : string)
    (ocrText metadata : option string) (d : Document) : Document :=
  {| doc_id := doc_id d; doc_name := doc_name d; doc_type := doc_type d;
     doc_mimeType := doc_mimeType d; doc_size := doc_size d;
     doc_url := url;
     doc_ocrText := match ocrText with
                    | Some t => Some t
                    | None => doc_ocrText d
                    end;
     doc_metadata := match metadata with
                     | Some m => Some m
                     | None => doc_metadata d
                     end;
     doc_version := version; doc_caseId := doc_caseId d;
     doc_tenantId := doc_tenantId d; doc_createdBy := doc_createdBy d |}.

Definition updateDocument (newVersionId uuid : string) (id tenant : string)
    (file : string) (metadata : option Json) (s : Store)
  : Result (Document * Store) :=
  match findFirst (fun d => has_id id d && String.eqb (doc_tenantId d) tenant)
          (documents s) with
  | None => Throw (JsError "Document not found")
  | Some document =>
      let filename := uuid +:+ "-" +:+ doc_name document in
      '(url, s1) ← uploadToSpaces file filename (doc_mimeType document) s;
      let ocrText := ocr_text file (doc_mimeType document) in
      let v := {| dv_id := newVersionId; dv_documentId := id;
                  dv_version := doc_version document + 1;
                  dv_url := url; dv_ocrText := ocrText;
                  dv_metadata := stringify_metadata metadata;
                  dv_createdBy := doc_createdBy document |} in
      tv ← create v (documentVersions s1);
      let s2 := set_documentVersions tv s1 in
      '(d, td) ← update id
                   (document_data (doc_version document + 1) url ocrText
                      (stringify_metadata metadata))
                   (documents s2);
      mret (d, set_documents td s2)
  end.

Definition getDocumentVersion (documentId : string) (version : Z)
    (tenant : string) (s : Store) : option DocumentVersion :=
  findFirst
    (fun v => String.eqb (dv_documentId v) documentId
              && Z.eqb (dv_version v) version
              && match findUnique (dv_documentId v) (documents s) with
                 | Some d => String.eqb (doc_tenantId d) tenant
                 | None => false
                 end)
    (documentVersions s).

(** The DocumentVersion rows of a document, in insertion order. *)
Definition versions_of (id : string) (s : Store) : list DocumentVersion :=
  findMany (fun v => String.eqb (dv_documentId v) id) (documentVersions s).

(** A run of re-uploads of one document. *)
Record Upload := {
  up_versionId : string;
  up_uuid : string;
  up_tenant : string;
  up_file : string;
  up_metadata : option Json }.

Fixpoint updateDocuments (id : string) (ups : list Upload) (s : Store)
  : Result Store :=
  match ups with
  | [] => Ok s
  | u :: ups' =>
      match updateDocument (up_versionId u) (up_uuid u) id (up_tenant u)
              (up_file u) (up_metadata u) s with
      | Ok (_, s') => updateDocuments id ups' s'
      | Throw e => Throw e
      end
  end.
End WithRuntime.

End DocumentService.

(** ** HTTP requests and responses (express) *)

(** The identity that a verified token yields: the payload as it was
    signed.  The middleware casts it to [{ userId, tenantId, role }] without
    looking at it, so the record keeps the properties that the code reads,
    [userId], [tenantId], [role] and [id], each undefined when the payload
    lacks it.  Property values other than strings are outside the model. *)
Record Claims := {
  userId : option string;
  tenantId : option string;
  role : option string;
  payload_id : option string }.        (* the property [id] *)

Record Request (B : Type) := {
  authorization : option string;      (* req.headers['authorization'] *)
  user : option Claims;               (* req.user *)
  params_userId : option string;      (* req.params.userId *)
  body : B }.
Arguments authorization {B} _.
Arguments user {B} _.
Arguments params_userId {B} _.
Arguments body {B} _.

Definition set_user {B} (c : Claims) (req : Request B) : Request B :=
  {| authorization := authorization req; user := Some c;
     params_userId := params_userId req; body := body req |}.

Record Response := {
  status : Z;
  json : option Json }.               (* None: [send()] without a body *)

Definition error_response (code : Z) (message : string) : Response :=
  {| status := code; json := Some (JObj [("error", JStr message)]) |}.

(** What a middleware does with a request: call [next()], or answer. *)
Inductive Outcome (B : Type) :=
| Next (req : Request B)
| Respond (res : Response).
Arguments Next {B} req.
Arguments Respond {B} res.

Definition Handler (B : Type) := Store -> Request B -> Response * Store.
Definition Middleware (B : Type) := Store -> Request B -> Outcome B.

(** [router.METHOD(path, m, h)]: [h] runs on the request that [m] passes on. *)
Definition guarded {B} (m : Middleware B) (h : Handler B) : Handler B :=
  fun s req =>
    match m s req with
    | Next req' => h s req'
    | Respond res => (res, s)
    end.

(** Modelled from the spec: src/utils/errorHandler.ts is not among the
    sources.  The outermost handler answers an [AppError] with its own 4xx
    status and short message, and anything else with a 500 and a generic
    body (spec, sections 6 and 7). *)
Definition errorHandler (e : Error) : Response :=
  match e with
  | AppError message code => error_response code message
  | _ => error_response 500 "Internal server error"
  end.

(** ** src/services/userService.ts *)

Module UserService.

Record CreateUserData := {
  email : string;
  password : string;
  firstName : string;
  lastName : string;
  c_tenantId : string }.

Record LoginData := {
  l_email : string;
  l_password : string }.

(** The user row as the object the ORM returns. *)
Definition user_object (u : User) : JsObject :=
  [("id", JStr (user_id u)); ("email", JStr (user_email u));
   ("password", JStr (user_password u));
   ("firstName", JStr (user_firstName u));
   ("lastName", JStr (user_lastName u)); ("role", JStr (user_role u));
   ("tenantId", JStr (user_tenantId u))].

(** [const { password, ...sanitizedUser } = user]. *)
Definition sanitizeUser (user : JsObject) : JsObject :=
  List.filter (fun kv => negb (String.eqb (fst kv) "password")) user.

(** [{ user, token }]. *)
Record Session := {
  s_user : JsObject;
  s_token : string }.

Definition by_email (e : string) (u : User) : bool :=
  String.eqb (user_email u) e.

(** [user.create]: primary key and the unique index on [email]. *)
Definition create_user (u : User) (t : list User) : Result (list User) :=
  match findFirst (by_email (user_email u)) t with
  | Some _ => Throw (UniqueConstraint "email")
  | None => create u t
  end.

Section WithRuntime.
Variable env : Env.
(** [bcrypt.hash(password, rounds)] and [bcrypt.compare(password, hash)]. *)
Variable bcrypt_hash : string -> Z -> string.
Variable bcrypt_compare : string -> string -> bool.
(** [jwt.sign(payload, secret, { expiresIn })]. *)
Variable jwt_sign : Claims -> string -> string -> string.

Definition generateToken (userId tenantId : string) : string :=
  let expiresIn := or_default (JWT_EXPIRES_IN env) "24h" in
  jwt_sign {| userId := Some userId; tenantId := Some tenantId;
              role := None; payload_id := None |}
    (or_default (JWT_SECRET env) "your-development-secret-key")
    expiresIn.

Definition createUser (newId : string) (data : CreateUserData) (s : Store)
  : Result (Session * Store) :=
  match findFirst (by_email (email data)) (users s) with
  | Some _ => Throw (AppError "User already exists" 400)
  | None =>
      let hashedPassword := bcrypt_hash (password data) 10 in
      let user := {| user_id := newId; user_email := email data;
                     user_password := hashedPassword;
                     user_firstName := firstName data;
                     user_lastName := lastName data;
                     user_role := "USER";
                     user_tenantId := c_tenantId data |} in
      t ← create_user user (users s);
      let token := generateToken (user_id user) (user_tenantId user) in
      mret ({| s_user := sanitizeUser (user_object user); s_token := token |},
            set_users t s)
  end.

Definition login (data : LoginData) (s : Store) : Result Session :=
  match findFirst (by_email (l_email data)) (users s) with
  | None => Throw (AppError "Invalid credentials" 401)
  | Some user =>
      if bcrypt_compare (l_password data) (user_password user) then
        let token := generateToken (user_id user) (user_tenantId user) in
        mret {| s_user := sanitizeUser (user_object user); s_token := token |}
      else Throw (AppError "Invalid credentials" 401)
  end.

Definition getUserProfile (userId : string) (s : Store) : Result JsObject :=
  match findUnique userId (users s) with
  | None => Throw (AppError "User not found" 404)
  | Some user => mret (sanitizeUser (user_object user))
  end.

(** [select: { id, email, firstName, lastName, role, ... }]. *)
Definition listed_user (u : User) : JsObject :=
  [("id", JStr (user_id u)); ("email", JStr (user_email u));
   ("firstName", JStr (user_firstName u));
   ("lastName", JStr (user_lastName u)); ("role", JStr (user_role u))].

Definition listUsers (tenantId : string) (s : Store) : list JsObject :=
  map listed_user
    (findMany (fun u => String.eqb (user_tenantId u) tenantId) (users s)).

Definition role_data (role : string) (u : User) : User :=
  {| user_id := user_id u; user_email := user_email u;
     user_password := user_password u; user_firstName := user_firstName u;
     user_lastName := user_lastName u; user_role := role;
     user_tenantId := user_tenantId u |}.

Definition changeUserRole (userId role : string) (s : Store)
  : Result (JsObject * Store) :=
  '(u, t) ← update userId (role_data role) (users s);
  mret (sanitizeUser (user_object u), set_users t s).

(** The rows that point to a user; each of these references is declared
    ON DELETE RESTRICT (prisma/migrations). *)
Definition references_user (userId : string) (s : Store) : bool :=
  existsb (fun f => String.eqb (fee_createdBy f) userId) (fees s)
  || existsb (fun c => String.eqb (com_userId c) userId) (commissions s)
  || existsb (fun d => String.eqb (doc_createdBy d) userId) (documents s)
  || existsb (fun v => String.eqb (dv_createdBy v) userId) (documentVersions s)
  || existsb (fun r => String.eqb (tpl_createdBy r) userId) (templates s).

Definition deleteUser (userId : string) (s : Store) : Result Store :=
  '(_, t) ← delete userId (users s);
  if references_user userId s then Throw ForeignKeyConstraint
  else mret (set_users t s).
End WithRuntime.

(** What [updateUserProfile] can be made to write.  The interface declares
    [firstName], [lastName] and [email]; the controller passes [req.body]
    whole and the service passes it on as the [data] of the update, so every
    column of User that the body carries is written.  Keys that are no
    column of User, and values that are no strings, are outside the model. *)
Record UpdateUserData := {
  u_id : option string;
  u_email : option string;
  u_password : option string;
  u_firstName : option string;
  u_lastName : option string;
  u_role : option string;
  u_tenantId : option string }.

(** The [data] of [updateUserProfile]; a field left undefined is not written. *)
Definition profile_data (data : UpdateUserData) (u : User) : User :=
  {| user_id := default (user_id u) (u_id data);
     user_email := default (user_email u) (u_email data);
     user_password := default (user_password u) (u_password data);
     user_firstName := default (user_firstName u) (u_firstName data);
     user_lastName := default (user_lastName u) (u_lastName data);
     user_role := default (user_role u) (u_role data);
     user_tenantId := default (user_tenantId u) (u_tenantId data) |}.

(** [user.update]: the row must exist; the primary key and the unique index
    on [email] refuse a value that another row holds. *)
Definition update_user (id : string) (data : User -> User) (t : list User)
  : Result (User * list User) :=
  match findUnique id t with
  | None => Throw RecordNotFound
  | Some u =>
      match findFirst (fun x => by_email (user_email (data u)) x
                                && negb (has_id id x)) t with
      | Some _ => Throw (UniqueConstraint "email")
      | None =>
          match findFirst (fun x => has_id (user_id (data u)) x
                                    && negb (has_id id x)) t with
          | Some _ => Throw (UniqueConstraint "id")
          | None => update id data t
          end
      end
  end.

(** ON UPDATE CASCADE: the rows that point to a user follow a change of the
    user's id. *)
Definition renamed (old new ref : string) : string :=
  if String.eqb ref old then new else ref.

Definition cascade_user_id (old new : string) (s : Store) : Store :=
  {| users := users s;
     fees := map (fun f =>
               {| fee_id := fee_id f; fee_caseId := fee_caseId f;
                  fee_amount := fee_amount f;
                  fee_description := fee_description f;
                  fee_type := fee_type f; fee_status := fee_status f;
                  fee_dueDate := fee_dueDate f; fee_paidDate := fee_paidDate f;
                  fee_tenantId := fee_tenantId f;
                  fee_createdBy := renamed old new (fee_createdBy f) |})
               (fees s);
     commissions := map (fun c =>
               {| com_id := com_id c; com_feeId := com_feeId c;
                  com_userId := renamed old new (com_userId c);
                  com_amount := com_amount c;
                  com_percentage := com_percentage c;
                  com_status := com_status c; com_paidDate := com_paidDate c;
                  com_tenantId := com_tenantId c |})
               (commissions s);
     documents := map (fun d =>
               {| doc_id := doc_id d; doc_name := doc_name d;
                  doc_type := doc_type d; doc_mimeType := doc_mimeType d;
                  doc_size := doc_size d; doc_url := doc_url d;
                  doc_ocrText := doc_ocrText d;
                  doc_metadata := doc_metadata d;
                  doc_version := doc_version d; doc_caseId := doc_caseId d;
                  doc_tenantId := doc_tenantId d;
                  doc_createdBy := renamed old new (doc_createdBy d) |})
               (documents s);
     documentVersions := map (fun v =>
               {| dv_id := dv_id v; dv_documentId := dv_documentId v;
                  dv_version := dv_version v; dv_url := dv_url v;
                  dv_ocrText := dv_ocrText v; dv_metadata := dv_metadata v;
                  dv_createdBy := renamed old new (dv_createdBy v) |})
               (documentVersions s);
     templates := map (fun r =>
               {| tpl_id := tpl_id r; tpl_name := tpl_name r;
                  tpl_description := tpl_description r;
                  tpl_content := tpl_content r;
                  tpl_category := tpl_category r;
                  tpl_variables := tpl_variables r;
                  tpl_tenantId := tpl_tenantId r;
                  tpl_createdBy := renamed old new (tpl_createdBy r) |})
               (templates s);
     spaces := spaces s |}.

Definition updateUserProfile (userId : string) (data : UpdateUserData)
    (s : Store) : Result (JsObject * Store) :=
  '(u, t) ← update_user userId (profile_data data) (users s);
  mret (sanitizeUser (user_object u),
        cascade_user_id userId (user_id u) (set_users t s)).

End UserService.

(** ** src/middleware/auth.ts *)

Module Auth.

(** [authHeader && authHeader.split(' ')[1]], kept when truthy. *)
Definition bearer_token (authHeader : option string) : option string :=
  match authHeader with
  | None => None
  | Some h =>
      if String.eqb h "" then None
      else match split " "%char h !! 1%nat with
           | Some token => if String.eqb token "" then None else Some token
           | None => None
           end
  end.

(** An entry [field: value] of a [where] clause; an undefined value is no
    condition. *)
Definition where_eq (value : option string) (field : string) : bool :=
  match value with
  | Some v => String.eqb field v
  | None => true
  end.

Section WithRuntime.
Variable env : Env.
(** [jwt.verify(token, secret)]; [None] when it throws. *)
Variable jwt_verify : string -> string -> option Claims.

Definition authenticateToken {B} : Middleware B := fun s req =>
  match bearer_token (authorization req) with
  | None => Respond (error_response 401 "No token provided")
  | Some token =>
      match jwt_verify token
              (or_default (JWT_SECRET env) "your-development-secret-key") with
      | None => Respond (error_response 401 "Invalid token")
      | Some decoded =>
          match findFirst
                  (fun u => where_eq (userId decoded) (user_id u)
                            && where_eq (tenantId decoded) (user_tenantId u))
                  (users s) with
          | None => Respond (error_response 401 "Invalid token")
          | Some _ => Next (set_user decoded req)
          end
      end
  end.
End WithRuntime.

Definition requireRole {B} (roles : list string) : Middleware B := fun _ req =>
  match user req with
  | None => Respond (error_response 401 "User not authenticated")
  | Some u =>
      if includes roles (role u) then Next req
      else Respond (error_response 403 "Insufficient permissions")
  end.

End Auth.

(** ** src/controllers/userController.ts *)

Module UserController.

Record ChangeRoleBody := {
  b_userId : string;
  b_role : string }.

Definition session_json (r : UserService.Session) : Json :=
  JObj [("user", JObj (UserService.s_user r));
        ("token", JStr (UserService.s_token r))].

Section WithRuntime.
Variable env : Env.
Variable bcrypt_hash : string -> Z -> string.
Variable bcrypt_compare : string -> string -> bool.
Variable jwt_sign : Claims -> string -> string -> string.

Definition register (newId : string) : Handler UserService.CreateUserData :=
  fun s req =>
    match UserService.createUser env bcrypt_hash jwt_sign newId (body req) s with
    | Ok (user, s') =>
        ({| status := 201; json := Some (JObj [("user", session_json user)]) |}, s')
    | Throw err => (errorHandler err, s)
    end.

Definition login : Handler UserService.LoginData := fun s req =>
  match UserService.login env bcrypt_compare jwt_sign (body req) s with
  | Ok result => ({| status := 200; json := Some (session_json result) |}, s)
  | Throw err => (errorHandler err, s)
  end.

Definition getProfile {B} : Handler B := fun s req =>
  match user req ≫= userId with
  | Some uid =>
      if String.eqb uid "" then
        (errorHandler (AppError "User not authenticated" 401), s)
      else
        match UserService.getUserProfile uid s with
        | Ok u => ({| status := 200; json := Some (JObj [("user", JObj u)]) |}, s)
        | Throw err => (errorHandler err, s)
        end
  | None => (errorHandler (AppError "User not authenticated" 401), s)
  end.

Definition listUsers {B} : Handler B := fun s req =>
  match user req ≫= tenantId with
  | Some tid =>
      if String.eqb tid "" then
        (errorHandler (AppError "Tenant ID is required" 400), s)
      else
        ({| status := 200;
            json := Some (JObj [("users",
                                 JArr (map JObj (UserService.listUsers tid s)))]) |},
         s)
  | None => (errorHandler (AppError "Tenant ID is required" 400), s)
  end.

Definition changeUserRole : Handler ChangeRoleBody := fun s req =>
  match UserService.changeUserRole (b_userId (body req)) (b_role (body req)) s with
  | Ok (u, s') => ({| status := 200; json := Some (JObj [("user", JObj u)]) |}, s')
  | Throw err => (errorHandler err, s)
  end.

Definition deleteUser {B} : Handler B := fun s req =>
  match params_userId req with
  | Some uid =>
      match UserService.deleteUser uid s with
      | Ok s' => ({| status := 204; json := None |}, s')
      | Throw err => (errorHandler err, s)
      end
  | None => (errorHandler (JsError "PrismaClientValidationError"), s)
  end.
Definition updateProfile : Handler UserService.UpdateUserData := fun s req =>
  match user req ≫= userId with
  | Some uid =>
      if String.eqb uid "" then
        (errorHandler (AppError "User not authenticated" 401), s)
      else
        match UserService.updateUserProfile uid (body req) s with
        | Ok (u, s') =>
            ({| status := 200; json := Some (JObj [("user", JObj u)]) |}, s')
        | Throw err => (errorHandler err, s)
        end
  | None => (errorHandler (AppError "User not authenticated" 401), s)
  end.
End WithRuntime.

End UserController.

(** ** src/routes/userRoutes.ts, mounted under /api/users *)

Module UserRoutes.
Section WithRuntime.
Variable env : Env.
Variable bcrypt_hash : string -> Z -> string.
Variable bcrypt_compare : string -> string -> bool.
Variable jwt_sign : Claims -> string -> string -> string.
Variable jwt_verify : string -> string -> option Claims.

(** POST /register *)
Definition post_register (newId : string)
  : Handler UserService.CreateUserData :=
  UserController.register env bcrypt_hash jwt_sign newId.

(** POST /login *)
Definition post_login : Handler UserService.LoginData :=
  UserController.login env bcrypt_compare jwt_sign.

(** GET /profile *)
Definition get_profile {B} : Handler B :=
  guarded (Auth.authenticateToken env jwt_verify) UserController.getProfile.

(** GET / *)
Definition get_users {B} : Handler B :=
  guarded (Auth.authenticateToken env jwt_verify)
    (guarded (Auth.requireRole ["ADMIN"]) UserController.listUsers).

(** PATCH /role *)
Definition patch_role : Handler UserController.ChangeRoleBody :=
  guarded (Auth.authenticateToken env jwt_verify)
    (guarded (Auth.requireRole ["ADMIN"]) UserController.changeUserRole).

(** DELETE /:userId *)
Definition delete_user {B} : Handler B :=
  guarded (Auth.authenticateToken env jwt_verify)
    (guarded (Auth.requireRole ["ADMIN"]) UserController.deleteUser).

(** PUT /profile *)
Definition put_profile : Handler UserService.UpdateUserData :=
  guarded (Auth.authenticateToken env jwt_verify) UserController.updateProfile.
End WithRuntime.
End UserRoutes.

(** ** src/controllers/templateController.ts *)

Module TemplateController.

(** What a template request carries besides its headers. *)
Record TemplateInput := {
  p_id : string;                       (* req.params.id *)
  b_name : option string;              (* req.body.name *)
  b_description : option string;
  b_content : option string;
  b_category : option string;
  b_variables : option string }.

(** [res.json(template)]. *)
Definition nullable (o : option string) : Json :=
  match o with
  | Some v => JStr v
  | None => JNull
  end.

Definition template_json (r : Template) : Json :=
  JObj [("id", JStr (tpl_id r)); ("name", JStr (tpl_name r));
        ("description", nullable (tpl_description r));
        ("content", JStr (tpl_content r)); ("category", JStr (tpl_category r));
        ("variables", nullable (tpl_variables r));
        ("tenantId", JStr (tpl_tenantId r));
        ("createdBy", JStr (tpl_createdBy r))].

Definition unauthorized : Response := error_response 401 "Unauthorized".

(** A string that may be undefined, in a condition. *)
Definition present (o : option string) : bool :=
  match o with
  | Some v => negb (String.eqb v "")
  | None => false
  end.

Definition createTemplate (newId : string) : Handler TemplateInput :=
  fun s req =>
    let tenant := user req ≫= tenantId in
    let createdBy := user req ≫= payload_id in
    if negb (present tenant) || negb (present createdBy) then (unauthorized, s)
    else
      match tenant, createdBy, b_name (body req), b_content (body req),
            b_category (body req) with
      | Some tid, Some uid, Some name, Some content, Some category =>
          match TemplateService.createTemplate newId
                  {| TemplateService.name := name;
                     TemplateService.description := b_description (body req);
                     TemplateService.content := content;
                     TemplateService.category := category;
                     TemplateService.variables := b_variables (body req);
                     TemplateService.tenantId := tid;
                     TemplateService.createdBy := uid |} s with
          | Ok (r, s') => ({| status := 201; json := Some (template_json r) |}, s')
          | Throw _ => (error_response 500 "Failed to create template", s)
          end
      | _, _, _, _, _ =>
          (* the ORM refuses data that lacks a required column *)
          (error_response 500 "Failed to create template", s)
      end.

Definition getTemplate : Handler TemplateInput := fun s req =>
  match user req ≫= tenantId with
  | Some tid =>
      if String.eqb tid "" then (unauthorized, s)
      else
        match TemplateService.getTemplate (p_id (body req)) tid s with
        | None => (error_response 404 "Template not found", s)
        | Some r => ({| status := 200; json := Some (template_json r) |}, s)
        end
  | None => (unauthorized, s)
  end.

Definition updateTemplate : Handler TemplateInput := fun s req =>
  match user req ≫= tenantId with
  | Some tid =>
      if String.eqb tid "" then (unauthorized, s)
      else
        match TemplateService.updateTemplate (p_id (body req)) tid
                {| TemplateService.u_name := b_name (body req);
                   TemplateService.u_description := b_description (body req);
                   TemplateService.u_content := b_content (body req);
                   TemplateService.u_category := b_category (body req);
                   TemplateService.u_variables := b_variables (body req) |} s with
        | Ok (r, s') => ({| status := 200; json := Some (template_json r) |}, s')
        | Throw _ => (error_response 500 "Failed to update template", s)
        end
  | None => (unauthorized, s)
  end.

Definition deleteTemplate : Handler TemplateInput := fun s req =>
  match user req ≫= tenantId with
  | Some tid =>
      if String.eqb tid "" then (unauthorized, s)
      else
        match TemplateService.deleteTemplate (p_id (body req)) tid s with
        | Ok (_, s') => ({| status := 204; json := None |}, s')
        | Throw _ => (error_response 500 "Failed to delete template", s)
        end
  | None => (unauthorized, s)
  end.

End TemplateController.

(** ** src/routes/templateRoutes.ts, mounted under /api/templates *)

Module TemplateRoutes.
Section WithRuntime.
Variable env : Env.
Variable jwt_verify : string -> string -> option Claims.

(** [router.use(authenticateToken)] stands before every route. *)
Definition authenticated (h : Handler TemplateController.TemplateInput)
  : Handler TemplateController.TemplateInput :=
  guarded (Auth.authenticateToken env jwt_verify) h.

(** POST / *)
Definition post_template (newId : string) :=
  authenticated (TemplateController.createTemplate newId).

(** GET /:id *)
Definition get_template := authenticated TemplateController.getTemplate.

(** PUT /:id *)
Definition put_template := authenticated TemplateController.updateTemplate.

(** DELETE /:id *)
Definition delete_template := authenticated TemplateController.deleteTemplate.
End WithRuntime.
End TemplateRoutes.

(** ** src/models: the validation functions *)

Module Models.

(** [if (cond) errors.push(message)]. *)
Definition push_if (cond : bool) (message : string) (errors : list string)
  : list string :=
  if cond then errors ++ [message] else errors.

(** [!field] on a string. *)
Definition missing (field : string) : bool := String.eqb field "".

Record Tenant := {
  tenant_id : string;
  tenant_name : string;
  tenant_domain : string }.

Record Claim := {
  claim_id : string;
  claim_title : string;
  claim_description : string;
  claim_status : string;
  claim_tenantId : string;
  claim_userId : string }.

Record Contact := {
  contact_id : string;
  contact_name : string;
  contact_email : string;
  contact_phone : string;
  contact_tenantId : string }.

Record Insurer := {
  insurer_id : string;
  insurer_name : string;
  insurer_email : string;
  insurer_phone : string;
  insurer_tenantId : string }.

Definition validateUser (user : User) : list string :=
  let errors := [] in
  let errors := push_if (missing (user_email user)) "Email is required" errors in
  let errors := push_if (missing (user_password user)) "Password is required" errors in
  let errors := push_if (missing (user_tenantId user)) "Tenant ID is required" errors in
  let errors := push_if (missing (user_firstName user)) "First name is required" errors in
  let errors := push_if (missing (user_lastName user)) "Last name is required" errors in
  let errors := push_if (missing (user_role user)) "Role is required" errors in
  errors.

Definition validateTenant (tenant : Tenant) : list string :=
  let errors := [] in
  let errors := push_if (missing (tenant_name tenant)) "Name is required" errors in
  let errors := push_if (missing (tenant_domain tenant)) "Domain is required" errors in
  errors.

Definition validateClaim (claim : Claim) : list string :=
  let errors := [] in
  let errors := push_if (missing (claim_title claim)) "Title is required" errors in
  let errors := push_if (missing (claim_description claim)) "Description is required" errors in
  let errors := push_if (missing (claim_status claim)) "Status is required" errors in
  let errors := push_if (missing (claim_tenantId claim)) "Tenant ID is required" errors in
  let errors := push_if (missing (claim_userId claim)) "User ID is required" errors in
  errors.

Definition validateContact (contact : Contact) : list string :=
  let errors := [] in
  let errors := push_if (missing (contact_name contact)) "Name is required" errors in
  let errors := push_if (missing (contact_email contact)) "Email is required" errors in
  let errors := push_if (missing (contact_phone contact)) "Phone is required" errors in
  let errors := push_if (missing (contact_tenantId contact)) "Tenant ID is required" errors in
  errors.

Definition validateInsurer (insurer : Insurer) : list string :=
  let errors := [] in
  let errors := push_if (missing (insurer_name insurer)) "Name is required" errors in
  let errors := push_if (missing (insurer_email insurer)) "Email is required" errors in
  let errors := push_if (missing (insurer_phone insurer)) "Phone is required" errors in
  let errors := push_if (missing (insurer_tenantId insurer)) "Tenant ID is required" errors in
  errors.

End Models.

(** ** src/index.ts: start of the HTTP server *)

Module Server.

(** How [startServer] ends: the server listens on a port, or the process
    exits with a code. *)
Inductive Startup :=
| Listening (port : Z)
| Exited (code : Z).

Section WithRuntime.
(** [app.listen(port)]: [true] when the callback fires, [false] when the
    server emits ['error'] (the port is in use, or any other error). *)
Variable listen : Z -> bool.

Equations? startServer (port : Z) : Startup
  by wf (Z.to_nat (3010 - port)) lt :=
  startServer port :=
    if listen port then Listening port
    else match Z_lt_dec port 3010 with
         | left _ => startServer (port + 1)
         | right _ => Exited 1
         end.
Proof. lia. Qed.
End WithRuntime.

End Server.

(** * Vocabulary of the statements *)

(** The filter [{ id, tenantId }] of the tenant-scoped document lookups. *)
Definition in_tenant (id tenant : string) (d : Document) : bool :=
  has_id id d && String.eqb (doc_tenantId d) tenant.

(** Every DocumentVersion row belongs to a stored document. *)
Definition versions_reference_documents (s : Store) : Prop :=
  forall v, v ∈ documentVersions s -> dv_documentId v ∈ map doc_id (documents s).

(** The retrieval URL that [uploadToSpaces] returns for a document name. *)
Definition upload_url (env : Env) (uuid name : string) : string :=
  interpolate (DO_SPACES_CDN_URL env) +:+ "/" +:+ (uuid +:+ "-" +:+ name).

(** The DocumentVersion row that a re-upload of [document] inserts. *)
Definition version_row (env : Env) (JSON_stringify : Json -> string)
    (newVersionId uuid id file : string) (metadata : option Json)
    (document : Document) : DocumentVersion :=
  {| dv_id := newVersionId; dv_documentId := id;
     dv_version := doc_version document + 1;
     dv_url := upload_url env uuid (doc_name document);
     dv_ocrText := DocumentService.ocr_text file (doc_mimeType document);
     dv_metadata := DocumentService.stringify_metadata JSON_stringify metadata;
     dv_createdBy := doc_createdBy document |}.

(** What a re-upload of [document] writes into the Document row. *)
Definition live_data (env : Env) (JSON_stringify : Json -> string)
    (uuid file : string) (metadata : option Json) (document : Document)
  : Document -> Document :=
  DocumentService.document_data (doc_version document + 1)
    (upload_url env uuid (doc_name document))
    (DocumentService.ocr_text file (doc_mimeType document))
    (DocumentService.stringify_metadata JSON_stringify metadata).

(** The bookkeeping invariant of one document: it is stored under [tenant],
    its version rows are [vids] in insertion order, they are numbered from
    2 upwards, and the live version is their count plus one. *)
Definition tracked (id tenant : string) (vids : list string) (s : Store) : Prop :=
  pk_unique (documents s) /\
  (exists d, findUnique id (documents s) = Some d /\
             doc_tenantId d = tenant /\
             doc_version d = Z.of_nat (length vids) + 1) /\
  map dv_id (DocumentService.versions_of id s) = vids /\
  map dv_version (DocumentService.versions_of id s)
  = seqZ 2 (Z.of_nat (length vids)).

(** The character [c] occurs in [s]. *)
Fixpoint has_char (c : Ascii.ascii) (s : string) : bool :=
  match s with
  | EmptyString => false
  | String c' s' => Ascii.eqb c' c || has_char c s'
  end.

(** The key both [jwt.sign] and [jwt.verify] are called with. *)
Definition secret (env : Env) : string :=
  or_default (JWT_SECRET env) "your-development-secret-key".

(** The answer of the role gate to an identity without the role. *)
Definition forbidden : Response :=
  error_response 403 "Insufficient permissions".

(** The role of the identity is one of [roles]. *)
Definition role_in (roles : list string) (c : Claims) : Prop :=
  exists r, role c = Some r /\ r ∈ roles.

(** The row passes the filter that [authenticateToken] builds from a
    payload: it has the payload's [userId] and [tenantId], as far as the
    payload has them. *)
Definition accepted_by (c : Claims) (u : User) : Prop :=
  (forall uid, userId c = Some uid -> user_id u = uid) /\
  (forall tid, tenantId c = Some tid -> user_tenantId u = tid).

(** An identity with a user id and a tenant id and nothing else. *)
Definition issued_claims (uid tid : string) : Claims :=
  {| userId := Some uid; tenantId := Some tid; role := None;
     payload_id := None |}.

(** The row that [createUser] inserts. *)
Definition new_user (bcrypt_hash : string -> Z -> string) (newId : string)
    (data : UserService.CreateUserData) : User :=
  {| user_id := newId; user_email := UserService.email data;
     user_password := bcrypt_hash (UserService.password data) 10;
     user_firstName := UserService.firstName data;
     user_lastName := UserService.lastName data;
     user_role := "USER"; user_tenantId := UserService.c_tenantId data |}.

(** The object sent back for a user: every column but the password. *)
Definition public_user (u : User) : JsObject :=
  [("id", JStr (user_id u)); ("email", JStr (user_email u));
   ("firstName", JStr (user_firstName u)); ("lastName", JStr (user_lastName u));
   ("role", JStr (user_role u)); ("tenantId", JStr (user_tenantId u))].

(** The answer of POST /register: [res.status(201).json({ user })]. *)
Definition created (sess : Json) : Response :=
  {| status := 201; json := Some (JObj [("user", sess)]) |}.

(** The object that an upload of [file] puts into the bucket. *)
Definition stored_object (env : Env) (uuid file name mimeType : string)
  : S3Object :=
  {| s3_bucket := DO_SPACES_BUCKET env; s3_key := uuid +:+ "-" +:+ name;
     s3_body := file; s3_contentType := mimeType |}.

(** * Sample data *)

Definition fee_T1 : Fee :=
  {| fee_id := "fee-1"; fee_caseId := "case-1"; fee_amount := 1000%float;
     fee_description := "Adjuster fee"; fee_type := "PERCENTAGE";
     fee_status := "PENDING"; fee_dueDate := 1750000000000;
     fee_paidDate := None; fee_tenantId := "T1"; fee_createdBy := "u-1" |}.

Definition template_T1 : Template :=
  {| tpl_id := "tpl-1"; tpl_name := "Welcome letter";
     tpl_description := None; tpl_content := "Dear {{name}}";
     tpl_category := "LETTER"; tpl_variables := None;
     tpl_tenantId := "T1"; tpl_createdBy := "u-1" |}.

Definition document_T1 : Document :=
  {| doc_id := "doc-1"; doc_name := "policy.pdf"; doc_type := "POLICY";
     doc_mimeType := "application/pdf"; doc_size := 2048;
     doc_url := "https://cdn.example/k0-policy.pdf";
     doc_ocrText := Some "Sample extracted text from document";
     doc_metadata := Some "{}"; doc_version := 1; doc_caseId := None;
     doc_tenantId := "T1"; doc_createdBy := "u-1" |}.

Definition commission_T1 : Commission :=
  {| com_id := "com-1"; com_feeId := "fee-1"; com_userId := "u-1";
     com_amount := 150%float; com_percentage := 15%float;
     com_status := "PENDING"; com_paidDate := None; com_tenantId := "T1" |}.

Definition user_T1 : User :=
  {| user_id := "u-1"; user_email := "a@x.com"; user_password := "$2a$10$hash";
     user_firstName := "Ada"; user_lastName := "Adjuster";
     user_role := "ADMIN"; user_tenantId := "T1" |}.

(** A store in which tenant T1 owns one row of every table. *)
Definition store_T1 : Store :=
  {| users := [user_T1]; fees := [fee_T1]; commissions := [commission_T1];
     documents := [document_T1]; documentVersions := [];
     templates := [template_T1]; spaces := [] |}.

Definition sample_env : Env :=
  {| JWT_SECRET := Some "s3cret"; JWT_EXPIRES_IN := None;
     DO_SPACES_BUCKET := Some "crm";
     DO_SPACES_CDN_URL := Some "https://cdn.example" |}.

Definition rename_data : TemplateService.UpdateTemplateData :=
  {| TemplateService.u_name := Some "Renamed by T2";
     TemplateService.u_description := None;
     TemplateService.u_content := None;
     TemplateService.u_category := None;
     TemplateService.u_variables := None |}.

Definition commission_15 : FeeService.CreateCommissionData :=
  {| FeeService.c_feeId := "fee-1"; FeeService.c_userId := "u-1";
     FeeService.c_percentage := 15%float; FeeService.c_tenantId := "T1" |}.

Definition fee_2000 (tenant : string) : FeeService.CreateFeeData :=
  {| FeeService.caseId := "case-1"; FeeService.amount := 2000%float;
     FeeService.description := "Contingency fee"; FeeService.type := "FLAT";
     FeeService.dueDate := 1750000000000; FeeService.tenantId := tenant;
     FeeService.createdBy := "u-1" |}.

Definition commission_10 (feeId tenant : string) : FeeService.CreateCommissionData :=
  {| FeeService.c_feeId := feeId; FeeService.c_userId := "u-1";
     FeeService.c_percentage := 10%float; FeeService.c_tenantId := tenant |}.

(** A rendering of metadata that is enough for the examples. *)
Definition sample_stringify (j : Json) : string :=
  match j with
  | JObj [] => "{}"
  | _ => "{...}"
  end.

Definition policy_pdf : DocumentService.CreateDocumentData :=
  {| DocumentService.name := "policy.pdf"; DocumentService.type := "POLICY";
     DocumentService.mimeType := "application/pdf";
     DocumentService.size := 2048; DocumentService.caseId := None;
     DocumentService.tenantId := "T1"; DocumentService.createdBy := "u-1";
     DocumentService.metadata := None |}.

Definition notes_txt : DocumentService.CreateDocumentData :=
  {| DocumentService.name := "notes.txt"; DocumentService.type := "NOTE";
     DocumentService.mimeType := "text/plain";
     DocumentService.size := 12; DocumentService.caseId := None;
     DocumentService.tenantId := "T1"; DocumentService.createdBy := "u-1";
     DocumentService.metadata := None |}.

Definition reupload (n : string) : DocumentService.Upload :=
  {| DocumentService.up_versionId := "ver-" +:+ n;
     DocumentService.up_uuid := "k" +:+ n;
     DocumentService.up_tenant := "T1";
     DocumentService.up_file := "%PDF " +:+ n;
     DocumentService.up_metadata := None |}.

(** Stand-ins for bcrypt and jsonwebtoken, enough for the examples. *)
Definition sample_hash (password : string) (rounds : Z) : string :=
  "$2a$10$" +:+ password.

Definition sample_compare (password hash : string) : bool :=
  String.eqb hash (sample_hash password 10).

(** The stand-in for jsonwebtoken spells the key and the payload out in the
    token: every character of a string behind an "x", the string closed by
    a ".", an undefined property as "-", a defined one behind a "+". *)
Fixpoint spell (v : string) : string :=
  match v with
  | EmptyString => "."
  | String c v' => String "x" (String c (spell v'))
  end.

Definition spell_opt (o : option string) : string :=
  match o with
  | None => "-"
  | Some v => String "+" (spell v)
  end.

Fixpoint unspell (t : string) : option (string * string) :=
  match t with
  | EmptyString => None
  | String a t1 =>
      if Ascii.eqb a "."%char then Some (EmptyString, t1)
      else match t1 with
           | EmptyString => None
           | String c t2 =>
               match unspell t2 with
               | Some (v, rest) => Some (String c v, rest)
               | None => None
               end
           end
  end.

Definition unspell_opt (t : string) : option (option string * string) :=
  match t with
  | EmptyString => None
  | String a t1 =>
      if Ascii.eqb a "-"%char then Some (None, t1)
      else match unspell t1 with
           | Some (v, rest) => Some (Some v, rest)
           | None => None
           end
  end.

Definition sample_sign (payload : Claims) (key expiresIn : string) : string :=
  spell key +:+ spell_opt (userId payload) +:+ spell_opt (tenantId payload)
  +:+ spell_opt (role payload) +:+ spell_opt (payload_id payload).

Definition sample_verify (token key : string) : option Claims :=
  '(k, t1) ← unspell token;
  if String.eqb k key then
    '(u, t2) ← unspell_opt t1;
    '(t, t3) ← unspell_opt t2;
    '(r, t4) ← unspell_opt t3;
    '(i, t5) ← unspell_opt t4;
    if String.eqb t5 "" then
      Some {| userId := u; tenantId := t; role := r; payload_id := i |}
    else None
  else None.

(** The token that [generateToken] issues to user u-1 of tenant T1, and a
    token signed with the same key whose payload carries the role ADMIN. *)
Definition token_u1 : string :=
  sample_sign (issued_claims "u-1" "T1") "s3cret" "24h".

Definition admin_claims : Claims :=
  {| userId := Some "u-1"; tenantId := Some "T1"; role := Some "ADMIN";
     payload_id := None |}.

Definition token_admin : string := sample_sign admin_claims "s3cret" "24h".

(** A store that holds user u-1 and nothing that points to it. *)
Definition store_user_only : Store :=
  {| users := [user_T1]; fees := []; commissions := []; documents := [];
     documentVersions := []; templates := []; spaces := [] |}.

(** A request with [Authorization: Bearer <token>]. *)
Definition bearer {B} (token : string) (b : B) : Request B :=
  {| authorization := Some ("Bearer " +:+ token); user := None;
     params_userId := Some "u-1"; body := b |}.

Definition register_ada : UserService.CreateUserData :=
  {| UserService.email := "a@x.com"; UserService.password := "correct horse";
     UserService.firstName := "Ada"; UserService.lastName := "Adjuster";
     UserService.c_tenantId := "T1" |}.

Definition login_ada : UserService.LoginData :=
  {| UserService.l_email := "a@x.com";
     UserService.l_password := "correct horse" |}.

(** A body of PUT /profile that carries a role. *)
Definition promote_self : UserService.UpdateUserData :=
  {| UserService.u_id := None; UserService.u_email := None;
     UserService.u_password := None;
     UserService.u_firstName := Some "Grace"; UserService.u_lastName := None;
     UserService.u_role := Some "ADMIN"; UserService.u_tenantId := None |}.

(** A request on /api/templates/:id with an empty body. *)
Definition template_request (id : string) : TemplateController.TemplateInput :=
  {| TemplateController.p_id := id; TemplateController.b_name := None;
     TemplateController.b_description := None;
     TemplateController.b_content := None;
     TemplateController.b_category := None;
     TemplateController.b_variables := None |}.

(** * Facts about tables *)

Section TableFacts.
Context {R : Type} `{Model R}.
Implicit Types (t : list R) (r : R) (id : string).

Lemma has_id_true id r : has_id id r = true <-> row_id r = id.
Proof. unfold has_id. apply String.eqb_eq. Qed.

Lemma has_id_false id r : has_id id r = false <-> row_id r <> id.
Proof. unfold has_id. apply String.eqb_neq. Qed.

Lemma findFirst_Some P t r :
  findFirst P t = Some r -> r ∈ t /\ P r = true.
Proof.
  unfold findFirst. intros Hf. apply find_some in Hf as [Hin HP].
  split; [by apply list_elem_of_In | done].
Qed.

Lemma findFirst_None P t :
  findFirst P t = None <-> forall r, r ∈ t -> P r = false.
Proof.
  unfold findFirst. split.
  - intros Hf r Hin. apply (find_none _ _ Hf). by apply list_elem_of_In.
  - induction t as [|x t IH]; intros Hall; simpl; [done|].
    rewrite (Hall x) by left. apply IH. intros r Hin. apply Hall. by right.
Qed.

Lemma findFirst_app P t1 t2 :
  findFirst P (t1 ++ t2) =
  match findFirst P t1 with Some r => Some r | None => findFirst P t2 end.
Proof.
  unfold findFirst. induction t1 as [|x t1 IH]; simpl; [done|].
  by destruct (P x).
Qed.

Lemma findUnique_Some id t r : findUnique id t = Some r -> r ∈ t /\ row_id r = id.
Proof.
  intros Hf. apply findFirst_Some in Hf as [Hin Hid].
  split; [done | by apply has_id_true].
Qed.

Lemma findUnique_None id t :
  findUnique id t = None <-> id ∉ map row_id t.
Proof.
  unfold findUnique. rewrite findFirst_None. split.
  - intros Hall Hin. apply list_elem_of_fmap in Hin as (r & -> & Hr).
    specialize (Hall r Hr). by apply has_id_false in Hall.
  - intros Hnin r Hr. apply has_id_false. intros <-. apply Hnin.
    apply list_elem_of_fmap. eauto.
Qed.

(** Two rows of a table with the same primary key are the same row. *)
Lemma pk_unique_inj t r1 r2 :
  pk_unique t -> r1 ∈ t -> r2 ∈ t -> row_id r1 = row_id r2 -> r1 = r2.
Proof.
  unfold pk_unique. induction t as [|x t IH]; intros Hnd H1 H2 Heq.
  - by apply elem_of_nil in H1.
  - simpl in Hnd. apply NoDup_cons in Hnd as [Hx Hnd].
    apply elem_of_cons in H1 as [->|H1]; apply elem_of_cons in H2 as [->|H2].
    + done.
    + exfalso. apply Hx. rewrite Heq. apply list_elem_of_fmap. eauto.
    + exfalso. apply Hx. rewrite <- Heq. apply list_elem_of_fmap. eauto.
    + by apply IH.
Qed.

Lemma pk_unique_findUnique t r :
  pk_unique t -> r ∈ t -> findUnique (row_id r) t = Some r.
Proof.
  intros Hnd Hin. destruct (findUnique (row_id r) t) as [r'|] eqn:Hf.
  - apply findUnique_Some in Hf as [Hin' Hid].
    f_equal. by apply (pk_unique_inj t).
  - apply findUnique_None in Hf. exfalso. apply Hf.
    apply list_elem_of_fmap. eauto.
Qed.

(** A lookup by primary key under a further filter that the row with
    that key does not satisfy finds nothing. *)
Lemma findFirst_scoped_None (scope : R -> bool) t r :
  pk_unique t -> r ∈ t -> scope r = false ->
  findFirst (fun x => has_id (row_id r) x && scope x) t = None.
Proof.
  intros Hnd Hin Hscope. apply findFirst_None. intros x Hx.
  destruct (has_id (row_id r) x) eqn:Hid; [|done]. simpl.
  apply has_id_true in Hid.
  by rewrite (pk_unique_inj t x r Hnd Hx Hin Hid).
Qed.

Lemma findFirst_scoped_Some (scope : R -> bool) t r :
  pk_unique t -> r ∈ t -> scope r = true ->
  findFirst (fun x => has_id (row_id r) x && scope x) t = Some r.
Proof.
  intros Hnd Hin Hscope.
  destruct (findFirst _ t) as [x|] eqn:Hf.
  - apply findFirst_Some in Hf as [Hx HP].
    apply andb_prop in HP as [Hid _]. apply has_id_true in Hid.
    f_equal. by apply (pk_unique_inj t).
  - rewrite findFirst_None in Hf. specialize (Hf r Hin). simpl in Hf.
    rewrite Hscope in Hf. rewrite andb_true_r in Hf.
    apply has_id_false in Hf. done.
Qed.

(** Under a unique primary key, the row found by key and filter is the row
    found by key alone. *)
Lemma findFirst_scoped_unique (scope : R -> bool) id t r1 r2 :
  pk_unique t ->
  findFirst (fun x => has_id id x && scope x) t = Some r1 ->
  findUnique id t = Some r2 -> r1 = r2.
Proof.
  intros Hnd H1 H2. apply findFirst_Some in H1 as [Hin1 Hscope].
  apply andb_prop in Hscope as [Hid1 _]. apply has_id_true in Hid1.
  apply findUnique_Some in H2 as [Hin2 Hid2].
  apply (pk_unique_inj t); congruence.
Qed.

Lemma create_Ok r t :
  findUnique (row_id r) t = None -> create r t = Ok (t ++ [r]).
Proof. unfold create. by intros ->. Qed.

Lemma create_inv r t t' : create r t = Ok t' ->
  findUnique (row_id r) t = None /\ t' = t ++ [r].
Proof.
  unfold create. destruct (findUnique (row_id r) t); [done|].
  intros [= <-]. done.
Qed.

Lemma create_pk_unique r t t' :
  pk_unique t -> create r t = Ok t' -> pk_unique t'.
Proof.
  intros Hnd Hc. apply create_inv in Hc as [Hnone ->].
  unfold pk_unique. rewrite map_app. simpl.
  apply NoDup_app. split; [done|]. split.
  - intros x Hx Hx'. apply list_elem_of_singleton in Hx' as ->.
    by apply findUnique_None in Hnone.
  - apply NoDup_singleton.
Qed.

Lemma update_inv id data t r' t' : update id data t = Ok (r', t') ->
  exists r, findUnique id t = Some r /\ r' = data r /\
            t' = map (patch_row id data) t.
Proof.
  unfold update. destruct (findUnique id t) as [r|]; [|done].
  intros [= <- <-]. eauto.
Qed.

Lemma update_ids id data t :
  (forall r, row_id (data r) = row_id r) ->
  map row_id (map (patch_row id data) t) = map row_id t.
Proof.
  intros Hid. rewrite map_map. apply map_ext. intros r.
  unfold patch_row. by destruct (has_id id r).
Qed.

Lemma patch_row_other id data r : row_id r <> id -> patch_row id data r = r.
Proof. intros Hne. unfold patch_row. by apply has_id_false in Hne as ->. Qed.

Lemma patch_row_same id data r : row_id r = id -> patch_row id data r = data r.
Proof. intros He. unfold patch_row. by apply has_id_true in He as ->. Qed.
Lemma findUnique_app_new t r :
  findUnique (row_id r) t = None -> findUnique (row_id r) (t ++ [r]) = Some r.
Proof.
  intros Hnone. unfold findUnique in *. rewrite findFirst_app, Hnone.
  simpl. by rewrite (proj2 (has_id_true (row_id r) r) eq_refl).
Qed.

Lemma findUnique_app_old id t r x :
  findUnique id t = Some x -> findUnique id (t ++ [r]) = Some x.
Proof. intros Hx. unfold findUnique in *. by rewrite findFirst_app, Hx. Qed.
End TableFacts.

(** * Tenant isolation on reads *)

Lemma eqb_tenant_false (a b : string) : a <> b -> String.eqb a b = false.
Proof. apply String.eqb_neq. Qed.

Lemma check_user_select :
  FeeService.check_select FeeService.User_fields FeeService.user_select
  = Throw (UnknownField "name").
Proof. reflexivity. Qed.

(** C1. Tenant isolation on reads.  In a store whose tables respect their
    primary keys, a Template or Document owned by tenant T1 is not returned
    by [getTemplate] or [getDocument] called with its id and another tenant
    T2: each returns the not-found value.  [getFee] returns no fee of any
    tenant, but not the not-found value either: its query selects the field
    [name] of the joined user, which User does not have, and is rejected for
    every id and every tenant. *)
Theorem tenant_isolation_on_reads (s : Store) (T1 T2 : string) :
  T1 <> T2 ->
  pk_unique (templates s) -> pk_unique (documents s) ->
  (forall r, r ∈ templates s -> tpl_tenantId r = T1 ->
     TemplateService.getTemplate (tpl_id r) T2 s = None) /\
  (forall d, d ∈ documents s -> doc_tenantId d = T1 ->
     DocumentService.getDocument (doc_id d) T2 s = None) /\
  (forall id T, FeeService.getFee id T s = Throw (UnknownField "name")) /\
  (forall f, f ∈ fees s -> fee_tenantId f = T1 ->
     FeeService.getFee (fee_id f) T2 s <> Ok None /\
     forall found, FeeService.getFee (fee_id f) T2 s <> Ok (Some found)).
Proof.
  intros Hne Ht Hd.
  assert (Hfee : forall id T,
            FeeService.getFee id T s = Throw (UnknownField "name")).
  { intros id T. unfold FeeService.getFee. by rewrite check_user_select. }
  split; [|split; [|split]].
  - intros r Hin Hown. unfold TemplateService.getTemplate.
    pose proof (findFirst_scoped_None
                  (fun x => String.eqb (tpl_tenantId x) T2) _ r Ht Hin) as E.
    change (row_id r) with (tpl_id r) in E. rewrite E; [done|].
    rewrite Hown. by apply eqb_tenant_false.
  - intros d Hin Hown. unfold DocumentService.getDocument.
    pose proof (findFirst_scoped_None
                  (fun x => String.eqb (doc_tenantId x) T2) _ d Hd Hin) as E.
    change (row_id d) with (doc_id d) in E. rewrite E; [done|].
    rewrite Hown. by apply eqb_tenant_false.
  - exact Hfee.
  - intros f _ _. split; [|intros found]; by rewrite Hfee.
Qed.

Lemma pk_unique_singleton {R} `{Model R} (r : R) : pk_unique [r].
Proof. unfold pk_unique. simpl. apply NoDup_singleton. Qed.

Lemma tenant_isolation_on_reads_witness :
  TemplateService.getTemplate "tpl-1" "T2" store_T1 = None /\
  DocumentService.getDocument "doc-1" "T2" store_T1 = None /\
  FeeService.getFee "fee-1" "T2" store_T1 = Throw (UnknownField "name") /\
  FeeService.getFee "fee-1" "T1" store_T1 = Throw (UnknownField "name").
Proof.
  destruct (tenant_isolation_on_reads store_T1 "T1" "T2")
    as (Ht & Hd & Hf & _).
  - discriminate.
  - apply pk_unique_singleton.
  - apply pk_unique_singleton.
  - split; [|split; [|split]].
    + apply (Ht template_T1); [apply list_elem_of_singleton|]; reflexivity.
    + apply (Hd document_T1); [apply list_elem_of_singleton|]; reflexivity.
    + apply Hf.
    + apply Hf.
Defined.

(** * Tenant filter on writes *)

(** C2. The writes of the fee and template services look their row up by
    primary key alone.  On [store_T1], whose rows all belong to tenant T1,
    a caller of tenant T2 is told "not found" by [getTemplate], and
    [updateDocument] refuses the caller with "Document not found"; yet each
    of [updateTemplate], [updateFeeStatus], [updateCommissionStatus] and
    [deleteTemplate] reaches the row of T1. *)
Theorem writes_reach_other_tenants_rows :
  TemplateService.getTemplate "tpl-1" "T2" store_T1 = None /\
  DocumentService.updateDocument sample_env sample_stringify
    "ver-1" "k1" "doc-1" "T2" "%PDF 1" None store_T1
  = Throw (JsError "Document not found") /\
  (exists r s', TemplateService.updateTemplate "tpl-1" "T2" rename_data store_T1
                = Ok (r, s') /\
     tpl_tenantId r = "T1" /\ tpl_name r = "Renamed by T2" /\ templates s' = [r]) /\
  (exists f s', FeeService.updateFeeStatus "fee-1" "T2" "PAID" None store_T1
                = Ok (f, s') /\
     fee_tenantId f = "T1" /\ fee_status f = "PAID" /\ fees s' = [f]) /\
  (exists c s', FeeService.updateCommissionStatus "com-1" "T2" "PAID" (Some 5) store_T1
                = Ok (c, s') /\
     com_tenantId c = "T1" /\ com_status c = "PAID" /\ commissions s' = [c]) /\
  (exists r s', TemplateService.deleteTemplate "tpl-1" "T2" store_T1 = Ok (r, s') /\
     tpl_tenantId r = "T1" /\ templates s' = []).
Proof.
  split; [reflexivity|]. split; [reflexivity|].
  repeat split; eexists _, _; (split; [reflexivity|]); repeat split.
Qed.

(** * Commission derivation *)

Section CommissionFacts.
Import FeeService.

(** C3. Commission derivation.  [createCommission] looks the fee up by id
    and throws "Fee not found" when there is none.  For a stored fee it
    derives the amount [fee.amount * percentage / 100] in binary64
    arithmetic, exactly 150 for a fee of 1000 and a percentage of 15, and
    hands it to the create without a [status]: the create is rejected, so no
    call of [createCommission] ever returns and none persists a row. *)
Theorem commission_derivation (s : Store) (newId : string)
    (data : CreateCommissionData) :
  (forall fee, findUnique (c_feeId data) (fees s) = Some fee ->
     ci_amount (commission_data data fee)
     = ((fee_amount fee * c_percentage data) / 100)%float /\
     (fee_amount fee = 1000%float -> c_percentage data = 15%float ->
      ci_amount (commission_data data fee) = 150%float) /\
     ci_status (commission_data data fee) = None /\
     createCommission newId data s = Throw (MissingField "status")) /\
  (findUnique (c_feeId data) (fees s) = None ->
   createCommission newId data s = Throw (JsError "Fee not found")) /\
  (forall c s', createCommission newId data s <> Ok (c, s')).
Proof.
  split; [|split].
  - intros fee Hfee. split; [reflexivity|]. split.
    + cbn [commission_data ci_amount]. intros -> ->. reflexivity.
    + split; [reflexivity|]. unfold createCommission. rewrite Hfee.
      reflexivity.
  - intros Hnone. unfold createCommission. by rewrite Hnone.
  - intros c s'. unfold createCommission.
    by destruct (findUnique (c_feeId data) (fees s)).
Qed.

Lemma commission_derivation_witness :
  ci_amount (commission_data commission_15 fee_T1) = 150%float /\
  createCommission "com-2" commission_15 store_T1
  = Throw (MissingField "status").
Proof.
  destruct (proj1 (commission_derivation store_T1 "com-2" commission_15)
              fee_T1 eq_refl) as (_ & Hamount & _ & Hthrow).
  split; [by apply Hamount | exact Hthrow].
Defined.

End CommissionFacts.

(** * Stale derivation: writes to a fee leave its commissions alone *)

Section FeeFrame.
Import FeeService.

Lemma status_data_frame (st : string) (pd : option Z) (g : Fee) :
  fee_id (status_data st pd g) = fee_id g /\
  fee_caseId (status_data st pd g) = fee_caseId g /\
  fee_amount (status_data st pd g) = fee_amount g /\
  fee_description (status_data st pd g) = fee_description g /\
  fee_type (status_data st pd g) = fee_type g /\
  fee_dueDate (status_data st pd g) = fee_dueDate g /\
  fee_tenantId (status_data st pd g) = fee_tenantId g /\
  fee_createdBy (status_data st pd g) = fee_createdBy g.
Proof. repeat split. Qed.

Lemma updateFeeStatus_inv id tenant st pd s f s' :
  updateFeeStatus id tenant st pd s = Ok (f, s') ->
  exists f0, findUnique id (fees s) = Some f0 /\ f = status_data st pd f0 /\
             s' = set_fees (map (patch_row id (status_data st pd)) (fees s)) s.
Proof.
  unfold updateFeeStatus.
  destruct (update id _ (fees s)) as [[f1 t]|] eqn:Hu; simpl; [|done].
  intros [= <- <-]. apply update_inv in Hu as (f0 & Hf0 & -> & ->). eauto.
Qed.

Lemma updateCommissionStatus_inv id tenant st pd s c s' :
  updateCommissionStatus id tenant st pd s = Ok (c, s') ->
  exists c0, findUnique id (commissions s) = Some c0 /\
             c = commission_status_data st pd c0 /\
             s' = set_commissions
                    (map (patch_row id (commission_status_data st pd))
                       (commissions s)) s.
Proof.
  unfold updateCommissionStatus.
  destruct (update id _ (commissions s)) as [[c1 t]|] eqn:Hu; simpl; [|done].
  intros [= <- <-]. apply update_inv in Hu as (c0 & Hc0 & -> & ->). eauto.
Qed.

(** C4. Stale derivation, on the writes that the fee service has.
    (1) [updateFeeStatus], the one write to a stored fee, rewrites the
        addressed fee with [status] set and [paidDate] set when supplied;
        every other column of that fee, every other fee, the amounts of all
        fees and the Commission table are unchanged.
    (2) [updateCommissionStatus], the one write to a stored commission,
        leaves every commission's amount and the Fee table unchanged.
    (3) The scenario cannot start: [createFee] passes no [status] to the
        create and is rejected for every input, a fee of 2000 included; and
        on a stored fee of 2000 [createCommission] with 10 percent derives
        200 and is rejected in the same way. *)
Theorem stale_derivation_frame :
  (forall s id tenant st pd f s',
     updateFeeStatus id tenant st pd s = Ok (f, s') ->
     commissions s' = commissions s /\
     map fee_amount (fees s') = map fee_amount (fees s) /\
     fees s' = map (patch_row id (status_data st pd)) (fees s) /\
     (forall g, g ∈ fees s -> fee_id g <> id -> g ∈ fees s') /\
     exists f0, findUnique id (fees s) = Some f0 /\
       f = status_data st pd f0 /\
       fee_amount f = fee_amount f0 /\
       fee_status f = st /\
       fee_paidDate f = match pd with Some d => Some d | None => fee_paidDate f0 end) /\
  (forall s id tenant st pd c s',
     updateCommissionStatus id tenant st pd s = Ok (c, s') ->
     fees s' = fees s /\
     map com_amount (commissions s') = map com_amount (commissions s) /\
     (forall c', c' ∈ commissions s -> com_id c' <> id -> c' ∈ commissions s')) /\
  (forall s feeId data, createFee feeId data s = Throw (MissingField "status")) /\
  (forall s comId feeId tenant fee,
     findUnique feeId (fees s) = Some fee -> fee_amount fee = 2000%float ->
     ci_amount (commission_data (commission_10 feeId tenant) fee) = 200%float /\
     createCommission comId (commission_10 feeId tenant) s
     = Throw (MissingField "status")).
Proof.
  split; [|split; [|split]].
  - intros s id tenant st pd f s' Hu.
    apply updateFeeStatus_inv in Hu as (f0 & Hf0 & -> & ->). simpl.
    split; [reflexivity|]. split; [|split; [reflexivity|split]].
    + rewrite map_map. apply map_ext. intros g. unfold patch_row.
      by destruct (has_id id g).
    + intros g Hg Hne. apply list_elem_of_fmap. exists g. split; [|done].
      symmetry. by apply patch_row_other.
    + exists f0. by repeat split.
  - intros s id tenant st pd c s' Hu.
    apply updateCommissionStatus_inv in Hu as (c0 & Hc0 & -> & ->). simpl.
    split; [reflexivity|]. split.
    + rewrite map_map. apply map_ext. intros g. unfold patch_row.
      by destruct (has_id id g).
    + intros c' Hc' Hne. apply list_elem_of_fmap. exists c'. split; [|done].
      symmetry. by apply patch_row_other.
  - intros s feeId data. reflexivity.
  - intros s comId feeId tenant fee Hfee Hamount. split.
    + cbn [commission_data ci_amount commission_10 c_percentage].
      rewrite Hamount. reflexivity.
    + unfold createCommission. cbn [commission_10 c_feeId]. rewrite Hfee.
      reflexivity.
Qed.

Lemma stale_derivation_frame_witness :
  (exists f s',
     updateFeeStatus "fee-1" "T1" "PAID" (Some 1760000000000) store_T1 = Ok (f, s') /\
     commissions s' = [commission_T1] /\ fee_amount f = 1000%float) /\
  createFee "fee-2" (fee_2000 "T1") store_T1 = Throw (MissingField "status").
Proof.
  destruct stale_derivation_frame as (Hstatus & _ & Hcreate & _). split.
  - eexists _, _. split; [reflexivity|].
    destruct (Hstatus store_T1 "fee-1" "T1" "PAID" (Some 1760000000000) _ _ eq_refl)
      as (Hc & _ & _ & _ & f0 & Hf0 & _ & Ha & _).
    split; [exact Hc|]. rewrite Ha. injection Hf0 as <-. reflexivity.
  - apply Hcreate.
Defined.

End FeeFrame.

(** * Document versioning *)

Section DocumentFacts.
Import DocumentService.
Context (env : Env) (JSON_stringify : Json -> string).

#[local] Abbreviation updateDocument := (updateDocument env JSON_stringify).
#[local] Abbreviation updateDocuments := (updateDocuments env JSON_stringify).
#[local] Abbreviation createDocument := (createDocument env JSON_stringify).
#[local] Abbreviation stringify_metadata := (stringify_metadata JSON_stringify).
#[local] Abbreviation upload_url := (upload_url env).
#[local] Abbreviation version_row := (version_row env JSON_stringify).
#[local] Abbreviation live_data := (live_data env JSON_stringify).

Lemma findUnique_patch {R} `{Model R} (id : string) (data : R -> R)
    (t : list R) (r : R) :
  (forall x, row_id (data x) = row_id x) ->
  findUnique id t = Some r ->
  findUnique id (map (patch_row id data) t) = Some (data r).
Proof.
  intros Hid. unfold findUnique, findFirst.
  induction t as [|x t IH]; simpl; [done|].
  unfold patch_row at 1. destruct (has_id id x) eqn:Hx.
  - intros [= ->]. apply has_id_true in Hx.
    rewrite (proj2 (has_id_true id (data r))) by (by rewrite Hid).
    by rewrite patch_row_same.
  - by rewrite Hx.
Qed.

(** Success of [updateDocument], read backwards. *)
Lemma updateDocument_inv vid uuid id tenant file metadata s d s' :
  updateDocument vid uuid id tenant file metadata s = Ok (d, s') ->
  exists document r,
    findFirst (in_tenant id tenant) (documents s) = Some document /\
    findUnique id (documents s) = Some r /\
    findUnique vid (documentVersions s) = None /\
    d = live_data uuid file metadata document r /\
    documentVersions s' =
      documentVersions s ++ [version_row vid uuid id file metadata document] /\
    documents s' =
      map (patch_row id (live_data uuid file metadata document)) (documents s).
Proof.
  unfold DocumentService.updateDocument.
  fold (in_tenant id tenant).
  destruct (findFirst (in_tenant id tenant) (documents s)) as [document|] eqn:Hdoc;
    [|done].
  cbn [uploadToSpaces mbind Result_bind mret Result_ret documentVersions set_spaces].
  fold (upload_url uuid (doc_name document)).
  fold (version_row vid uuid id file metadata document).
  destruct (create _ (documentVersions s)) as [tv|] eqn:Hc; [|done].
  apply create_inv in Hc as [Hnew ->].
  cbn [documents set_documentVersions set_spaces].
  fold (live_data uuid file metadata document).
  destruct (update id _ (documents s)) as [[d1 td]|] eqn:Hu; [|done].
  apply update_inv in Hu as (r & Hr & -> & ->).
  intros [= <- <-]. exists document, r. by repeat split.
Qed.

(** Success of [updateDocument], read forwards: the document is found under
    the caller's tenant and the key of the new version row is free. *)
Lemma updateDocument_Ok vid uuid id tenant file metadata s document :
  pk_unique (documents s) ->
  document ∈ documents s -> doc_id document = id ->
  doc_tenantId document = tenant ->
  findUnique vid (documentVersions s) = None ->
  exists s',
    updateDocument vid uuid id tenant file metadata s
      = Ok (live_data uuid file metadata document document, s').
Proof.
  intros Hpk Hin Hid Hten Hnew.
  assert (Hfind : findFirst (in_tenant id tenant) (documents s) = Some document).
  { subst id. apply (findFirst_scoped_Some
                       (fun x => String.eqb (doc_tenantId x) tenant)); [done..|].
    by apply String.eqb_eq. }
  assert (Hu : findUnique id (documents s) = Some document)
    by (subst id; by apply pk_unique_findUnique).
  unfold DocumentService.updateDocument. fold (in_tenant id tenant).
  rewrite Hfind.
  cbn [uploadToSpaces mbind Result_bind mret Result_ret documentVersions set_spaces].
  fold (upload_url uuid (doc_name document)).
  fold (version_row vid uuid id file metadata document).
  rewrite create_Ok by exact Hnew.
  cbn [documents set_documentVersions set_spaces].
  fold (live_data uuid file metadata document).
  unfold update. rewrite Hu. eexists. reflexivity.
Qed.

Lemma live_data_id uuid file metadata document x :
  row_id (live_data uuid file metadata document x) = row_id x.
Proof. reflexivity. Qed.

Lemma filter_none {A} (P : A -> bool) (l : list A) :
  (forall x, x ∈ l -> P x = false) -> List.filter P l = [].
Proof.
  induction l as [|x l IH]; intros Hall; simpl; [done|].
  rewrite (Hall x) by left. apply IH. intros y Hy. apply Hall. by right.
Qed.

Lemma tracked_step id tenant vids vid uuid tenant' file metadata s d s' :
  tracked id tenant vids s ->
  updateDocument vid uuid id tenant' file metadata s = Ok (d, s') ->
  tracked id tenant (vids ++ [vid]) s' /\
  doc_version d = Z.of_nat (length vids) + 2.
Proof.
  intros (Hpk & (d0 & Hd0 & Hten & Hver) & Hids & Hnums) Hup.
  apply updateDocument_inv in Hup
    as (document & r & Hdoc & Hr & Hnew & -> & Hdvs & Hdocs).
  rewrite Hd0 in Hr. injection Hr as <-.
  assert (document = d0) as ->
    by exact (findFirst_scoped_unique _ _ _ _ _ Hpk Hdoc Hd0).
  assert (Hvs : versions_of id s' =
                versions_of id s ++ [version_row vid uuid id file metadata d0]).
  { unfold versions_of, findMany. rewrite Hdvs, List.filter_app. simpl.
    by rewrite String.eqb_refl. }
  unfold tracked. rewrite length_app, Nat.add_1_r.
  split; [|simpl; lia]. split; [|split; [|split]].
  - unfold pk_unique. rewrite Hdocs, update_ids; [done|].
    apply live_data_id.
  - exists (live_data uuid file metadata d0 d0). split; [|split].
    + rewrite Hdocs. apply findUnique_patch; [apply live_data_id | done].
    + done.
    + simpl. lia.
  - rewrite Hvs, map_app, Hids. reflexivity.
  - rewrite Hvs, map_app, Hnums, seqZ_S. simpl. do 2 f_equal. lia.
Qed.

(** Every run of successful re-uploads keeps the invariant. *)
Lemma tracked_run id tenant ups : forall vids s s',
  tracked id tenant vids s ->
  updateDocuments id ups s = Ok s' ->
  tracked id tenant (vids ++ map up_versionId ups) s'.
Proof.
  induction ups as [|u ups IH]; intros vids s s' Htr Hrun; simpl in *.
  - injection Hrun as <-. by rewrite app_nil_r.
  - destruct (updateDocument _ _ id _ _ _ s) as [[d s1]|] eqn:Hup; [|done].
    apply (tracked_step _ _ _ _ _ _ _ _ _ _ _ Htr) in Hup as [Htr1 _].
    rewrite (cons_middle (up_versionId u)), app_assoc. by apply (IH _ s1).
Qed.

(** A run succeeds when every upload is made under the owning tenant and
    brings a new key for its version row. *)
Lemma tracked_run_Ok id tenant ups : forall vids s,
  tracked id tenant vids s ->
  Forall (fun u => up_tenant u = tenant) ups ->
  NoDup (map up_versionId ups) ->
  (forall u, u ∈ ups -> findUnique (up_versionId u) (documentVersions s) = None) ->
  exists s', updateDocuments id ups s = Ok s'.
Proof.
  induction ups as [|u ups IH]; intros vids s Htr Hten Hnd Hfresh; simpl.
  - eauto.
  - apply Forall_cons in Hten as [Hu Hten].
    apply NoDup_cons in Hnd as [Hu_new Hnd].
    pose proof Htr as (Hpk & (d0 & Hd0 & Hd0ten & _) & _).
    apply findUnique_Some in Hd0 as [Hin0 Hid0].
    destruct (updateDocument_Ok (up_versionId u) (up_uuid u) id (up_tenant u)
                (up_file u) (up_metadata u) s d0) as [s1 Hup];
      [done | done | done | congruence | apply Hfresh; left |].
    rewrite Hup.
    pose proof (tracked_step _ _ _ _ _ _ _ _ _ _ _ Htr Hup) as [Htr1 _].
    apply updateDocument_inv in Hup as (doc1 & r1 & _ & _ & _ & _ & Hdvs & _).
    apply (IH _ s1 Htr1 Hten Hnd).
    intros u' Hu'. rewrite Hdvs. unfold findUnique. rewrite findFirst_app.
    fold (findUnique (up_versionId u') (documentVersions s)).
    rewrite Hfresh by (by right). simpl.
    destruct (has_id (up_versionId u') _) eqn:Hsame; [|done].
    apply has_id_true in Hsame.
    change (up_versionId u = up_versionId u') in Hsame. exfalso. apply Hu_new.
    rewrite Hsame. apply list_elem_of_fmap. eauto.
Qed.

(** [createDocument] stores the document with version 1; on a store whose
    version rows all belong to stored documents, it starts tracked with no
    version row. *)
Lemma createDocument_tracked newId uuid file data metadata s :
  pk_unique (documents s) ->
  versions_reference_documents s ->
  findUnique newId (documents s) = None ->
  exists d s1,
    createDocument newId uuid file data metadata s = Ok (d, s1) /\
    doc_version d = 1 /\
    documentVersions s1 = documentVersions s /\
    tracked newId (tenantId data) [] s1.
Proof.
  intros Hpk Hfk Hnew. unfold DocumentService.createDocument.
  cbn [uploadToSpaces mbind Result_bind mret Result_ret documents set_spaces].
  match goal with |- context [create ?x _] => set (d := x) end.
  assert (Hc : create d (documents s) = Ok (documents s ++ [d]))
    by exact (create_Ok d (documents s) Hnew).
  rewrite Hc. eexists d, _. split; [reflexivity|].
  split; [reflexivity|]. split; [reflexivity|].
  cbn [documents set_documents]. split; [|split; [|split]].
  - exact (create_pk_unique d _ _ Hpk Hc).
  - exists d. split; [|done]. exact (findUnique_app_new (documents s) d Hnew).
  - unfold versions_of, findMany. cbn [documentVersions set_documents set_spaces].
    rewrite filter_none; [done|]. intros v Hv. apply String.eqb_neq.
    intros Heq. apply findUnique_None in Hnew. apply Hnew.
    rewrite <- Heq. by apply Hfk.
  - unfold versions_of, findMany. cbn [documentVersions set_documents set_spaces].
    rewrite filter_none; [done|]. intros v Hv. apply String.eqb_neq.
    intros Heq. apply findUnique_None in Hnew. apply Hnew.
    rewrite <- Heq. by apply Hfk.
Qed.

(** The constraints on the two document tables that the database keeps. *)
Lemma empty_store_documents_ok :
  pk_unique (documents empty_store) /\ versions_reference_documents empty_store.
Proof.
  split; [apply NoDup_nil_2|]. intros v Hv. by apply elem_of_nil in Hv.
Qed.

Lemma createDocument_keeps_constraints newId uuid file data metadata s d s' :
  pk_unique (documents s) -> versions_reference_documents s ->
  createDocument newId uuid file data metadata s = Ok (d, s') ->
  pk_unique (documents s') /\ versions_reference_documents s'.
Proof.
  intros Hpk Hfk. unfold DocumentService.createDocument.
  cbn [uploadToSpaces mbind Result_bind mret Result_ret documents set_spaces].
  destruct (create _ (documents s)) as [t|] eqn:Hc; [|done].
  intros [= <- <-]. unfold versions_reference_documents.
  cbn [documents documentVersions set_documents set_spaces].
  split; [by apply (create_pk_unique _ _ _ Hpk Hc)|].
  apply create_inv in Hc as [_ ->]. intros v Hv.
  rewrite map_app. apply elem_of_app. left. by apply Hfk.
Qed.

Lemma updateDocument_keeps_constraints vid uuid id tenant file metadata s d s' :
  pk_unique (documents s) -> versions_reference_documents s ->
  updateDocument vid uuid id tenant file metadata s = Ok (d, s') ->
  pk_unique (documents s') /\ versions_reference_documents s'.
Proof.
  intros Hpk Hfk Hup.
  apply updateDocument_inv in Hup
    as (document & r & Hdoc & Hr & Hnew & -> & Hdvs & Hdocs).
  assert (Hids : map doc_id (documents s') = map doc_id (documents s)).
  { rewrite Hdocs. apply (update_ids id). apply live_data_id. }
  split.
  { change (NoDup (map doc_id (documents s'))). by rewrite Hids. }
  intros v Hv. rewrite Hids. rewrite Hdvs in Hv.
  apply elem_of_app in Hv as [Hv|Hv]; [by apply Hfk|].
  apply list_elem_of_singleton in Hv as ->. cbn [dv_documentId version_row].
  apply findUnique_Some in Hr as [Hin <-].
  apply list_elem_of_fmap. eauto.
Qed.

(** C5 (amended). Document version bookkeeping.  On a store that respects
    the primary key of Document and in which every version row belongs to a
    stored document, [createDocument] with a new id stores the document with
    version 1, and a run of N re-uploads made under the owning tenant, each
    with a new key for its version row, succeeds; afterwards the document's
    version is N+1, exactly N DocumentVersion rows exist for it, they are
    the rows of the N uploads in upload order, and they are numbered
    2, ..., N+1.  So the live version is the count of version rows plus 1. *)
Theorem document_version_bookkeeping (s0 : Store) (newId uuid file : string)
    (data : CreateDocumentData) (metadata : option Json) (ups : list Upload) :
  pk_unique (documents s0) ->
  versions_reference_documents s0 ->
  findUnique newId (documents s0) = None ->
  Forall (fun u => up_tenant u = tenantId data) ups ->
  NoDup (map up_versionId ups) ->
  (forall u, u ∈ ups -> findUnique (up_versionId u) (documentVersions s0) = None) ->
  exists d s1 s' d',
    createDocument newId uuid file data metadata s0 = Ok (d, s1) /\
    doc_version d = 1 /\
    updateDocuments newId ups s1 = Ok s' /\
    findUnique newId (documents s') = Some d' /\
    doc_version d' = Z.of_nat (length ups) + 1 /\
    length (versions_of newId s') = length ups /\
    map dv_id (versions_of newId s') = map up_versionId ups /\
    map dv_version (versions_of newId s') = seqZ 2 (Z.of_nat (length ups)) /\
    doc_version d' = Z.of_nat (length (versions_of newId s')) + 1.
Proof.
  intros Hpk Hfk Hnew Hten Hnd Hfresh.
  destruct (createDocument_tracked newId uuid file data metadata s0 Hpk Hfk Hnew)
    as (d & s1 & Hcreate & Hv1 & Hdvs & Htr).
  destruct (tracked_run_Ok newId (tenantId data) ups [] s1 Htr Hten Hnd)
    as [s' Hrun].
  { intros u Hu. rewrite Hdvs. by apply Hfresh. }
  pose proof (tracked_run _ _ _ _ _ _ Htr Hrun)
    as (_ & (d' & Hd' & _ & Hver) & Hids & Hnums).
  simpl in Hids, Hnums, Hver. rewrite length_map in Hver, Hnums.
  assert (Hlen : length (versions_of newId s') = length ups).
  { rewrite <- (length_map dv_id), Hids. apply length_map. }
  exists d, s1, s', d'. repeat split; try done. by rewrite Hlen.
Qed.

(** C6 (amended). What a successful [updateDocument] records.  It appends
    one DocumentVersion row that carries the newly uploaded content: the URL
    of the new blob, the OCR text computed for it, the metadata given with
    it, the successor of the document's version, and the document's creator.
    The Document row is then rewritten with that same version and URL; its
    [ocrText] and [metadata] take the new values when these are defined and
    keep the old ones otherwise; its other columns are unchanged.  The
    values the Document held before are not copied into any row. *)
Theorem version_row_records_new_upload (s : Store)
    (vid uuid id tenant file : string) (metadata : option Json)
    (d : Document) (s' : Store) :
  pk_unique (documents s) ->
  updateDocument vid uuid id tenant file metadata s = Ok (d, s') ->
  exists document v,
    findFirst (in_tenant id tenant) (documents s) = Some document /\
    documentVersions s' = documentVersions s ++ [v] /\
    dv_id v = vid /\ dv_documentId v = id /\
    dv_version v = doc_version document + 1 /\
    dv_url v = upload_url uuid (doc_name document) /\
    dv_ocrText v = ocr_text file (doc_mimeType document) /\
    dv_metadata v = stringify_metadata metadata /\
    dv_createdBy v = doc_createdBy document /\
    findUnique id (documents s') = Some d /\
    doc_version d = dv_version v /\
    doc_url d = dv_url v /\
    doc_ocrText d = match dv_ocrText v with
                    | Some t => Some t
                    | None => doc_ocrText document
                    end /\
    doc_metadata d = match dv_metadata v with
                     | Some m => Some m
                     | None => doc_metadata document
                     end /\
    (doc_id d, doc_name d, doc_type d, doc_mimeType d, doc_size d,
     doc_caseId d, doc_tenantId d, doc_createdBy d)
    = (doc_id document, doc_name document, doc_type document,
       doc_mimeType document, doc_size document, doc_caseId document,
       doc_tenantId document, doc_createdBy document).
Proof.
  intros Hpk Hup.
  apply updateDocument_inv in Hup
    as (document & r & Hdoc & Hr & Hnew & -> & Hdvs & Hdocs).
  assert (document = r) as <-
    by exact (findFirst_scoped_unique _ _ _ _ _ Hpk Hdoc Hr).
  exists document, (version_row vid uuid id file metadata document).
  split; [done|]. split; [done|].
  do 7 (split; [reflexivity|]).
  split; [|by repeat split].
  rewrite Hdocs. apply findUnique_patch; [apply live_data_id | done].
Qed.

Lemma includes_elem_of (xs : list string) (v : string) :
  includes xs (Some v) = true <-> v ∈ xs.
Proof.
  unfold includes. rewrite existsb_exists. split.
  - intros (x & Hin & Heq). apply String.eqb_eq in Heq as ->.
    by apply list_elem_of_In.
  - intros Hin. exists v. split; [by apply list_elem_of_In|].
    apply String.eqb_refl.
Qed.

Lemma version_row_ocrText vid uuid id file metadata document :
  dv_ocrText (version_row vid uuid id file metadata document)
  = ocr_text file (doc_mimeType document).
Proof. reflexivity. Qed.

Lemma live_data_ocrText uuid file metadata document d :
  doc_ocrText (live_data uuid file metadata document d)
  = match ocr_text file (doc_mimeType document) with
    | Some t => Some t
    | None => doc_ocrText d
    end.
Proof. reflexivity. Qed.

Lemma ocr_text_allowed file m :
  m ∈ ocr_types -> ocr_text file m = Some (extractTextFromDocument file m).
Proof. intros Hin. unfold ocr_text. by apply includes_elem_of in Hin as ->. Qed.

Lemma ocr_text_refused file m : m ∉ ocr_types -> ocr_text file m = None.
Proof.
  intros Hnin. unfold ocr_text.
  destruct (includes ocr_types (Some m)) eqn:Hi; [|done].
  by apply includes_elem_of in Hi.
Qed.


End DocumentFacts.

Lemma document_version_bookkeeping_witness :
  exists d s1 s' d',
    DocumentService.createDocument sample_env sample_stringify
      "doc-9" "k0" "%PDF 0" policy_pdf None store_T1 = Ok (d, s1) /\
    doc_version d = 1 /\
    DocumentService.updateDocuments sample_env sample_stringify
      "doc-9" [reupload "1"; reupload "2"] s1 = Ok s' /\
    findUnique "doc-9" (documents s') = Some d' /\
    doc_version d' = 3 /\
    length (DocumentService.versions_of "doc-9" s') = 2%nat /\
    map dv_id (DocumentService.versions_of "doc-9" s') = ["ver-1"; "ver-2"] /\
    map dv_version (DocumentService.versions_of "doc-9" s') = [2; 3] /\
    doc_version d' = 3.
Proof.
  destruct (document_version_bookkeeping sample_env sample_stringify store_T1
              "doc-9" "k0" "%PDF 0" policy_pdf None
              [reupload "1"; reupload "2"])
    as (d & s1 & s' & d' & H1 & H2 & H3 & H4 & H5 & H6 & H7 & H8 & H9).
  - apply pk_unique_singleton.
  - intros v Hv. vm_compute in Hv. by apply elem_of_nil in Hv.
  - reflexivity.
  - repeat constructor.
  - simpl. apply NoDup_cons. split; [|apply NoDup_singleton].
    rewrite list_elem_of_singleton. discriminate.
  - intros u _. reflexivity.
  - exists d, s1, s', d'. rewrite H6 in H9. by repeat split.
Defined.

(** C5, as stated, fails: after one re-upload of a new document its only
    version row is numbered 2, not 1. *)
Lemma first_version_row_is_numbered_two :
  exists d s1 s',
    DocumentService.createDocument sample_env sample_stringify
      "doc-9" "k0" "%PDF 0" policy_pdf None empty_store = Ok (d, s1) /\
    doc_version d = 1 /\
    DocumentService.updateDocuments sample_env sample_stringify
      "doc-9" [reupload "1"] s1 = Ok s' /\
    map dv_version (DocumentService.versions_of "doc-9" s') = [2] /\
    map dv_version (DocumentService.versions_of "doc-9" s') <> seqZ 1 1.
Proof.
  eexists _, _, _. split; [reflexivity|]. split; [reflexivity|].
  split; [reflexivity|]. split; [reflexivity|]. vm_compute. discriminate.
Qed.

Lemma version_row_records_new_upload_witness :
  exists d s' v,
    DocumentService.updateDocument sample_env sample_stringify
      "ver-1" "k1" "doc-1" "T1" "%PDF 1" (Some (JObj [])) store_T1 = Ok (d, s') /\
    documentVersions s' = [v] /\
    dv_version v = 2 /\ doc_version d = 2 /\
    dv_url v = "https://cdn.example/k1-policy.pdf" /\
    doc_url d = "https://cdn.example/k1-policy.pdf".
Proof.
  destruct (DocumentService.updateDocument sample_env sample_stringify
              "ver-1" "k1" "doc-1" "T1" "%PDF 1" (Some (JObj [])) store_T1)
    as [[d s']|] eqn:Hup; [|discriminate Hup].
  destruct (version_row_records_new_upload sample_env sample_stringify store_T1
              "ver-1" "k1" "doc-1" "T1" "%PDF 1" (Some (JObj [])) d s'
              (pk_unique_singleton document_T1) Hup)
    as (document & v & Hdoc & Hdvs & _ & _ & Hv & Hurl & _ & _ & _ & _ & Hdv
        & Hdu & _).
  injection Hdoc as <-.
  exists d, s', v. split; [reflexivity|]. split; [exact Hdvs|].
  split; [exact Hv|]. split; [by rewrite Hdv|].
  split; [exact Hurl|]. by rewrite Hdu.
Defined.

(** C6, as stated, fails: the version row written by a re-upload of
    [document_T1] carries the URL of the new blob and no metadata, not the
    URL and metadata that the document held before. *)
Lemma version_row_is_not_the_previous_state :
  exists d s' v,
    DocumentService.updateDocument sample_env sample_stringify
      "ver-1" "k1" "doc-1" "T1" "%PDF 1" None store_T1 = Ok (d, s') /\
    documentVersions s' = [v] /\
    doc_url document_T1 = "https://cdn.example/k0-policy.pdf" /\
    dv_url v = "https://cdn.example/k1-policy.pdf" /\
    dv_url v <> doc_url document_T1 /\
    doc_metadata document_T1 = Some "{}" /\
    dv_metadata v = None /\
    doc_metadata d = Some "{}".
Proof.
  eexists _, _, _. split; [reflexivity|]. split; [reflexivity|].
  repeat split. discriminate.
Qed.


(** * Authentication and the role gate *)

Lemma split_no_sep (sep : Ascii.ascii) (s : string) :
  has_char sep s = false -> split sep s = [s].
Proof.
  induction s as [|c s IH]; simpl; [done|].
  intros Hno. apply orb_false_elim in Hno as [Hc Hs].
  by rewrite Hc, IH.
Qed.

(** A header [Bearer <token>] yields the token when the token is not empty
    and has no space in it. *)
Lemma bearer_token_Bearer (token : string) :
  token <> "" -> has_char " " token = false ->
  Auth.bearer_token (Some ("Bearer " +:+ token)) = Some token.
Proof.
  intros Hne Hno. unfold Auth.bearer_token. simpl.
  change ("" +:+ token) with token.
  rewrite split_no_sep by done. simpl.
  by apply String.eqb_neq in Hne as ->.
Qed.

Section AuthFacts.
Context (env : Env) (jwt_verify : string -> string -> option Claims).

#[local] Abbreviation secret := (secret env).

Lemma includes_role roles c : includes roles (role c) = true <-> role_in roles c.
Proof.
  unfold role_in. destruct (role c) as [r|]; simpl.
  - change (existsb (String.eqb r) roles) with (includes roles (Some r)).
    rewrite includes_elem_of. split; [eauto|]. by intros (r' & [= <-] & Hin).
  - split; [done|]. by intros (r' & [=] & _).
Qed.

Lemma requireRole_allowed {B} roles s (req : Request B) c :
  user req = Some c -> role_in roles c -> Auth.requireRole roles s req = Next req.
Proof.
  intros Hu Hin. unfold Auth.requireRole. rewrite Hu.
  by apply includes_role in Hin as ->.
Qed.

Lemma requireRole_refused {B} roles s (req : Request B) c :
  user req = Some c -> ~ role_in roles c ->
  Auth.requireRole roles s req = Respond forbidden.
Proof.
  intros Hu Hnin. unfold Auth.requireRole. rewrite Hu.
  destruct (includes roles (role c)) eqn:Hi; [|done].
  by apply includes_role in Hi.
Qed.

Lemma role_in_ADMIN c : role_in ["ADMIN"] c <-> role c = Some "ADMIN".
Proof.
  unfold role_in. split.
  - intros (r & Hr & Hin). apply list_elem_of_singleton in Hin. congruence.
  - intros Hr. exists "ADMIN". split; [done|]. by apply list_elem_of_singleton.
Qed.

Lemma where_eq_true (value : option string) (field : string) :
  Auth.where_eq value field = true <-> forall v, value = Some v -> field = v.
Proof.
  destruct value as [v|]; simpl.
  - rewrite String.eqb_eq. split; [by intros -> ? [= <-] | eauto].
  - split; [by intros _ ? [=] | done].
Qed.

Lemma accepted_by_filter (c : Claims) (u : User) :
  Auth.where_eq (userId c) (user_id u)
  && Auth.where_eq (tenantId c) (user_tenantId u) = true <-> accepted_by c u.
Proof.
  unfold accepted_by. by rewrite andb_true_iff, !where_eq_true.
Qed.

Lemma accepted_by_issued (uid tid : string) (u : User) :
  user_id u = uid -> user_tenantId u = tid -> accepted_by (issued_claims uid tid) u.
Proof. intros <- <-. split; by intros ? [= <-]. Qed.

(** What a request looks like after [authenticateToken] let it through. *)
Lemma authenticateToken_Next {B} s (req req' : Request B) :
  Auth.authenticateToken env jwt_verify s req = Next req' ->
  exists token decoded u,
    Auth.bearer_token (authorization req) = Some token /\
    jwt_verify token secret = Some decoded /\
    u ∈ users s /\ accepted_by decoded u /\
    req' = set_user decoded req.
Proof.
  unfold Auth.authenticateToken. fold secret.
  destruct (Auth.bearer_token (authorization req)) as [token|]; [|done].
  destruct (jwt_verify token secret) as [decoded|] eqn:Hver; [|done].
  destruct (findFirst _ (users s)) as [u|] eqn:Hu; [|done].
  intros [= <-]. apply findFirst_Some in Hu as [Hin Hscope].
  apply accepted_by_filter in Hscope.
  by exists token, decoded, u.
Qed.

Lemma authenticateToken_passes {B} s (req : Request B) token decoded u :
  Auth.bearer_token (authorization req) = Some token ->
  jwt_verify token secret = Some decoded ->
  u ∈ users s -> accepted_by decoded u ->
  Auth.authenticateToken env jwt_verify s req = Next (set_user decoded req).
Proof.
  intros Htok Hver Hin Hacc. unfold Auth.authenticateToken. fold secret.
  rewrite Htok, Hver.
  destruct (findFirst _ (users s)) as [u'|] eqn:Hu; [done|].
  rewrite findFirst_None in Hu. specialize (Hu u Hin).
  apply accepted_by_filter in Hacc. by rewrite Hacc in Hu.
Qed.

(** An admin-only route behind both middlewares: refused with 403 unless
    the attached role is ADMIN. *)
Lemma admin_route {B} (h : Handler B) s (req req' : Request B) :
  Auth.authenticateToken env jwt_verify s req = Next req' ->
  exists decoded,
    user req' = Some decoded /\
    (role decoded <> Some "ADMIN" ->
     guarded (Auth.authenticateToken env jwt_verify)
       (guarded (Auth.requireRole ["ADMIN"]) h) s req = (forbidden, s)) /\
    (role decoded = Some "ADMIN" ->
     guarded (Auth.authenticateToken env jwt_verify)
       (guarded (Auth.requireRole ["ADMIN"]) h) s req = h s req').
Proof.
  intros Hauth.
  destruct (authenticateToken_Next _ _ _ Hauth)
    as (token & decoded & u & _ & _ & _ & _ & ->).
  exists decoded. split; [done|]. unfold guarded. rewrite Hauth.
  split; intros Hrole.
  - rewrite (requireRole_refused _ _ _ decoded); [done | done |].
    by rewrite role_in_ADMIN.
  - rewrite (requireRole_allowed _ _ _ decoded); [done | done |].
    by rewrite role_in_ADMIN.
Qed.

(** C8. Role gate.  On a request that carries an identity, [requireRole roles]
    answers 403 Forbidden exactly when the identity's role is not one of
    [roles], and otherwise passes the request on unchanged.  On
    DELETE /api/users/:userId an authenticated identity whose role is not
    ADMIN gets 403 and leaves the store alone, whichever user and tenant the
    request addresses; with role ADMIN the request reaches the controller. *)
Theorem role_gate {B : Type} :
  (forall (roles : list string) (s : Store) (req : Request B) (c : Claims),
     user req = Some c ->
     (Auth.requireRole roles s req = Respond forbidden <-> ~ role_in roles c) /\
     (Auth.requireRole roles s req = Next req <-> role_in roles c) /\
     status forbidden = 403) /\
  (forall (s : Store) (req req' : Request B),
     Auth.authenticateToken env jwt_verify s req = Next req' ->
     exists decoded,
       user req' = Some decoded /\
       (role decoded <> Some "ADMIN" ->
        UserRoutes.delete_user env jwt_verify s req = (forbidden, s)) /\
       (role decoded = Some "ADMIN" ->
        UserRoutes.delete_user env jwt_verify s req
        = UserController.deleteUser s req')).
Proof.
  split.
  - intros roles s req c Hu. split; [|split; [|reflexivity]].
    + split.
      * intros Hres Hin.
        rewrite (requireRole_allowed roles s req c Hu Hin) in Hres. done.
      * by apply requireRole_refused.
    + split.
      * intros Hres. destruct (includes roles (role c)) eqn:Hi.
        -- by apply includes_role.
        -- unfold Auth.requireRole in Hres. rewrite Hu, Hi in Hres. done.
      * by apply requireRole_allowed.
  - intros s req req' Hauth. apply (admin_route UserController.deleteUser s req req' Hauth).
Qed.

End AuthFacts.

(** * Registration, login and the identity carried by issued tokens *)

Lemma sanitizeUser_no_password (o : JsObject) :
  has_key "password" (UserService.sanitizeUser o) = false.
Proof.
  unfold UserService.sanitizeUser, has_key.
  induction o as [|[k v] o IH]; simpl; [done|].
  destruct (String.eqb k "password") eqn:Hk; simpl; [done|].
  by rewrite Hk.
Qed.

Section UserFacts.
Import UserService.
Context (env : Env).
Context (bcrypt_hash : string -> Z -> string).
Context (bcrypt_compare : string -> string -> bool).
Context (jwt_sign : Claims -> string -> string -> string).
Context (jwt_verify : string -> string -> option Claims).

#[local] Abbreviation generateToken := (generateToken env jwt_sign).
#[local] Abbreviation post_register := (UserRoutes.post_register env bcrypt_hash jwt_sign).
#[local] Abbreviation post_login := (UserRoutes.post_login env bcrypt_compare jwt_sign).
#[local] Abbreviation get_profile := (UserRoutes.get_profile env jwt_verify).
#[local] Abbreviation get_users := (UserRoutes.get_users env jwt_verify).
#[local] Abbreviation patch_role := (UserRoutes.patch_role env jwt_verify).
#[local] Abbreviation delete_user := (UserRoutes.delete_user env jwt_verify).
#[local] Abbreviation new_user := (new_user bcrypt_hash).

Lemma sanitizeUser_user_object u : sanitizeUser (user_object u) = public_user u.
Proof. reflexivity. Qed.

Lemma createUser_Ok newId data s :
  findFirst (by_email (email data)) (users s) = None ->
  findUnique newId (users s) = None ->
  createUser env bcrypt_hash jwt_sign newId data s
  = Ok ({| s_user := public_user (new_user newId data);
           s_token := generateToken newId (c_tenantId data) |},
        set_users (users s ++ [new_user newId data]) s).
Proof.
  intros Hemail Hnew. unfold createUser. rewrite Hemail.
  fold (new_user newId data). unfold create_user.
  cbn [user_email new_user]. rewrite Hemail.
  rewrite (create_Ok (new_user newId data) (users s) Hnew).
  reflexivity.
Qed.

Lemma createUser_taken newId data s u :
  findFirst (by_email (email data)) (users s) = Some u ->
  createUser env bcrypt_hash jwt_sign newId data s
  = Throw (AppError "User already exists" 400).
Proof. intros Hemail. unfold createUser. by rewrite Hemail. Qed.

Lemma login_Ok data s u :
  findFirst (by_email (l_email data)) (users s) = Some u ->
  bcrypt_compare (l_password data) (user_password u) = true ->
  login env bcrypt_compare jwt_sign data s
  = Ok {| s_user := public_user u;
          s_token := generateToken (user_id u) (user_tenantId u) |}.
Proof. intros Hu Hpw. unfold login. by rewrite Hu, Hpw. Qed.

Lemma getProfile_Ok {B} s (req : Request B) c uid u :
  user req = Some c -> userId c = Some uid -> uid <> "" ->
  findUnique uid (users s) = Some u ->
  UserController.getProfile s req
  = ({| status := 200; json := Some (JObj [("user", JObj (public_user u))]) |}, s).
Proof.
  intros Hc Hid Hne Hu. unfold UserController.getProfile. rewrite Hc. simpl.
  rewrite Hid. apply String.eqb_neq in Hne as ->.
  unfold getUserProfile. by rewrite Hu.
Qed.


(** C10. Tokens issued by [generateToken] carry [userId] and [tenantId] and
    no role.  jsonwebtoken hands back the payload it signed; so for a request
    that bears a token that [generateToken] issued: whenever
    [authenticateToken] lets the request through, the identity it attaches is
    the user id and the tenant id and has no role; and when the token's user
    is stored under the token's tenant, whatever role that row holds, each
    admin-only route (GET /api/users, PATCH /api/users/role,
    DELETE /api/users/:userId) answers 403 and leaves the store as it was. *)
Theorem issued_tokens_carry_no_role (s : Store) (uid tid : string) :
  let token := generateToken uid tid in
  (forall payload key expiresIn,
     jwt_verify (jwt_sign payload key expiresIn) key = Some payload) ->
  token <> "" -> has_char " " token = false ->
  (forall (B : Type) (req req' : Request B),
     authorization req = Some ("Bearer " +:+ token) ->
     Auth.authenticateToken env jwt_verify s req = Next req' ->
     exists c, user req' = Some c /\ role c = None /\
               userId c = Some uid /\ tenantId c = Some tid) /\
  (forall u, u ∈ users s -> user_id u = uid -> user_tenantId u = tid ->
     (forall (B : Type) (req : Request B),
        authorization req = Some ("Bearer " +:+ token) ->
        get_users s req = (forbidden, s) /\
        delete_user s req = (forbidden, s)) /\
     (forall (req : Request UserController.ChangeRoleBody),
        authorization req = Some ("Bearer " +:+ token) ->
        patch_role s req = (forbidden, s))) /\
  status forbidden = 403.
Proof.
  intros token Hlaw Htok Hsp.
  assert (Hjwt : jwt_verify token (secret env)
                 = Some {| userId := Some uid; tenantId := Some tid;
                           role := None; payload_id := None |})
    by exact (Hlaw _ _ _).
  assert (Hbearer : forall (B : Type) (req : Request B),
            authorization req = Some ("Bearer " +:+ token) ->
            Auth.bearer_token (authorization req) = Some token).
  { intros B req ->. by apply bearer_token_Bearer. }
  split; [|split; [|reflexivity]].
  - intros B req req' Hhdr Hauth.
    apply authenticateToken_Next in Hauth
      as (token' & decoded & u & Htok' & Hver & _ & _ & ->).
    rewrite (Hbearer B req Hhdr) in Htok'. injection Htok' as <-.
    rewrite Hjwt in Hver. injection Hver as <-.
    eexists. by split.
  - intros u Hin Hid Hten.
    assert (Hauth : forall (B : Type) (req : Request B),
              authorization req = Some ("Bearer " +:+ token) ->
              Auth.authenticateToken env jwt_verify s req
              = Next (set_user (issued_claims uid tid) req)).
    { intros B req Hhdr.
      apply (authenticateToken_passes env jwt_verify s req token _ u);
        [by apply Hbearer | done | done | by apply accepted_by_issued]. }
    assert (Hroute : forall (B : Type) (h : Handler B) (req : Request B),
              authorization req = Some ("Bearer " +:+ token) ->
              guarded (Auth.authenticateToken env jwt_verify)
                (guarded (Auth.requireRole ["ADMIN"]) h) s req = (forbidden, s)).
    { intros B h req Hhdr.
      destruct (admin_route env jwt_verify h s req _ (Hauth B req Hhdr))
        as (decoded & Hdec & Hrefuse & _).
      injection Hdec as <-. by apply Hrefuse. }
    split.
    + intros B req Hhdr. split; by apply Hroute.
    + intros req Hhdr. by apply Hroute.
Qed.

End UserFacts.

(** The stand-in for jsonwebtoken hands back the payload it signed. *)
Lemma unspell_spell (v rest : string) :
  unspell (spell v +:+ rest) = Some (v, rest).
Proof. induction v as [|c v IH]; simpl; [done|]. by rewrite IH. Qed.

Lemma unspell_spell_end (v : string) : unspell (spell v) = Some (v, "").
Proof. induction v as [|c v IH]; simpl; [done|]. by rewrite IH. Qed.

Lemma unspell_opt_spell (o : option string) (rest : string) :
  unspell_opt (spell_opt o +:+ rest) = Some (o, rest).
Proof. destruct o as [v|]; simpl; [|done]. by rewrite unspell_spell. Qed.

Lemma unspell_opt_spell_end (o : option string) :
  unspell_opt (spell_opt o) = Some (o, "").
Proof. destruct o as [v|]; simpl; [|done]. by rewrite unspell_spell_end. Qed.

Lemma sample_jwt_round_trip (payload : Claims) (key expiresIn : string) :
  sample_verify (sample_sign payload key expiresIn) key = Some payload.
Proof.
  unfold sample_verify, sample_sign. rewrite unspell_spell.
  cbn [mbind option_bind]. rewrite String.eqb_refl.
  do 3 (rewrite unspell_opt_spell; cbn [mbind option_bind]).
  rewrite unspell_opt_spell_end. cbn [mbind option_bind].
  by destruct payload.
Qed.

Lemma role_gate_witness :
  Auth.requireRole ["ADMIN"] store_T1
    (set_user (issued_claims "u-1" "T1") (bearer token_u1 tt))
  = Respond forbidden /\
  (exists decoded,
     role decoded <> Some "ADMIN" /\
     UserRoutes.delete_user sample_env sample_verify store_T1
       (bearer token_u1 tt) = (forbidden, store_T1)) /\
  (exists decoded,
     role decoded = Some "ADMIN" /\
     UserRoutes.delete_user sample_env sample_verify store_user_only
       (bearer token_admin tt)
     = ({| status := 204; json := None |}, set_users [] store_user_only)).
Proof.
  destruct (@role_gate sample_env sample_verify unit) as [Hgate Hroute].
  split; [|split].
  - apply (Hgate ["ADMIN"] store_T1
             (set_user (issued_claims "u-1" "T1") (bearer token_u1 tt))
             (issued_claims "u-1" "T1") eq_refl).
    intros (r & Hr & _). discriminate Hr.
  - destruct (Hroute store_T1 (bearer token_u1 tt) _ eq_refl)
      as (decoded & Hdec & Hrefuse & _).
    exists decoded. injection Hdec as <-.
    split; [discriminate|]. apply Hrefuse. discriminate.
  - destruct (Hroute store_user_only (bearer token_admin tt) _ eq_refl)
      as (decoded & Hdec & _ & Hpass).
    exists decoded. injection Hdec as <-.
    split; [reflexivity|]. rewrite Hpass by reflexivity. reflexivity.
Defined.


Lemma issued_tokens_carry_no_role_witness :
  user_role user_T1 = "ADMIN" /\
  UserRoutes.get_users sample_env sample_verify store_T1 (bearer token_u1 tt)
  = (forbidden, store_T1) /\
  UserRoutes.delete_user sample_env sample_verify store_T1 (bearer token_u1 tt)
  = (forbidden, store_T1) /\
  UserRoutes.patch_role sample_env sample_verify store_T1
    (bearer token_u1
       {| UserController.b_userId := "u-1"; UserController.b_role := "USER" |})
  = (forbidden, store_T1).
Proof.
  destruct (issued_tokens_carry_no_role sample_env sample_sign sample_verify
              store_T1 "u-1" "T1") as (_ & Hroutes & _).
  - apply sample_jwt_round_trip.
  - discriminate.
  - reflexivity.
  - destruct (Hroutes user_T1) as [Hany Hpatch].
    + by apply list_elem_of_singleton.
    + reflexivity.
    + reflexivity.
    + split; [reflexivity|].
      destruct (Hany unit (bearer token_u1 tt) eq_refl) as [Hg Hd].
      split; [exact Hg|]. split; [exact Hd|].
      apply Hpatch. reflexivity.
Defined.

(** * Further properties: authentication *)

#[local] Set Warnings "-clear-no-such-hyp".

Lemma split_sep_app (sep : Ascii.ascii) (a b : string) :
  has_char sep a = false ->
  split sep (a +:+ String sep b) = a :: split sep b.
Proof.
  induction a as [|c a IH]; simpl.
  - intros _. by rewrite Ascii.eqb_refl.
  - intros Hno. apply orb_false_elim in Hno as [Hc Ha].
    by rewrite Hc, IH.
Qed.

Lemma truthy_token (token : string) :
  token <> "" -> (if String.eqb token "" then None else Some token) = Some token.
Proof. intros Hne. by apply String.eqb_neq in Hne as ->. Qed.

Lemma header_not_empty (a b : string) :
  String.eqb (a +:+ String " " b) "" = false.
Proof. by destruct a. Qed.

(** X1. Which part of the Authorization header counts.  [authenticateToken]
    takes the second space-separated segment of the header as the token and
    never looks at the first: any scheme word, even an empty one, is as good
    as Bearer, and whatever follows a further space is ignored.  A header
    without a space, a header ending in its first space, and a missing
    header give no token. *)
Theorem bearer_token_is_second_segment (scheme token rest : string) :
  has_char " " scheme = false -> has_char " " token = false -> token <> "" ->
  Auth.bearer_token (Some (scheme +:+ " " +:+ token)) = Some token /\
  Auth.bearer_token (Some (scheme +:+ " " +:+ token +:+ " " +:+ rest))
  = Some token /\
  Auth.bearer_token (Some scheme) = None /\
  Auth.bearer_token (Some (scheme +:+ " ")) = None /\
  Auth.bearer_token None = None.
Proof.
  intros Hscheme Htoken Hne. unfold Auth.bearer_token.
  change (" " +:+ token) with (String " " token).
  change (" " +:+ token +:+ " " +:+ rest)
    with (String " " (token +:+ String " " rest)).
  change (scheme +:+ " ") with (scheme +:+ String " " "").
  rewrite !header_not_empty, !split_sep_app by done.
  rewrite (split_no_sep _ token) by done. simpl.
  rewrite truthy_token by done.
  split; [done|]. split; [done|]. split; [|done].
  destruct (String.eqb scheme ""); [done|].
  by rewrite split_no_sep.
Qed.

Lemma bearer_token_is_second_segment_witness :
  Auth.bearer_token (Some "Basic jwt.u-1.T1") = Some "jwt.u-1.T1" /\
  Auth.bearer_token (Some "Basic jwt.u-1.T1 trailing words") = Some "jwt.u-1.T1" /\
  Auth.bearer_token (Some "Basic") = None /\
  Auth.bearer_token (Some "Basic ") = None /\
  Auth.bearer_token None = None.
Proof.
  apply (bearer_token_is_second_segment "Basic" "jwt.u-1.T1" "trailing words");
    [reflexivity | reflexivity | discriminate].
Defined.

Section AuthenticationFacts.
Context (env : Env) (jwt_verify : string -> string -> option Claims).

#[local] Abbreviation secret := (secret env).
#[local] Abbreviation authenticateToken := (Auth.authenticateToken env jwt_verify).

Lemma authenticateToken_401 {B} s (req : Request B) res :
  authenticateToken s req = Respond res -> status res = 401.
Proof.
  unfold Auth.authenticateToken.
  destruct (Auth.bearer_token (authorization req)); [|by intros [= <-]].
  destruct (jwt_verify _ _); [|by intros [= <-]].
  destruct (findFirst _ (users s)); [done | by intros [= <-]].
Qed.

(** X2. What [authenticateToken] decides.  It calls [next()] exactly when
    the header yields a token, the token verifies, and some stored user has
    the payload's [userId] and [tenantId]; a property that the payload lacks
    puts no condition on the user, so a verified payload with neither passes
    as soon as any user is stored.  The request it passes on differs from
    the incoming one only in [req.user], which is the decoded payload
    whatever the request carried there.  In every other case it answers 401,
    with "No token provided" when the header yields no token. *)
Theorem authenticateToken_decides {B : Type} (s : Store) (req : Request B) :
  (forall req',
     authenticateToken s req = Next req' <->
     exists token decoded u,
       Auth.bearer_token (authorization req) = Some token /\
       jwt_verify token secret = Some decoded /\
       u ∈ users s /\
       (forall uid, userId decoded = Some uid -> user_id u = uid) /\
       (forall tid, tenantId decoded = Some tid -> user_tenantId u = tid) /\
       req' = set_user decoded req) /\
  (forall token decoded u,
     Auth.bearer_token (authorization req) = Some token ->
     jwt_verify token secret = Some decoded ->
     userId decoded = None -> tenantId decoded = None -> u ∈ users s ->
     authenticateToken s req = Next (set_user decoded req)) /\
  (forall req', authenticateToken s req = Next req' ->
     authorization req' = authorization req /\ body req' = body req /\
     params_userId req' = params_userId req) /\
  (forall res, authenticateToken s req = Respond res -> status res = 401) /\
  (Auth.bearer_token (authorization req) = None ->
   authenticateToken s req = Respond (error_response 401 "No token provided")).
Proof.
  split; [|split; [|split; [|split]]].
  - intros req'. split.
    + intros Hnext.
      apply authenticateToken_Next in Hnext
        as (token & decoded & u & Htok & Hver & Hin & [Hid Hten] & ->).
      by exists token, decoded, u.
    + intros (token & decoded & u & Htok & Hver & Hin & Hid & Hten & ->).
      by apply (authenticateToken_passes env jwt_verify s req token decoded u).
  - intros token decoded u Htok Hver Hid Hten Hin.
    apply (authenticateToken_passes env jwt_verify s req token decoded u);
      [done..|].
    split; intros x Hx; congruence.
  - intros req' Hnext.
    apply authenticateToken_Next in Hnext as (? & ? & ? & _ & _ & _ & _ & ->).
    done.
  - apply authenticateToken_401.
  - intros Hnone. unfold Auth.authenticateToken. by rewrite Hnone.
Qed.

End AuthenticationFacts.

(** * Further properties: start of the server *)

Section ServerFacts.
Import Server.
Context (listen : Z -> bool).

(** X3. The port the server ends on.  Started at [port], [startServer] tries
    [port], [port + 1], ... and never goes past 3010 (past [port] itself when
    [port] is above 3010): it ends listening on the first port of that range
    on which [listen] succeeds, and exits with code 1 exactly when [listen]
    fails on every port of the range. *)
Theorem startServer_first_free_port (port : Z) :
  match startServer listen port with
  | Listening q =>
      port <= q <= Z.max port 3010 /\ listen q = true /\
      forall r, port <= r < q -> listen r = false
  | Exited code =>
      code = 1 /\ forall r, port <= r <= Z.max port 3010 -> listen r = false
  end.
Proof.
  funelim (startServer listen port). clear Heqcall.
  destruct (listen port) eqn:Hl.
  - split; [lia|]. split; [done|]. intros r Hr. lia.
  - destruct (Z_lt_dec port 3010) as [Hlt|Hge].
    + specialize (H Hlt). destruct (startServer listen (port + 1)) as [q|code].
      * destruct H as (Hq & Hq' & Hbusy). split; [lia|]. split; [done|].
        intros r Hr. destruct (decide (r = port)) as [->|Hne]; [done|].
        apply Hbusy. lia.
      * destruct H as (Hcode & Hbusy). split; [done|].
        intros r Hr. destruct (decide (r = port)) as [->|Hne]; [done|].
        apply Hbusy. lia.
    + split; [done|]. intros r Hr. by replace r with port by lia.
Qed.

End ServerFacts.

(** * Further properties: the validation functions *)

Section ValidationFacts.
Import Models.

Lemma missing_true (f : string) : missing f = true <-> f = "".
Proof. apply String.eqb_eq. Qed.

Lemma missing_false (f : string) : missing f = false <-> f <> "".
Proof. apply String.eqb_neq. Qed.

Lemma push_if_nil (c : bool) (m : string) (l : list string) :
  push_if c m l = [] <-> c = false /\ l = [].
Proof.
  destruct c; simpl; [|naive_solver]. split; [|by intros [? _]].
  intros Happ. by apply app_eq_nil in Happ as [_ ?].
Qed.

Lemma elem_of_push_if (x : string) (c : bool) (m : string) (l : list string) :
  x ∈ push_if c m l <-> x ∈ l \/ (c = true /\ x = m).
Proof.
  destruct c; simpl; [|naive_solver].
  rewrite elem_of_app, list_elem_of_singleton. naive_solver.
Qed.

(** A validator returns no error: every required field is present. *)
Ltac accepts :=
  rewrite !push_if_nil, !missing_false; tauto.

(** A message is reported: among the fields, only its own can be the cause. *)
Ltac reports :=
  rewrite !elem_of_push_if, elem_of_nil, !missing_true; naive_solver.

(** X4. [validateUser] accepts a user, returning no error, exactly when
    email, password, tenant id, first name, last name and role are all
    non-empty; and each of its six messages is in the list it returns
    exactly when the field it names is empty. *)
Theorem validateUser_reports_each_empty_field (u : User) :
  (validateUser u = [] <->
   user_email u <> "" /\ user_password u <> "" /\ user_tenantId u <> "" /\
   user_firstName u <> "" /\ user_lastName u <> "" /\ user_role u <> "") /\
  ("Email is required" ∈ validateUser u <-> user_email u = "") /\
  ("Password is required" ∈ validateUser u <-> user_password u = "") /\
  ("Tenant ID is required" ∈ validateUser u <-> user_tenantId u = "") /\
  ("First name is required" ∈ validateUser u <-> user_firstName u = "") /\
  ("Last name is required" ∈ validateUser u <-> user_lastName u = "") /\
  ("Role is required" ∈ validateUser u <-> user_role u = "").
Proof.
  unfold validateUser. split; [accepts|]. repeat split; reports.
Qed.

(** X5. The validators of the other models accept, returning no error,
    exactly when every field they require is non-empty: name and domain of a
    tenant; title, description, status, tenant id and user id of a claim;
    name, email, phone and tenant id of a contact and of an insurer. *)
Theorem validators_accept_complete_records :
  (forall t, validateTenant t = [] <->
             tenant_name t <> "" /\ tenant_domain t <> "") /\
  (forall c, validateClaim c = [] <->
             claim_title c <> "" /\ claim_description c <> "" /\
             claim_status c <> "" /\ claim_tenantId c <> "" /\
             claim_userId c <> "") /\
  (forall c, validateContact c = [] <->
             contact_name c <> "" /\ contact_email c <> "" /\
             contact_phone c <> "" /\ contact_tenantId c <> "") /\
  (forall i, validateInsurer i = [] <->
             insurer_name i <> "" /\ insurer_email i <> "" /\
             insurer_phone i <> "" /\ insurer_tenantId i <> "").
Proof.
  split; [|split; [|split]].
  - intros t. unfold validateTenant. accepts.
  - intros c. unfold validateClaim. accepts.
  - intros c. unfold validateContact. accepts.
  - intros i. unfold validateInsurer. accepts.
Qed.

End ValidationFacts.

(** * Further properties: users *)

Section MoreTableFacts.
Context {R : Type} `{Model R}.
Implicit Types (t : list R) (r : R) (id : string).

Lemma elem_of_findMany (P : R -> bool) t r :
  r ∈ findMany P t <-> r ∈ t /\ P r = true.
Proof. unfold findMany. rewrite !list_elem_of_In. apply filter_In. Qed.

Lemma delete_inv id t r t' : delete id t = Ok (r, t') ->
  findUnique id t = Some r /\ t' = findMany (fun x => negb (has_id id x)) t.
Proof.
  unfold delete. destruct (findUnique id t) as [r0|]; [|done].
  by intros [= <- <-].
Qed.

Lemma elem_of_patched id data t r :
  r ∈ t -> row_id r <> id -> r ∈ map (patch_row id data) t.
Proof.
  intros Hin Hne. apply list_elem_of_fmap. exists r.
  split; [|done]. symmetry. by apply patch_row_other.
Qed.

End MoreTableFacts.

Lemma NoDup_map_inj {A B} (f : A -> B) (l : list A) (x y : A) :
  NoDup (map f l) -> x ∈ l -> y ∈ l -> f x = f y -> x = y.
Proof.
  induction l as [|a l IH]; intros Hnd Hx Hy Heq.
  - by apply elem_of_nil in Hx.
  - simpl in Hnd. apply NoDup_cons in Hnd as [Ha Hnd].
    apply elem_of_cons in Hx as [->|Hx]; apply elem_of_cons in Hy as [->|Hy].
    + done.
    + exfalso. apply Ha. rewrite Heq. apply list_elem_of_fmap. eauto.
    + exfalso. apply Ha. rewrite <- Heq. apply list_elem_of_fmap. eauto.
    + by apply IH.
Qed.

Section MoreUserFacts.
Import UserService.
Context (env : Env).
Context (bcrypt_hash : string -> Z -> string).
Context (bcrypt_compare : string -> string -> bool).
Context (jwt_sign : Claims -> string -> string -> string).
Context (jwt_verify : string -> string -> option Claims).

#[local] Abbreviation generateToken := (generateToken env jwt_sign).
#[local] Abbreviation login := (login env bcrypt_compare jwt_sign).
#[local] Abbreviation createUser := (createUser env bcrypt_hash jwt_sign).
#[local] Abbreviation post_login := (UserRoutes.post_login env bcrypt_compare jwt_sign).
#[local] Abbreviation get_users := (UserRoutes.get_users env jwt_verify).
#[local] Abbreviation delete_user := (UserRoutes.delete_user env jwt_verify).
#[local] Abbreviation put_profile := (UserRoutes.put_profile env jwt_verify).
#[local] Abbreviation authenticateToken := (Auth.authenticateToken env jwt_verify).
#[local] Abbreviation secret := (secret env).

(** X6. Login.  [login] succeeds exactly when a user with the given email is
    stored and bcrypt accepts the password against that user's hash; the
    session then holds that user without a [password] property and a token
    for the user's id and tenant.  An unknown email and a wrong password
    fail with one and the same error, status 401 "Invalid credentials"; and
    POST /login never changes the store. *)
Theorem login_outcomes (data : LoginData) (s : Store) :
  (forall sess,
     login data s = Ok sess <->
     exists u, findFirst (by_email (l_email data)) (users s) = Some u /\
               bcrypt_compare (l_password data) (user_password u) = true /\
               sess = {| s_user := public_user u;
                         s_token := generateToken (user_id u) (user_tenantId u) |}) /\
  (forall sess, login data s = Ok sess -> has_key "password" (s_user sess) = false) /\
  (forall e, login data s = Throw e -> e = AppError "Invalid credentials" 401) /\
  (forall req res s', body req = data -> post_login s req = (res, s') ->
     s' = s /\
     (status res = 200 \/ res = error_response 401 "Invalid credentials")).
Proof.
  assert (Hcases :
            (exists u, findFirst (by_email (l_email data)) (users s) = Some u /\
                       bcrypt_compare (l_password data) (user_password u) = true /\
                       login data s
                       = Ok {| s_user := public_user u;
                               s_token := generateToken (user_id u)
                                            (user_tenantId u) |}) \/
            login data s = Throw (AppError "Invalid credentials" 401) /\
            forall u, findFirst (by_email (l_email data)) (users s) = Some u ->
                      bcrypt_compare (l_password data) (user_password u) = false).
  { unfold UserService.login.
    destruct (findFirst _ (users s)) as [u|]; [|by right].
    destruct (bcrypt_compare _ _) eqn:Hpw.
    - left. exists u. by repeat split.
    - right. split; [done|]. by intros u' [= <-]. }
  split; [|split; [|split]].
  - intros sess. split.
    + destruct Hcases as [(u & Hu & Hpw & Hok)|[Hfail _]].
      * rewrite Hok. intros [= <-]. eauto.
      * by rewrite Hfail.
    + intros (u & Hu & Hpw & ->).
      destruct Hcases as [(u' & Hu' & _ & Hok)|[_ Hfail]].
      * rewrite Hu in Hu'. by injection Hu' as <-.
      * by rewrite (Hfail u Hu) in Hpw.
  - intros sess. destruct Hcases as [(u & _ & _ & Hok)|[Hfail _]].
    + rewrite Hok. intros [= <-].
      exact (sanitizeUser_no_password (user_object u)).
    + by rewrite Hfail.
  - intros e. destruct Hcases as [(u & _ & _ & Hok)|[Hfail _]].
    + by rewrite Hok.
    + rewrite Hfail. by intros [= <-].
  - intros req res s' Hbody.
    unfold UserRoutes.post_login, UserController.login. rewrite Hbody.
    destruct Hcases as [(u & _ & _ & Hok)|[Hfail _]].
    + rewrite Hok. intros [= <- <-]. split; [done|]. by left.
    + rewrite Hfail. intros [= <- <-]. split; [done|]. by right.
Qed.

Lemma deleteUser_inv uid s s' :
  deleteUser uid s = Ok s' ->
  exists u, findUnique uid (users s) = Some u /\
            references_user uid s = false /\
            s' = set_users (findMany (fun x => negb (has_id uid x)) (users s)) s.
Proof.
  unfold deleteUser. destruct (delete uid (users s)) as [[u t]|] eqn:Hd; [|done].
  apply delete_inv in Hd as [Hu ->]. cbn [mbind Result_bind].
  destruct (references_user uid s); [done|]. intros [= <-]. eauto.
Qed.

Lemma existsb_elem_of {A} (P : A -> bool) (l : list A) :
  existsb P l = true <-> exists x, x ∈ l /\ P x = true.
Proof.
  rewrite existsb_exists. split; intros (x & Hx & HP); exists x;
    (split; [by apply list_elem_of_In | done]).
Qed.

(** X7. Deleting a user revokes the user's tokens.  [deleteUser] succeeds
    exactly on a stored id to which no fee, commission, document, document
    version or template points; it then removes the rows with that id and no
    other row of any table, and from then on [authenticateToken] answers 401
    "Invalid token" to every token whose payload names the deleted id.  On an
    id that is not stored it throws the ORM's record-not-found error, and on
    a stored id that some row still points to it throws, refused by the
    foreign key. *)
Theorem deleteUser_revokes_tokens (uid : string) (s : Store) :
  (forall s', deleteUser uid s = Ok s' ->
     (forall u, u ∈ users s' <-> u ∈ users s /\ user_id u <> uid) /\
     (fees s', commissions s', documents s', documentVersions s', templates s')
     = (fees s, commissions s, documents s, documentVersions s, templates s) /\
     forall (B : Type) (req : Request B) token decoded,
       Auth.bearer_token (authorization req) = Some token ->
       jwt_verify token secret = Some decoded ->
       userId decoded = Some uid ->
       authenticateToken s' req = Respond (error_response 401 "Invalid token")) /\
  (is_Some (findUnique uid (users s)) /\ references_user uid s = false
   <-> exists s', deleteUser uid s = Ok s') /\
  (findUnique uid (users s) = None -> deleteUser uid s = Throw RecordNotFound) /\
  (is_Some (findUnique uid (users s)) -> references_user uid s = true ->
   deleteUser uid s = Throw ForeignKeyConstraint) /\
  (references_user uid s = true <->
   (exists f, f ∈ fees s /\ fee_createdBy f = uid) \/
   (exists c, c ∈ commissions s /\ com_userId c = uid) \/
   (exists d, d ∈ documents s /\ doc_createdBy d = uid) \/
   (exists v, v ∈ documentVersions s /\ dv_createdBy v = uid) \/
   (exists r, r ∈ templates s /\ tpl_createdBy r = uid)).
Proof.
  split; [|split; [|split; [|split]]].
  - intros s' Hdel. apply deleteUser_inv in Hdel as (u0 & Hu0 & _ & ->).
    cbn [users fees commissions documents documentVersions templates set_users].
    assert (Hmem : forall u, u ∈ findMany (fun x => negb (has_id uid x)) (users s)
                             <-> u ∈ users s /\ user_id u <> uid).
    { intros u. rewrite elem_of_findMany, negb_true_iff.
      by rewrite (has_id_false uid u). }
    split; [exact Hmem|]. split; [done|].
    intros B req token decoded Htok Hver Hid.
    unfold Auth.authenticateToken. fold secret. rewrite Htok, Hver.
    cbn [users set_users].
    destruct (findFirst _ _) as [u|] eqn:Hu; [|done].
    apply findFirst_Some in Hu as [Hin Hscope].
    apply accepted_by_filter in Hscope as [Hsame _].
    apply Hmem in Hin as [_ Hne]. exfalso. apply Hne. by apply Hsame.
  - unfold deleteUser, delete. destruct (findUnique uid (users s)) as [u|];
      cbn [mbind Result_bind].
    + destruct (references_user uid s).
      * split; [by intros [_ ?] | by intros [? ?]].
      * split; [by eauto | by eauto].
    + split; [by intros [[? ?] _] | by intros [? ?]].
  - intros Hnone. unfold deleteUser, delete. by rewrite Hnone.
  - intros [u Hu] Href. unfold deleteUser, delete. rewrite Hu.
    cbn [mbind Result_bind]. by rewrite Href.
  - unfold references_user. rewrite !orb_true_iff, !existsb_elem_of. split.
    + intros [[[[H|H]|H]|H]|H]; destruct H as (x & Hx & E);
        apply String.eqb_eq in E; eauto 10.
    + intros [H|[H|[H|[H|H]]]]; destruct H as (x & Hx & E);
        apply String.eqb_eq in E; eauto 10.
Qed.

Lemma update_user_inv id data t u' t' :
  update_user id data t = Ok (u', t') ->
  exists u, findUnique id t = Some u /\ u' = data u /\
            t' = map (patch_row id data) t.
Proof.
  unfold update_user. destruct (findUnique id t) as [u|] eqn:Hu; [|done].
  destruct (findFirst _ t); [done|]. destruct (findFirst _ t); [done|].
  unfold update. rewrite Hu. intros [= <- <-]. by exists u.
Qed.

(** With no new id and no new email in the body, the update of a stored
    user goes through when the stored emails are pairwise distinct. *)
Lemma update_user_Ok uid data (t : list User) u :
  NoDup (map user_email t) -> findUnique uid t = Some u ->
  u_id data = None -> u_email data = None ->
  update_user uid (profile_data data) t
  = Ok (profile_data data u, map (patch_row uid (profile_data data)) t).
Proof.
  intros Hmail Hu Hid Hemail. unfold update_user, update. rewrite Hu.
  pose proof (findUnique_Some _ _ _ Hu) as [Hin Hkey].
  change (row_id u) with (user_id u) in Hkey.
  cbn [profile_data user_email user_id]. rewrite Hid, Hemail.
  cbn [default from_option].
  rewrite (proj2 (findFirst_None _ t)).
  - rewrite (proj2 (findFirst_None _ t)); [done|].
    intros x _. by destruct (has_id uid x) eqn:E; rewrite Hkey, E.
  - intros x Hx. unfold by_email.
    destruct (String.eqb (user_email x) (user_email u)) eqn:E; [|done].
    apply String.eqb_eq in E.
    rewrite (NoDup_map_inj user_email t x u Hmail Hx Hin E).
    by rewrite (proj2 (@has_id_true _ User_model uid u) Hkey).
Qed.

(** X9. [updateUserProfile] writes whatever columns the body carries.  A
    successful call stores, for the addressed user, the body's value in every
    column that the body has and the old value in every other: the role, the
    password (as given, not hashed) and the tenant are written like the
    names and the email; every other user's row stays, and the returned
    object has no [password] property.  It throws on an id that is not
    stored and, refused by the unique index, when the new email is held by
    another user.  So on PUT /api/users/profile, with pairwise distinct
    stored emails, an authenticated user whose body carries a role (and no
    id and no email) is answered 200 and is stored with that role. *)
Theorem updateUserProfile_effect (uid : string) (data : UpdateUserData)
    (s : Store) :
  (forall o s',
     updateUserProfile uid data s = Ok (o, s') ->
     exists u u',
       findUnique uid (users s) = Some u /\
       u' ∈ users s' /\
       o = public_user u' /\
       has_key "password" o = false /\
       (user_id u', user_email u', user_password u', user_firstName u',
        user_lastName u', user_role u', user_tenantId u')
       = (default (user_id u) (u_id data),
          default (user_email u) (u_email data),
          default (user_password u) (u_password data),
          default (user_firstName u) (u_firstName data),
          default (user_lastName u) (u_lastName data),
          default (user_role u) (u_role data),
          default (user_tenantId u) (u_tenantId data)) /\
       (forall v, v ∈ users s -> user_id v <> uid -> v ∈ users s') /\
       length (users s') = length (users s)) /\
  (findUnique uid (users s) = None ->
   updateUserProfile uid data s = Throw RecordNotFound) /\
  (forall u v e,
     findUnique uid (users s) = Some u -> u_email data = Some e ->
     v ∈ users s -> user_id v <> uid -> user_email v = e ->
     updateUserProfile uid data s = Throw (UniqueConstraint "email")) /\
  (forall (req req' : Request UpdateUserData) decoded u r,
     NoDup (map user_email (users s)) ->
     authenticateToken s req = Next req' ->
     user req' = Some decoded -> userId decoded = Some uid -> uid <> "" ->
     body req = data -> findUnique uid (users s) = Some u ->
     u_id data = None -> u_email data = None -> u_role data = Some r ->
     exists u' s',
       put_profile s req
       = ({| status := 200; json := Some (JObj [("user", JObj (public_user u'))]) |},
          s') /\
       u' ∈ users s' /\ user_id u' = uid /\ user_role u' = r /\
       get_key "role" (public_user u') = Some (JStr r)).
Proof.
  split; [|split; [|split]].
  - intros o s'. unfold updateUserProfile.
    destruct (update_user uid _ (users s)) as [[u' t]|] eqn:Hu; [|done].
    cbn [mbind Result_bind mret Result_ret]. intros [= <- <-].
    cbn [users cascade_user_id set_users].
    apply update_user_inv in Hu as (u & Hu & -> & ->).
    exists u, (profile_data data u).
    split; [done|]. split.
    { apply list_elem_of_fmap. exists u.
      apply findUnique_Some in Hu as [Hin Hid].
      split; [|done]. symmetry. by apply patch_row_same. }
    split; [done|].
    split; [exact (sanitizeUser_no_password (user_object _))|].
    split; [done|]. split; [|by rewrite length_map].
    intros v Hv Hne. by apply elem_of_patched.
  - intros Hnone. unfold updateUserProfile, update_user. by rewrite Hnone.
  - intros u v e Hu He Hv Hne Hmail.
    unfold updateUserProfile, update_user. rewrite Hu.
    destruct (findFirst _ (users s)) eqn:Hfree; [done|]. exfalso.
    rewrite findFirst_None in Hfree. specialize (Hfree v Hv).
    unfold by_email in Hfree. cbn [user_email profile_data] in Hfree.
    rewrite He in Hfree. cbn [default from_option] in Hfree.
    change (id e) with e in Hfree.
    rewrite (proj2 (String.eqb_eq _ _) Hmail) in Hfree.
    by rewrite (proj2 (@has_id_false _ User_model uid v) Hne) in Hfree.
  - intros req req' decoded u r Hmail Hauth Hdec Huid Hne Hbody Hu Hid Hemail
      Hrole.
    pose proof (authenticateToken_Next env jwt_verify s req req' Hauth)
      as (token & d & u0 & _ & _ & _ & _ & Hreq).
    assert (Hb : body req' = data) by (by rewrite Hreq).
    unfold UserRoutes.put_profile, guarded. rewrite Hauth.
    unfold UserController.updateProfile. rewrite Hdec.
    cbn [mbind option_bind]. rewrite Huid.
    apply String.eqb_neq in Hne. rewrite Hne, Hb.
    unfold updateUserProfile.
    rewrite (update_user_Ok uid data (users s) u Hmail Hu Hid Hemail).
    cbn [mbind Result_bind mret Result_ret].
    exists (profile_data data u). eexists. split; [reflexivity|].
    cbn [users cascade_user_id set_users].
    pose proof (findUnique_Some _ _ _ Hu) as [Hin Hkey].
    change (row_id u) with (user_id u) in Hkey.
    split.
    { apply list_elem_of_fmap. exists u.
      split; [|done]. symmetry. by apply patch_row_same. }
    cbn [profile_data user_id user_role public_user get_key]. rewrite Hid, Hrole.
    by split.
Qed.

Lemma elem_of_listUsers (tid : string) (s : Store) (o : JsObject) :
  o ∈ listUsers tid s <->
  exists u, u ∈ users s /\ user_tenantId u = tid /\ o = listed_user u.
Proof.
  unfold listUsers. rewrite list_elem_of_fmap. split.
  - intros (u & -> & Hu). apply elem_of_findMany in Hu as [Hin Hten].
    apply String.eqb_eq in Hten. eauto.
  - intros (u & Hin & Hten & ->). exists u. split; [done|].
    apply elem_of_findMany. split; [done|]. by apply String.eqb_eq.
Qed.

(** X10. GET /api/users.  For a request that [authenticateToken] lets
    through with role ADMIN and a non-empty tenant, the route answers 200 and
    leaves the store alone; the users it lists are exactly the stored users
    of the identity's own tenant, each as an object with id, email, first
    name, last name and role and without a [password] property. *)
Theorem admin_lists_own_tenant {B : Type} (s : Store) (req req' : Request B)
    (decoded : Claims) (tid : string) :
  authenticateToken s req = Next req' ->
  user req' = Some decoded ->
  role decoded = Some "ADMIN" -> tenantId decoded = Some tid -> tid <> "" ->
  get_users s req
  = ({| status := 200;
        json := Some (JObj [("users",
                             JArr (map JObj (listUsers tid s)))]) |},
     s) /\
  (forall o, o ∈ listUsers tid s <->
     exists u, u ∈ users s /\ user_tenantId u = tid /\
               o = listed_user u) /\
  (forall o, o ∈ listUsers tid s ->
     has_key "password" o = false /\
     map fst o = ["id"; "email"; "firstName"; "lastName"; "role"]).
Proof.
  intros Hauth Hdec Hrole Htid Hten. split; [|split].
  - destruct (admin_route env jwt_verify UserController.listUsers s req req' Hauth)
      as (decoded' & Hdec' & _ & Hpass).
    rewrite Hdec in Hdec'. injection Hdec' as <-.
    unfold UserRoutes.get_users. rewrite (Hpass Hrole).
    unfold UserController.listUsers. rewrite Hdec. simpl. rewrite Htid.
    by apply String.eqb_neq in Hten as ->.
  - apply elem_of_listUsers.
  - intros o Ho. apply elem_of_listUsers in Ho as (u & _ & _ & ->). done.
Qed.

(** X11. A change of role never reaches the tokens.  [changeUserRole] throws
    on an id that is not stored; on a stored id it rewrites that user's role
    and returns the row without a [password] property.  A token that
    [generateToken] issues for that user still carries no role: after a
    promotion to ADMIN, a request bearing the user's token (jsonwebtoken
    handing back the payload it signed) is still answered 403 by
    GET /api/users. *)
Theorem changeUserRole_does_not_reach_tokens (uid : string) (s : Store) :
  (findUnique uid (users s) = None ->
   forall r, changeUserRole uid r s = Throw RecordNotFound) /\
  (forall u r, findUnique uid (users s) = Some u ->
     exists s',
       changeUserRole uid r s = Ok (public_user (role_data r u), s') /\
       role_data r u ∈ users s' /\
       get_key "role" (public_user (role_data r u)) = Some (JStr r) /\
       has_key "password" (public_user (role_data r u)) = false /\
       map user_email (users s') = map user_email (users s)) /\
  (forall u o s' (B : Type) (req : Request B),
     findUnique uid (users s) = Some u ->
     changeUserRole uid "ADMIN" s = Ok (o, s') ->
     (forall payload key expiresIn,
        jwt_verify (jwt_sign payload key expiresIn) key = Some payload) ->
     Auth.bearer_token (authorization req)
     = Some (generateToken uid (user_tenantId u)) ->
     get_key "role" o = Some (JStr "ADMIN") /\
     get_users s' req = (forbidden, s')).
Proof.
  assert (Hok : forall u r, findUnique uid (users s) = Some u ->
            changeUserRole uid r s
            = Ok (public_user (role_data r u),
                  set_users (map (patch_row uid (role_data r)) (users s)) s) /\
            role_data r u ∈ map (patch_row uid (role_data r)) (users s)).
  { intros u r Hu. unfold changeUserRole, update. rewrite Hu.
    split; [done|]. apply findUnique_Some in Hu as [Hin Hid].
    apply list_elem_of_fmap. exists u. split; [|done].
    symmetry. by apply patch_row_same. }
  split; [|split].
  - intros Hnone r. unfold changeUserRole, update. by rewrite Hnone.
  - intros u r Hu. destruct (Hok u r Hu) as [Hc Hin]. eexists.
    split; [exact Hc|]. cbn [users set_users]. split; [done|].
    split; [done|].
    split; [exact (sanitizeUser_no_password (user_object _))|].
    rewrite map_map. apply map_ext. intros x. unfold patch_row.
    by destruct (has_id uid x).
  - intros u o s' B req Hu Hc Hlaw Hhdr.
    destruct (Hok u "ADMIN" Hu) as [Hc' Hin]. rewrite Hc' in Hc.
    injection Hc as <- <-. split; [done|].
    apply findUnique_Some in Hu as [_ Hid].
    assert (Hjwt : jwt_verify (generateToken uid (user_tenantId u)) secret
                   = Some {| userId := Some uid;
                             tenantId := Some (user_tenantId u);
                             role := None; payload_id := None |})
      by (unfold UserService.generateToken, secret; apply Hlaw).
    assert (Hauth : Auth.authenticateToken env jwt_verify
                      (set_users (map (patch_row uid (role_data "ADMIN"))
                                    (users s)) s) req
                    = Next (set_user (issued_claims uid (user_tenantId u)) req)).
    { apply (authenticateToken_passes env jwt_verify _ req
               (generateToken uid (user_tenantId u))
               (issued_claims uid (user_tenantId u))
               (role_data "ADMIN" u)); [done | done | done |].
      by apply accepted_by_issued. }
    destruct (admin_route env jwt_verify UserController.listUsers _ req _ Hauth)
      as (decoded & Hdec & Hrefuse & _).
    injection Hdec as <-. by apply Hrefuse.
Qed.

End MoreUserFacts.

(** * Further properties: documents *)

Lemma Sorted_by_key {A} (f : A -> Z) (l : list A) :
  Sorted Z.le (map f l) -> Sorted (fun a b => f a <= f b) l.
Proof.
  induction l as [|a l IH]; simpl; intros Hs; [constructor|].
  apply Sorted_inv in Hs as [Hs Hhd]. constructor; [by apply IH|].
  destruct l; simpl in *; constructor. by apply HdRel_inv in Hhd.
Qed.

Lemma Sorted_seqZ (m : Z) (n : nat) : Sorted Z.le (seqZ m (Z.of_nat n)).
Proof.
  induction n as [|n IH]; [constructor|].
  rewrite seqZ_S. apply Sorted_snoc; [done|].
  destruct n as [|n]; [constructor|].
  rewrite seqZ_S. apply TlRel_cons. lia.
Qed.

#[local] Instance version_desc_total : Total DocumentService.version_desc.
Proof.
  intros a b. unfold DocumentService.version_desc.
  destruct (Z.le_ge_cases (dv_version a) (dv_version b)); auto.
Qed.

#[local] Instance version_desc_trans : Transitive DocumentService.version_desc.
Proof. intros a b c. unfold DocumentService.version_desc. lia. Qed.

(** Rows whose version numbers ascend without repetition are listed by
    [orderBy: { version: 'desc' }] in the reverse of their order. *)
Lemma newest_first (l : list DocumentVersion) (m : Z) (n : nat) :
  map dv_version l = seqZ m (Z.of_nat n) ->
  merge_sort DocumentService.version_desc l = reverse l.
Proof.
  intros Hnums.
  assert (Hnd : NoDup (map dv_version l)) by (rewrite Hnums; apply NoDup_seqZ).
  apply (Sorted_unique_strong DocumentService.version_desc).
  - intros x1 x2 Hx1 Hx2 H12 H21.
    rewrite merge_sort_Permutation in Hx1. rewrite elem_of_reverse in Hx2.
    apply (NoDup_map_inj dv_version l); [done..|].
    unfold DocumentService.version_desc in *. lia.
  - apply Sorted_merge_sort. apply _.
  - apply (Sorted_reverse (fun a b => dv_version a <= dv_version b)).
    apply Sorted_by_key. rewrite Hnums. apply Sorted_seqZ.
  - rewrite merge_sort_Permutation. by rewrite reverse_Permutation.
Qed.

Lemma findFirst_filtered {R} (P Q : R -> bool) (t : list R) :
  findFirst (fun x => P x && Q x) t = findFirst Q (findMany P t).
Proof.
  unfold findFirst, findMany. induction t as [|x t IH]; simpl; [done|].
  destruct (P x); simpl; [|done]. by destruct (Q x).
Qed.

Lemma findFirst_ext {R} (P Q : R -> bool) (t : list R) :
  (forall x, x ∈ t -> P x = Q x) -> findFirst P t = findFirst Q t.
Proof.
  unfold findFirst. induction t as [|x t IH]; simpl; intros Hext; [done|].
  rewrite <- (Hext x) by left. destruct (P x); [done|].
  apply IH. intros y Hy. apply Hext. by right.
Qed.

(** Looking a number up in rows numbered [m], [m + 1], ... *)
Lemma find_numbered (l : list DocumentVersion) (m k : Z) (n : nat) :
  map dv_version l = seqZ m (Z.of_nat n) ->
  (m <= k < m + Z.of_nat n ->
   exists row, findFirst (fun v => Z.eqb (dv_version v) k) l = Some row /\
               dv_version row = k /\ l !! Z.to_nat (k - m) = Some row) /\
  (k < m \/ m + Z.of_nat n <= k ->
   findFirst (fun v => Z.eqb (dv_version v) k) l = None).
Proof.
  intros Hnums. split.
  - intros Hk.
    assert (Hlook : map dv_version l !! Z.to_nat (k - m) = Some k).
    { rewrite Hnums. apply lookup_seqZ. lia. }
    apply list_lookup_fmap_Some in Hlook as (row & Hver & Hrow).
    destruct (findFirst _ l) as [row'|] eqn:Hf.
    + apply findFirst_Some in Hf as [Hin Hsame]. apply Z.eqb_eq in Hsame.
      assert (row' = row) as ->; [|eauto].
      apply (NoDup_map_inj dv_version l); [|done| |congruence].
      * rewrite Hnums. apply NoDup_seqZ.
      * by apply list_elem_of_lookup_2 in Hrow.
    + rewrite findFirst_None in Hf.
      apply list_elem_of_lookup_2 in Hrow. specialize (Hf row Hrow).
      apply Z.eqb_neq in Hf. congruence.
  - intros Hk. apply findFirst_None. intros v Hv. apply Z.eqb_neq. intros Heq.
    assert (Hin : dv_version v ∈ seqZ m (Z.of_nat n)).
    { rewrite <- Hnums. apply list_elem_of_fmap. eauto. }
    apply elem_of_seqZ in Hin. lia.
Qed.

Section MoreDocumentFacts.
Import DocumentService.
Context (env : Env) (JSON_stringify : Json -> string).

#[local] Abbreviation updateDocument := (updateDocument env JSON_stringify).
#[local] Abbreviation updateDocuments := (updateDocuments env JSON_stringify).
#[local] Abbreviation createDocument := (createDocument env JSON_stringify).
#[local] Abbreviation stringify_metadata := (stringify_metadata JSON_stringify).
#[local] Abbreviation upload_url := (upload_url env).

Lemma tracked_getDocument id tenant vids s :
  tracked id tenant vids s ->
  exists d, findUnique id (documents s) = Some d /\
            doc_version d = Z.of_nat (length vids) + 1 /\
            getDocument id tenant s = Some (d, reverse (versions_of id s)).
Proof.
  intros (Hpk & (d & Hd & Hten & Hver) & _ & Hnums).
  exists d. split; [done|]. split; [done|].
  apply findUnique_Some in Hd as [Hin Hid]. subst id.
  unfold getDocument.
  rewrite (findFirst_scoped_Some (fun x => String.eqb (doc_tenantId x) tenant)
             (documents s) d Hpk Hin) by (by apply String.eqb_eq).
  cbn [fmap option_fmap option_map]. unfold include_versions.
  do 2 f_equal. exact (newest_first _ _ _ Hnums).
Qed.

Lemma tracked_other_tenant id tenant vids s T :
  tracked id tenant vids s -> T <> tenant ->
  findFirst (in_tenant id T) (documents s) = None.
Proof.
  intros (Hpk & (d & Hd & Hten & _) & _) Hne.
  apply findUnique_Some in Hd as [Hin Hid]. subst id.
  apply (findFirst_scoped_None (fun x => String.eqb (doc_tenantId x) T)); [done..|].
  apply String.eqb_neq. congruence.
Qed.

(** X12. Round trip of a new document.  On a store that respects the
    primary key of Document and in which every version row belongs to a
    stored document, [createDocument] with a new id succeeds, and
    [getDocument] with that id and the creating tenant returns what was
    stored: the name, type, MIME type, size and case of the data, version 1,
    the URL of the uploaded blob, the metadata given as the separate
    argument (the [metadata] field of the data is not stored), and no
    version rows.  Under any other tenant [getDocument] returns nothing. *)
Theorem createDocument_getDocument_round_trip (s : Store)
    (newId uuid file : string) (data : CreateDocumentData)
    (metadata : option Json) :
  pk_unique (documents s) ->
  versions_reference_documents s ->
  findUnique newId (documents s) = None ->
  exists d s',
    createDocument newId uuid file data metadata s = Ok (d, s') /\
    getDocument newId (tenantId data) s' = Some (d, []) /\
    (doc_name d, doc_type d, doc_mimeType d, doc_size d, doc_caseId d, doc_version d)
    = (name data, type data, mimeType data, size data, caseId data, 1) /\
    doc_url d = upload_url uuid (name data) /\
    doc_metadata d = stringify_metadata metadata /\
    (forall T, T <> tenantId data -> getDocument newId T s' = None).
Proof.
  intros Hpk Hfk Hnew.
  destruct (createDocument_tracked env JSON_stringify newId uuid file data
              metadata s Hpk Hfk Hnew) as (d & s' & Hc & _ & _ & Htr).
  exists d, s'. split; [done|].
  destruct (tracked_getDocument _ _ _ _ Htr) as (d' & Hd' & _ & Hget).
  pose proof Htr as (_ & _ & Hids & _).
  apply map_eq_nil in Hids. rewrite Hids in Hget.
  assert (d' = d /\
          (doc_name d, doc_type d, doc_mimeType d, doc_size d, doc_caseId d,
           doc_version d)
          = (name data, type data, mimeType data, size data, caseId data, 1) /\
          doc_url d = upload_url uuid (name data) /\
          doc_metadata d = stringify_metadata metadata) as (-> & Hfields & Hurl & Hmeta).
  { revert Hc Hd'. unfold DocumentService.createDocument.
    cbn [uploadToSpaces mbind Result_bind mret Result_ret documents set_spaces].
    match goal with |- context [create ?x _] => set (d0 := x) end.
    pose proof (findUnique_app_new (documents s) d0 Hnew) as Hd0.
    change (row_id d0) with newId in Hd0.
    rewrite (create_Ok d0 (documents s) Hnew). intros [= <- <-].
    cbn [documents set_documents]. rewrite Hd0. intros [= <-]. done. }
  split; [done|]. split; [done|]. split; [done|]. split; [done|].
  intros T HT. unfold getDocument. fold (in_tenant newId T).
  by rewrite (tracked_other_tenant newId (tenantId data) [] s' T).
Qed.

(** The history the next two properties speak about: a document created
    with a new id on a consistent store, then re-uploaded [ups] times under
    its own tenant, each time with a new key for the version row. *)
Section AfterUploads.
Context (s0 : Store) (newId uuid file : string) (data : CreateDocumentData)
  (metadata : option Json) (ups : list Upload).
Hypothesis store_keys : pk_unique (documents s0).
Hypothesis store_references : versions_reference_documents s0.
Hypothesis new_document : findUnique newId (documents s0) = None.
Hypothesis own_tenant : Forall (fun u => up_tenant u = tenantId data) ups.
Hypothesis new_keys : NoDup (map up_versionId ups).
Hypothesis free_keys :
  forall u, u ∈ ups -> findUnique (up_versionId u) (documentVersions s0) = None.

Lemma history :
  exists d s1 s',
    createDocument newId uuid file data metadata s0 = Ok (d, s1) /\
    updateDocuments newId ups s1 = Ok s' /\
    tracked newId (tenantId data) (map up_versionId ups) s'.
Proof.
  destruct (createDocument_tracked env JSON_stringify newId uuid file data
              metadata s0 store_keys store_references new_document)
    as (d & s1 & Hcreate & _ & Hdvs & Htr).
  destruct (tracked_run_Ok env JSON_stringify newId (tenantId data) ups [] s1
              Htr own_tenant new_keys) as [s' Hrun].
  { intros u Hu. rewrite Hdvs. by apply free_keys. }
  exists d, s1, s'. split; [done|]. split; [done|].
  exact (tracked_run env JSON_stringify _ _ _ _ _ _ Htr Hrun).
Qed.

(** X13. [getDocument] lists the versions newest first.  After the document
    was created and re-uploaded N times, [getDocument] under the owning
    tenant returns the document at version N+1 together with its N version
    rows in the reverse of upload order, numbered N+1 down to 2. *)
Theorem getDocument_lists_versions_newest_first :
  exists d s1 s' d' vs,
    createDocument newId uuid file data metadata s0 = Ok (d, s1) /\
    updateDocuments newId ups s1 = Ok s' /\
    getDocument newId (tenantId data) s' = Some (d', vs) /\
    doc_version d' = Z.of_nat (length ups) + 1 /\
    vs = reverse (versions_of newId s') /\
    map dv_id vs = reverse (map up_versionId ups) /\
    map dv_version vs = reverse (seqZ 2 (Z.of_nat (length ups))).
Proof.
  destruct history as (d & s1 & s' & Hcreate & Hrun & Htr).
  destruct (tracked_getDocument _ _ _ _ Htr) as (d' & _ & Hver & Hget).
  destruct Htr as (_ & _ & Hids & Hnums).
  rewrite length_map in Hver, Hnums.
  exists d, s1, s', d', (reverse (versions_of newId s')).
  split; [done|]. split; [done|]. split; [done|]. split; [done|].
  split; [done|]. split.
  - rewrite <- Hids. apply (fmap_reverse dv_id).
  - rewrite <- Hnums. apply (fmap_reverse dv_version).
Qed.

(** X14. [getDocumentVersion] after N re-uploads.  Under the owning tenant,
    every version number from 2 to N+1 yields the row of the re-upload that
    produced it, the one at position (number - 2) in upload order; version 1,
    the original upload, and every number above N+1 yield nothing; and under
    any other tenant every number yields nothing. *)
Theorem getDocumentVersion_after_uploads :
  exists d s1 s',
    createDocument newId uuid file data metadata s0 = Ok (d, s1) /\
    updateDocuments newId ups s1 = Ok s' /\
    (forall k, 2 <= k <= Z.of_nat (length ups) + 1 ->
       exists row,
         getDocumentVersion newId k (tenantId data) s' = Some row /\
         dv_version row = k /\ dv_documentId row = newId /\
         versions_of newId s' !! Z.to_nat (k - 2) = Some row) /\
    (forall k, k < 2 \/ Z.of_nat (length ups) + 1 < k ->
       getDocumentVersion newId k (tenantId data) s' = None) /\
    getDocumentVersion newId 1 (tenantId data) s' = None /\
    (forall k T, T <> tenantId data -> getDocumentVersion newId k T s' = None).
Proof.
  destruct history as (d & s1 & s' & Hcreate & Hrun & Htr).
  exists d, s1, s'. split; [done|]. split; [done|].
  destruct Htr as (Hpk & (d' & Hd' & Hten & _) & _ & Hnums).
  rewrite length_map in Hnums.
  assert (Hshape : forall k T,
            getDocumentVersion newId k T s'
            = findFirst (fun v => Z.eqb (dv_version v) k
                                  && String.eqb (doc_tenantId d') T)
                (versions_of newId s')).
  { intros k T. unfold getDocumentVersion, versions_of.
    rewrite <- (findFirst_filtered
                  (fun v => String.eqb (dv_documentId v) newId)).
    apply findFirst_ext. intros v _.
    destruct (String.eqb (dv_documentId v) newId) eqn:Hdoc; [|done].
    apply String.eqb_eq in Hdoc. rewrite Hdoc, Hd'. simpl.
    by destruct (Z.eqb (dv_version v) k). }
  assert (Hown : forall k,
            getDocumentVersion newId k (tenantId data) s'
            = findFirst (fun v => Z.eqb (dv_version v) k) (versions_of newId s')).
  { intros k. rewrite Hshape. apply findFirst_ext. intros v _.
    rewrite Hten, String.eqb_refl. apply andb_true_r. }
  pose proof (fun k => find_numbered (versions_of newId s') 2 k (length ups) Hnums)
    as Hfind.
  split; [|split; [|split]].
  - intros k Hk. destruct (proj1 (Hfind k)) as (row & Hrow & Hver & Hpos); [lia|].
    exists row. rewrite Hown. split; [done|]. split; [done|]. split; [|done].
    apply list_elem_of_lookup_2 in Hpos.
    apply elem_of_findMany in Hpos as [_ Hdoc]. by apply String.eqb_eq in Hdoc.
  - intros k Hk. rewrite Hown. apply (Hfind k). lia.
  - rewrite Hown. apply (Hfind 1). lia.
  - intros k T HT. rewrite Hshape. apply findFirst_None. intros v _.
    rewrite Hten. apply String.eqb_neq in HT. rewrite String.eqb_sym in HT.
    rewrite HT. apply andb_false_r.
Qed.

End AfterUploads.

End MoreDocumentFacts.

Section StorageFacts.
Import DocumentService.
Context (env : Env) (JSON_stringify : Json -> string).

#[local] Abbreviation updateDocument := (updateDocument env JSON_stringify).
#[local] Abbreviation createDocument := (createDocument env JSON_stringify).
#[local] Abbreviation stored_object := (stored_object env).

(** X15. Uploads only append.  A successful [createDocument] or
    [updateDocument] adds exactly one object to the bucket, with key
    [uuid-name], the uploaded bytes and the document's MIME type, keeps every
    earlier object, and returns a document whose URL is the CDN prefix
    followed by that key.  A successful [updateDocument] also leaves the
    users, fees, commissions and templates, every other document and every
    earlier version row as they were.  [updateDocument] is scoped by tenant:
    on an id that is not stored, or stored under another tenant, it throws
    "Document not found". *)
Theorem uploads_only_append (s : Store) :
  (forall newId uuid file data metadata d s',
     createDocument newId uuid file data metadata s = Ok (d, s') ->
     spaces s' = spaces s ++ [stored_object uuid file (name data) (mimeType data)] /\
     doc_url d = interpolate (DO_SPACES_CDN_URL env) +:+ "/" +:+
                 s3_key (stored_object uuid file (name data) (mimeType data))) /\
  (forall vid uuid id tenant file metadata d s',
     updateDocument vid uuid id tenant file metadata s = Ok (d, s') ->
     exists document,
       findFirst (in_tenant id tenant) (documents s) = Some document /\
       spaces s' = spaces s ++ [stored_object uuid file (doc_name document)
                                  (doc_mimeType document)] /\
       doc_url d = interpolate (DO_SPACES_CDN_URL env) +:+ "/" +:+
                   s3_key (stored_object uuid file (doc_name document)
                             (doc_mimeType document)) /\
       (users s', fees s', commissions s', templates s')
       = (users s, fees s, commissions s, templates s) /\
       (forall d0, d0 ∈ documents s -> doc_id d0 <> id -> d0 ∈ documents s') /\
       (forall v, v ∈ documentVersions s -> v ∈ documentVersions s')) /\
  (forall vid uuid id tenant file metadata,
     findFirst (in_tenant id tenant) (documents s) = None ->
     updateDocument vid uuid id tenant file metadata s
     = Throw (JsError "Document not found")) /\
  (forall vid uuid tenant file metadata d0,
     pk_unique (documents s) -> d0 ∈ documents s -> doc_tenantId d0 <> tenant ->
     updateDocument vid uuid (doc_id d0) tenant file metadata s
     = Throw (JsError "Document not found")).
Proof.
  assert (Hmissing : forall vid uuid id tenant file metadata,
            findFirst (in_tenant id tenant) (documents s) = None ->
            updateDocument vid uuid id tenant file metadata s
            = Throw (JsError "Document not found")).
  { intros vid uuid id tenant file metadata Hnone.
    unfold DocumentService.updateDocument. fold (in_tenant id tenant).
    by rewrite Hnone. }
  split; [|split; [|split]].
  - intros newId uuid file data metadata d s'.
    unfold DocumentService.createDocument.
    cbn [uploadToSpaces mbind Result_bind mret Result_ret documents set_spaces].
    destruct (create _ (documents s)) as [t|]; [|done].
    by intros [= <- <-].
  - intros vid uuid id tenant file metadata d s'.
    unfold DocumentService.updateDocument. fold (in_tenant id tenant).
    destruct (findFirst (in_tenant id tenant) (documents s)) as [document|];
      [|done].
    cbn [uploadToSpaces mbind Result_bind mret Result_ret documentVersions
           set_spaces].
    destruct (create _ (documentVersions s)) as [tv|] eqn:Hc; [|done].
    apply create_inv in Hc as [_ ->].
    cbn [documents set_documentVersions set_spaces].
    destruct (update id _ (documents s)) as [[d1 td]|] eqn:Hu; [|done].
    apply update_inv in Hu as (r & Hr & -> & ->).
    intros [= <- <-]. exists document.
    split; [done|]. split; [done|]. split; [done|]. split; [done|].
    cbn [documents documentVersions set_documents set_documentVersions set_spaces].
    split.
    + intros d0 Hd0 Hne. by apply elem_of_patched.
    + intros v Hv. apply elem_of_app. by left.
  - exact Hmissing.
  - intros vid uuid tenant file metadata d0 Hpk Hin Hten.
    apply Hmissing.
    apply (findFirst_scoped_None (fun x => String.eqb (doc_tenantId x) tenant));
      [done..|].
    by apply String.eqb_neq.
Qed.

End StorageFacts.

(** * Further properties: reads by key and tenant after a write *)

Section ScopedReadFacts.
Context {R : Type} `{Model R}.
Implicit Types (t : list R) (r : R) (id : string) (scope : R -> bool).

Lemma findMany_app (P : R -> bool) t1 t2 :
  findMany P (t1 ++ t2) = findMany P t1 ++ findMany P t2.
Proof. unfold findMany. apply List.filter_app. Qed.

Lemma findFirst_scoped_first scope id t r :
  findUnique id t = Some r -> scope r = true ->
  findFirst (fun x => has_id id x && scope x) t = Some r.
Proof.
  unfold findUnique, findFirst. induction t as [|x t IH]; simpl; [done|].
  destruct (has_id id x) eqn:Hx; simpl.
  - by intros [= ->] ->.
  - apply IH.
Qed.

Lemma findFirst_scoped_absent scope id t :
  findUnique id t = None ->
  findFirst (fun x => has_id id x && scope x) t = None.
Proof.
  intros Hnone. apply findFirst_None. intros r Hr.
  unfold findUnique in Hnone. rewrite findFirst_None in Hnone.
  by rewrite (Hnone r Hr).
Qed.

Lemma findFirst_scoped_new scope id t r :
  findUnique (row_id r) t = None ->
  findFirst (fun x => has_id id x && scope x) (t ++ [r]) =
  if String.eqb (row_id r) id
  then (if scope r then Some r else None)
  else findFirst (fun x => has_id id x && scope x) t.
Proof.
  intros Hnone. rewrite findFirst_app.
  destruct (String.eqb (row_id r) id) eqn:Hid.
  - apply String.eqb_eq in Hid as <-.
    rewrite (findFirst_scoped_absent scope _ t Hnone).
    unfold findFirst. simpl. unfold has_id. rewrite String.eqb_refl. simpl.
    by destruct (scope r).
  - destruct (findFirst _ t); [done|].
    unfold findFirst. simpl. unfold has_id. by rewrite Hid.
Qed.

Lemma findFirst_scoped_patched scope id0 data t id :
  (forall x, row_id (data x) = row_id x) -> id <> id0 ->
  findFirst (fun x => has_id id x && scope x) (map (patch_row id0 data) t)
  = findFirst (fun x => has_id id x && scope x) t.
Proof.
  intros Hid Hne. unfold findFirst. induction t as [|x t IH]; simpl; [done|].
  destruct (has_id id0 x) eqn:Hx.
  - apply has_id_true in Hx. rewrite (patch_row_same id0 data x Hx).
    rewrite (proj2 (has_id_false id (data x))) by (rewrite Hid; congruence).
    rewrite (proj2 (has_id_false id x)) by congruence. simpl. apply IH.
  - apply has_id_false in Hx. rewrite (patch_row_other id0 data x Hx).
    destruct (has_id id x && scope x); [done | apply IH].
Qed.

Lemma findFirst_scoped_deleted scope id0 t id :
  findFirst (fun x => has_id id x && scope x)
    (findMany (fun x => negb (has_id id0 x)) t)
  = if String.eqb id id0 then None
    else findFirst (fun x => has_id id x && scope x) t.
Proof.
  unfold findFirst, findMany. induction t as [|x t IH]; simpl.
  - by destruct (String.eqb id id0).
  - destruct (has_id id0 x) eqn:Hx; simpl.
    + rewrite IH. destruct (String.eqb id id0) eqn:E; [done|].
      apply has_id_true in Hx. apply String.eqb_neq in E.
      by rewrite (proj2 (has_id_false id x)) by congruence.
    + rewrite IH. destruct (String.eqb id id0) eqn:E; [|done].
      apply String.eqb_eq in E as ->. by rewrite Hx.
Qed.
End ScopedReadFacts.

(** * Further properties: templates *)

Section MoreTemplateFacts.
Import TemplateService.

(** X18. The life of a template.  A created template is what [getTemplate]
    returns for its id and tenant, and nothing is returned for its id and
    another tenant.  An update keeps the id, the tenant and the creator,
    writes the fields that are given and keeps the others, and the updated
    row is what [getTemplate] returns for the row's own tenant.  After a
    delete [getTemplate] finds nothing under that id for any tenant.  None of
    the three changes what [getTemplate] returns for another id, and update
    and delete throw the ORM's record-not-found error on an id that is not
    stored. *)
Theorem template_lifecycle (s : Store) :
  (forall newId data r s',
     createTemplate newId data s = Ok (r, s') ->
     getTemplate newId (tenantId data) s' = Some r /\
     (forall T, T <> tenantId data -> getTemplate newId T s' = None) /\
     (forall id T, id <> newId -> getTemplate id T s' = getTemplate id T s)) /\
  (forall id tenant data r s',
     updateTemplate id tenant data s = Ok (r, s') ->
     (exists r0,
        findUnique id (templates s) = Some r0 /\
        (tpl_id r, tpl_tenantId r, tpl_createdBy r)
        = (id, tpl_tenantId r0, tpl_createdBy r0) /\
        tpl_name r = default (tpl_name r0) (u_name data) /\
        tpl_content r = default (tpl_content r0) (u_content data) /\
        tpl_category r = default (tpl_category r0) (u_category data) /\
        tpl_description r = match u_description data with
                            | Some d => Some d
                            | None => tpl_description r0
                            end /\
        tpl_variables r = match u_variables data with
                          | Some v => Some v
                          | None => tpl_variables r0
                          end) /\
     getTemplate id (tpl_tenantId r) s' = Some r /\
     (forall id' T, id' <> id -> getTemplate id' T s' = getTemplate id' T s)) /\
  (forall id tenant r s',
     deleteTemplate id tenant s = Ok (r, s') ->
     findUnique id (templates s) = Some r /\
     (forall T, getTemplate id T s' = None) /\
     (forall id' T, id' <> id -> getTemplate id' T s' = getTemplate id' T s)) /\
  (forall id tenant data,
     findUnique id (templates s) = None ->
     updateTemplate id tenant data s = Throw RecordNotFound /\
     deleteTemplate id tenant s = Throw RecordNotFound).
Proof.
  split; [|split; [|split]].
  - intros newId data r s'. unfold createTemplate. cbv zeta.
    cbn [mbind Result_bind mret Result_ret].
    destruct (create _ (templates s)) as [t|] eqn:Hc; [|done].
    apply create_inv in Hc as [Hnew ->]. intros [= <- <-].
    change (row_id _) with newId in Hnew.
    unfold getTemplate. cbn [templates set_templates].
    split; [|split].
    + rewrite findFirst_scoped_new by exact Hnew.
      change (row_id _) with newId. rewrite String.eqb_refl.
      cbn [tpl_tenantId]. by rewrite String.eqb_refl.
    + intros T HT. rewrite findFirst_scoped_new by exact Hnew.
      change (row_id _) with newId. rewrite String.eqb_refl.
      cbn [tpl_tenantId].
      by rewrite (proj2 (String.eqb_neq (tenantId data) T)) by congruence.
    + intros id T Hne. rewrite findFirst_scoped_new by exact Hnew.
      change (row_id _) with newId.
      by rewrite (proj2 (String.eqb_neq newId id)) by congruence.
  - intros id tenant data r s'. unfold updateTemplate.
    destruct (update id _ (templates s)) as [[r1 t]|] eqn:Hu; [|done].
    apply update_inv in Hu as (r0 & Hr0 & -> & ->).
    cbn [mbind Result_bind mret Result_ret]. intros [= <- <-].
    pose proof (findUnique_Some _ _ _ Hr0) as [_ Hid].
    change (row_id r0) with (tpl_id r0) in Hid.
    unfold getTemplate. cbn [templates set_templates].
    split; [|split].
    + exists r0. split; [done|]. cbn [template_data tpl_id tpl_tenantId
        tpl_createdBy tpl_name tpl_content tpl_category tpl_description
        tpl_variables]. rewrite Hid.
      by repeat split.
    + exact (findFirst_scoped_first
               (fun x => String.eqb (tpl_tenantId x)
                           (tpl_tenantId (template_data data r0)))
               id _ _
               (findUnique_patch id (template_data data) _ r0
                  (fun x => eq_refl) Hr0)
               (String.eqb_refl _)).
    + intros id' T Hne. by apply findFirst_scoped_patched.
  - intros id tenant r s'. unfold deleteTemplate.
    destruct (delete id (templates s)) as [[r1 t]|] eqn:Hd; [|done].
    apply delete_inv in Hd as [Hr ->].
    cbn [mbind Result_bind mret Result_ret]. intros [= <- <-].
    unfold getTemplate. cbn [templates set_templates].
    split; [done|]. split.
    + intros T. rewrite findFirst_scoped_deleted. by rewrite String.eqb_refl.
    + intros id' T Hne. rewrite findFirst_scoped_deleted.
      by rewrite (proj2 (String.eqb_neq id' id)) by done.
  - intros id tenant data Hnone.
    unfold updateTemplate, deleteTemplate, update, delete. by rewrite Hnone.
Qed.

End MoreTemplateFacts.

Section TemplateRouteFacts.
Import TemplateController.
Context (env : Env) (jwt_verify : string -> string -> option Claims).

#[local] Abbreviation authenticateToken := (Auth.authenticateToken env jwt_verify).
#[local] Abbreviation post_template := (TemplateRoutes.post_template env jwt_verify).
#[local] Abbreviation get_template := (TemplateRoutes.get_template env jwt_verify).
#[local] Abbreviation put_template := (TemplateRoutes.put_template env jwt_verify).
#[local] Abbreviation delete_template :=
  (TemplateRoutes.delete_template env jwt_verify).

(** X19. The template routes by id, for a request that [authenticateToken]
    lets through with a non-empty tenant, on a table with unique keys.
    GET /:id answers 200 with the template when it belongs to the identity's
    tenant and 404 "Template not found" when it belongs to another tenant or
    is not stored, and never changes the store.  PUT /:id and DELETE /:id do
    not look at the tenant: on any stored id PUT answers 200 with the
    rewritten row, whose tenant is unchanged, and DELETE answers 204 and
    removes the row; on an id that is not stored they answer 500. *)
Theorem template_routes_by_id (s : Store) (req req' : Request TemplateInput)
    (decoded : Claims) (tid : string) :
  authenticateToken s req = Next req' ->
  user req' = Some decoded -> tenantId decoded = Some tid -> tid <> "" ->
  pk_unique (templates s) ->
  (forall r, r ∈ templates s -> tpl_id r = p_id (body req) ->
     get_template s req
     = (if String.eqb (tpl_tenantId r) tid
        then {| status := 200; json := Some (template_json r) |}
        else error_response 404 "Template not found", s) /\
     (exists r' s',
        put_template s req
        = ({| status := 200; json := Some (template_json r') |}, s') /\
        tpl_id r' = tpl_id r /\ tpl_tenantId r' = tpl_tenantId r /\
        r' ∈ templates s') /\
     (exists s',
        delete_template s req = ({| status := 204; json := None |}, s') /\
        (forall x, x ∈ templates s' <-> x ∈ templates s /\ tpl_id x <> tpl_id r))) /\
  (p_id (body req) ∉ map tpl_id (templates s) ->
     get_template s req = (error_response 404 "Template not found", s) /\
     put_template s req = (error_response 500 "Failed to update template", s) /\
     delete_template s req = (error_response 500 "Failed to delete template", s)).
Proof.
  intros Hauth Hdec Htid Hten Hpk.
  pose proof (authenticateToken_Next env jwt_verify s req req' Hauth)
    as (token & d & u & _ & _ & _ & _ & Hreq).
  assert (Hbody : body req' = body req) by (by rewrite Hreq).
  apply String.eqb_neq in Hten.
  unfold TemplateRoutes.get_template, TemplateRoutes.put_template,
    TemplateRoutes.delete_template, TemplateRoutes.authenticated, guarded.
  rewrite Hauth.
  unfold getTemplate, updateTemplate, deleteTemplate.
  rewrite Hdec, Hbody. cbn [mbind option_bind]. rewrite Htid, Hten.
  split.
  - intros r Hin Hid. rewrite <- Hid.
    pose proof (pk_unique_findUnique _ r Hpk Hin) as Hr.
    change (row_id r) with (tpl_id r) in Hr.
    split; [|split].
    + unfold TemplateService.getTemplate.
      destruct (String.eqb (tpl_tenantId r) tid) eqn:Hown.
      * pose proof (findFirst_scoped_Some
                      (fun x => String.eqb (tpl_tenantId x) tid)
                      _ r Hpk Hin Hown) as E.
        change (row_id r) with (tpl_id r) in E. by rewrite E.
      * pose proof (findFirst_scoped_None
                      (fun x => String.eqb (tpl_tenantId x) tid)
                      _ r Hpk Hin Hown) as E.
        change (row_id r) with (tpl_id r) in E. by rewrite E.
    + unfold TemplateService.updateTemplate, update. rewrite Hr.
      cbn [mbind Result_bind mret Result_ret].
      eexists _, _. split; [reflexivity|]. split; [done|]. split; [done|].
      cbn [templates set_templates]. apply list_elem_of_fmap. exists r.
      split; [|done]. symmetry. by apply patch_row_same.
    + unfold TemplateService.deleteTemplate, delete. rewrite Hr.
      cbn [mbind Result_bind mret Result_ret].
      eexists. split; [reflexivity|]. intros x.
      cbn [templates set_templates].
      rewrite elem_of_findMany, negb_true_iff.
      by rewrite (has_id_false (tpl_id r) x).
  - intros Hnone.
    apply (@findUnique_None _ Template_model (p_id (body req)) (templates s))
      in Hnone.
    unfold TemplateService.getTemplate, TemplateService.updateTemplate,
      TemplateService.deleteTemplate, update, delete.
    rewrite Hnone.
    by rewrite (findFirst_scoped_absent
                  (fun x => String.eqb (tpl_tenantId x) tid)
                  _ _ Hnone).
Qed.

(** X20. POST /api/templates and the tokens the system issues.  The
    controller takes the creator from the property [id] of the identity on
    the request: an identity without it, or without a tenant id, is answered
    401 "Unauthorized" and nothing is stored, while an identity with both
    (and a body with name, content and category, and a new key) gets the
    template created under that tenant and creator.  [generateToken] signs a
    user id and a tenant id and no [id]; so, jsonwebtoken handing back the
    payload it signed, the route answers 401 and stores nothing for every
    request that bears a token [generateToken] issued. *)
Theorem post_template_never_creates (newId : string) (s : Store)
    (req : Request TemplateInput) :
  (user req = None -> createTemplate newId s req = (unauthorized, s)) /\
  (forall c, user req = Some c -> payload_id c = None \/ tenantId c = None ->
     createTemplate newId s req = (unauthorized, s)) /\
  (forall c tid uid name content category,
     user req = Some c -> tenantId c = Some tid -> payload_id c = Some uid ->
     tid <> "" -> uid <> "" ->
     b_name (body req) = Some name -> b_content (body req) = Some content ->
     b_category (body req) = Some category ->
     findUnique newId (templates s) = None ->
     exists r,
       createTemplate newId s req
       = ({| status := 201; json := Some (template_json r) |},
          set_templates (templates s ++ [r]) s) /\
       tpl_id r = newId /\ tpl_createdBy r = uid /\ tpl_tenantId r = tid) /\
  (forall (jwt_sign : Claims -> string -> string -> string) uid tid,
     (forall payload key expiresIn,
        jwt_verify (jwt_sign payload key expiresIn) key = Some payload) ->
     Auth.bearer_token (authorization req)
     = Some (UserService.generateToken env jwt_sign uid tid) ->
     exists res, post_template newId s req = (res, s) /\ status res = 401).
Proof.
  assert (Hno : forall (r : Request TemplateInput) c,
            user r = Some c -> payload_id c = None \/ tenantId c = None ->
            createTemplate newId s r = (unauthorized, s)).
  { intros r c Hc Hlack. unfold createTemplate. rewrite Hc.
    cbn [mbind option_bind].
    destruct Hlack as [-> | ->]; cbn [present negb];
      [by rewrite orb_true_r | done]. }
  split; [|split; [|split]].
  - intros Hnone. unfold createTemplate. by rewrite Hnone.
  - apply Hno.
  - intros c tid uid name content category Hc Htid Huid Hten Hcre Hname
      Hcontent Hcategory Hnew.
    unfold createTemplate. rewrite Hc. cbn [mbind option_bind].
    rewrite Htid, Huid. cbn [present].
    apply String.eqb_neq in Hten, Hcre. rewrite Hten, Hcre. cbn [negb orb].
    rewrite Hname, Hcontent, Hcategory.
    unfold TemplateService.createTemplate. cbv zeta.
    rewrite create_Ok by exact Hnew.
    cbn [mbind Result_bind mret Result_ret]. by eexists.
  - intros jwt_sign uid tid Hlaw Hhdr.
    unfold TemplateRoutes.post_template, TemplateRoutes.authenticated, guarded.
    destruct (authenticateToken s req) as [req'|res] eqn:Hauth.
    + apply authenticateToken_Next in Hauth
        as (token & decoded & u & Htok & Hver & _ & _ & ->).
      rewrite Hhdr in Htok. injection Htok as <-.
      assert (Hjwt : jwt_verify (UserService.generateToken env jwt_sign uid tid)
                       (secret env)
                     = Some {| userId := Some uid; tenantId := Some tid;
                               role := None; payload_id := None |})
        by (unfold UserService.generateToken, secret; apply Hlaw).
      rewrite Hjwt in Hver. injection Hver as <-.
      erewrite Hno; [by eexists | reflexivity | by left].
    + exists res. split; [done|].
      by apply (authenticateToken_401 env jwt_verify s req).
Qed.

End TemplateRouteFacts.

(** * The further properties at the sample data *)

Lemma deleteUser_revokes_tokens_witness :
  (exists s',
     UserService.deleteUser "u-1" store_user_only = Ok s' /\
     users s' = [] /\
     Auth.authenticateToken sample_env sample_verify s' (bearer token_u1 tt)
     = Respond (error_response 401 "Invalid token")) /\
  UserService.deleteUser "u-1" store_T1 = Throw ForeignKeyConstraint.
Proof.
  split.
  - eexists. split; [reflexivity|]. split; [reflexivity|].
    refine (proj2 (proj2 (proj1 (deleteUser_revokes_tokens sample_env
                                   sample_verify "u-1" store_user_only)
                            _ eq_refl))
              unit (bearer token_u1 tt) token_u1
              (issued_claims "u-1" "T1") eq_refl eq_refl eq_refl).
  - apply (proj1 (proj2 (proj2 (proj2 (deleteUser_revokes_tokens sample_env
                                         sample_verify "u-1" store_T1)))));
      [by eexists | reflexivity].
Defined.

Lemma references_store_T1 : versions_reference_documents store_T1.
Proof. intros v Hv. vm_compute in Hv. by apply elem_of_nil in Hv. Qed.

Lemma updateUserProfile_effect_witness :
  exists u' s',
    UserRoutes.put_profile sample_env sample_verify store_T1
      (bearer token_u1 promote_self)
    = ({| status := 200; json := Some (JObj [("user", JObj (public_user u'))]) |},
       s') /\
    u' ∈ users s' /\ user_id u' = "u-1" /\ user_role u' = "ADMIN" /\
    get_key "role" (public_user u') = Some (JStr "ADMIN").
Proof.
  refine (proj2 (proj2 (proj2 (updateUserProfile_effect sample_env sample_verify
                                 "u-1" promote_self store_T1)))
            (bearer token_u1 promote_self) _ (issued_claims "u-1" "T1")
            user_T1 "ADMIN" _ eq_refl eq_refl eq_refl _ eq_refl eq_refl
            eq_refl eq_refl eq_refl).
  - apply NoDup_singleton.
  - discriminate.
Defined.

Lemma admin_lists_own_tenant_witness :
  UserRoutes.get_users sample_env sample_verify store_T1
    (bearer token_admin tt)
  = ({| status := 200;
        json := Some (JObj [("users",
                             JArr (map JObj (UserService.listUsers "T1" store_T1)))]) |},
     store_T1).
Proof.
  refine (proj1 (@admin_lists_own_tenant sample_env sample_verify unit store_T1
                   (bearer token_admin tt) _ admin_claims "T1"
                   eq_refl eq_refl eq_refl eq_refl _)).
  discriminate.
Defined.

Lemma createDocument_getDocument_round_trip_witness :
  exists d s',
    DocumentService.createDocument sample_env sample_stringify
      "doc-2" "k1" "plain notes" notes_txt None store_T1 = Ok (d, s') /\
    DocumentService.getDocument "doc-2" "T1" s' = Some (d, []) /\
    DocumentService.getDocument "doc-2" "T2" s' = None.
Proof.
  destruct (createDocument_getDocument_round_trip sample_env sample_stringify
              store_T1 "doc-2" "k1" "plain notes" notes_txt None)
    as (d & s' & Hc & Hg & _ & _ & _ & Hother).
  - apply pk_unique_singleton.
  - apply references_store_T1.
  - reflexivity.
  - exists d, s'. split; [exact Hc|]. split; [exact Hg|].
    apply Hother. discriminate.
Defined.

Lemma getDocument_lists_versions_newest_first_witness :
  exists d s1 s' d' vs,
    DocumentService.createDocument sample_env sample_stringify
      "doc-9" "k0" "%PDF 0" policy_pdf None store_T1 = Ok (d, s1) /\
    DocumentService.updateDocuments sample_env sample_stringify
      "doc-9" [reupload "1"; reupload "2"] s1 = Ok s' /\
    DocumentService.getDocument "doc-9" "T1" s' = Some (d', vs) /\
    doc_version d' = 3 /\
    map dv_id vs = ["ver-2"; "ver-1"] /\
    map dv_version vs = [3; 2].
Proof.
  destruct (getDocument_lists_versions_newest_first sample_env sample_stringify
              store_T1 "doc-9" "k0" "%PDF 0" policy_pdf None
              [reupload "1"; reupload "2"])
    as (d & s1 & s' & d' & vs & H1 & H2 & H3 & H4 & _ & H5 & H6).
  - apply pk_unique_singleton.
  - apply references_store_T1.
  - reflexivity.
  - repeat constructor.
  - simpl. apply NoDup_cons. split; [|apply NoDup_singleton].
    rewrite list_elem_of_singleton. discriminate.
  - intros u _. reflexivity.
  - by exists d, s1, s', d', vs.
Defined.

Lemma getDocumentVersion_after_uploads_witness :
  exists d s1 s' row,
    DocumentService.createDocument sample_env sample_stringify
      "doc-9" "k0" "%PDF 0" policy_pdf None store_T1 = Ok (d, s1) /\
    DocumentService.updateDocuments sample_env sample_stringify
      "doc-9" [reupload "1"; reupload "2"] s1 = Ok s' /\
    DocumentService.getDocumentVersion "doc-9" 3 "T1" s' = Some row /\
    dv_version row = 3 /\
    DocumentService.getDocumentVersion "doc-9" 1 "T1" s' = None /\
    DocumentService.getDocumentVersion "doc-9" 3 "T2" s' = None.
Proof.
  destruct (getDocumentVersion_after_uploads sample_env sample_stringify
              store_T1 "doc-9" "k0" "%PDF 0" policy_pdf None
              [reupload "1"; reupload "2"])
    as (d & s1 & s' & H1 & H2 & Hin & _ & Hfirst & Hother).
  - apply pk_unique_singleton.
  - apply references_store_T1.
  - reflexivity.
  - repeat constructor.
  - simpl. apply NoDup_cons. split; [|apply NoDup_singleton].
    rewrite list_elem_of_singleton. discriminate.
  - intros u _. reflexivity.
  - destruct (Hin 3) as (row & Hrow & Hver & _); [simpl; lia|].
    exists d, s1, s', row. split; [exact H1|]. split; [exact H2|].
    split; [exact Hrow|]. split; [exact Hver|]. split; [exact Hfirst|].
    apply Hother. discriminate.
Defined.

Lemma template_routes_by_id_witness :
  TemplateRoutes.get_template sample_env sample_verify store_T1
    (bearer token_u1 (template_request "tpl-1"))
  = ({| status := 200;
        json := Some (TemplateController.template_json template_T1) |},
     store_T1) /\
  TemplateRoutes.get_template sample_env sample_verify store_T1
    (bearer token_u1 (template_request "tpl-9"))
  = (error_response 404 "Template not found", store_T1).
Proof.
  split.
  - refine (proj1 (proj1 (template_routes_by_id sample_env sample_verify store_T1
                            (bearer token_u1 (template_request "tpl-1")) _
                            (issued_claims "u-1" "T1") "T1"
                            eq_refl eq_refl eq_refl _
                            (pk_unique_singleton template_T1))
                     template_T1 _ eq_refl)).
    + discriminate.
    + by left.
  - refine (proj1 (proj2 (template_routes_by_id sample_env sample_verify store_T1
                            (bearer token_u1 (template_request "tpl-9")) _
                            (issued_claims "u-1" "T1") "T1"
                            eq_refl eq_refl eq_refl _
                            (pk_unique_singleton template_T1))
                     _)).
    + discriminate.
    + intros Hin. apply list_elem_of_singleton in Hin. discriminate Hin.
Defined.

Lemma post_template_never_creates_witness :
  exists res,
    TemplateRoutes.post_template sample_env sample_verify "tpl-2" store_T1
      (bearer token_u1 (template_request "")) = (res, store_T1) /\
    status res = 401.
Proof.
  exact (proj2 (proj2 (proj2 (post_template_never_creates sample_env
                                sample_verify "tpl-2" store_T1
                                (bearer token_u1 (template_request "")))))
           sample_sign "u-1" "T1" sample_jwt_round_trip eq_refl).
Defined.
